(** * mobile_app/api.py: the mobile endpoints over the ERP framework

    A shallow embedding of [mobile_login], [get_employee_configuration],
    [_get_employee_settings], [_validate_location],
    [_handle_photo_upload], [create_checkin_checkout],
    [get_employee_checkin_records] and the reporting endpoints
    [get_item_stock_and_prices], [get_customers_with_loyalty_balance]
    and [get_sales_orders].

    Python values are a small tagged union, exceptions are values of an
    outcome type, and the framework (the ORM tables, the response object,
    the error log) is an explicit [world] threaded through a state and
    exception monad in which the state survives a raise, as a committed
    database does.  What the framework computes on its own (parsing,
    formatting, distance, the storage layer's verdicts) is a record of
    functions, [framework]; the general statements hold for every such
    record, and the runs on concrete inputs use the one of [Demo]. *)

From Stdlib Require Import ZArith QArith Qabs Qround Bool List String Ascii Lia.
From Stdlib Require Import DecimalString.
From Stdlib Require Import Init.Byte.
From Stdlib Require Import Sorting.Permutation Sorting.Sorted.
Import ListNotations.

Local Open Scope string_scope.
Local Open Scope Z_scope.

(* ================================================================== *)
(** ** Python values *)

(** A float: a finite value, or one of the three non-finite ones. *)
Inductive pyfloat :=
| Finite (q : Q)
| PosInf
| NegInf
| NaN.

(** The values an endpoint argument can take once the request body has
    been decoded.  [PObj] stands for any other object (a list, a dict);
    only its truth value matters here, [float] and [int] reject it. *)
Inductive pyval :=
| PNone
| PBool (b : bool)
| PInt (z : Z)
| PFloat (f : pyfloat)
| PStr (s : string)
| PObj (truth : bool).

Definition float_truthy (f : pyfloat) : bool :=
  match f with
  | Finite q => negb (Qeq_bool q 0)
  | _ => true
  end.

(** [bool(v)], the test behind [if v] and [not v]. *)
Definition truthy (v : pyval) : bool :=
  match v with
  | PNone => false
  | PBool b => b
  | PInt z => negb (z =? 0)
  | PFloat f => float_truthy f
  | PStr s => negb (String.eqb s "")
  | PObj t => t
  end.

(** An optional text argument: [None] or a [str]. *)
Definition truthy_str (o : option string) : bool :=
  match o with
  | Some s => negb (String.eqb s "")
  | None => false
  end.

Definition or_empty (o : option string) : string :=
  match o with Some s => s | None => "" end.

(** Float comparisons; every comparison with a NaN is false. *)
Definition fle (a b : pyfloat) : bool :=
  match a, b with
  | NaN, _ | _, NaN => false
  | NegInf, _ => true
  | _, PosInf => true
  | Finite x, Finite y => Qle_bool x y
  | _, _ => false
  end.

Definition flt (a b : pyfloat) : bool :=
  match a, b with
  | NaN, _ | _, NaN => false
  | NegInf, NegInf | PosInf, PosInf => false
  | NegInf, _ => true
  | _, PosInf => true
  | Finite x, Finite y => Qle_bool x y && negb (Qeq_bool x y)
  | _, _ => false
  end.

Definition fgt (a b : pyfloat) : bool := flt b a.

Definition float_of_Z (z : Z) : pyfloat := Finite (inject_Z z).

(* ================================================================== *)
(** ** Text *)

Definition lower_ascii (c : ascii) : ascii :=
  let n := nat_of_ascii c in
  if (65 <=? n)%nat && (n <=? 90)%nat then ascii_of_nat (n + 32) else c.

(** [str.lower] on text held as bytes: the letters A-Z are folded. *)
Fixpoint lower (s : string) : string :=
  match s with
  | EmptyString => EmptyString
  | String c r => String (lower_ascii c) (lower r)
  end.

(** [s.startswith(p)] *)
Definition startswith (p s : string) : bool := String.prefix p s.

(** [p in s] for two strings. *)
Fixpoint contains (p s : string) : bool :=
  if String.prefix p s then true
  else match s with
       | EmptyString => false
       | String _ r => contains p r
       end.

(** [s.split(",", 1)]: [None] when there is no comma, else the text
    before and after the first one. *)
Fixpoint split_comma (s : string) : option (string * string) :=
  match s with
  | EmptyString => None
  | String c r =>
      if Ascii.eqb c ","%char then Some (EmptyString, r)
      else match split_comma r with
           | Some (a, b) => Some (String c a, b)
           | None => None
           end
  end.

Definition str_in (s : string) (l : list string) : bool :=
  existsb (String.eqb s) l.

(* ================================================================== *)
(** ** Exceptions and outcomes *)

Inductive exc_class :=
| ValidationError
| DoesNotExistError
| CheckinRadiusExceededError
| InactiveEmployeeStatusError
| AuthenticationError
| DuplicateEntryError
| ValueError
| TypeError
| IndexError
| OverflowError
| OtherError.

Record exc := mkExc { exc_cls : exc_class; exc_msg : string }.

(** [isinstance(e, ValidationError)]: the framework derives the not-found,
    radius and inactive-employee errors from its validation error. *)
Definition is_validation (c : exc_class) : bool :=
  match c with
  | ValidationError | DoesNotExistError
  | CheckinRadiusExceededError | InactiveEmployeeStatusError => true
  | _ => false
  end.

Definition is_value_or_type (c : exc_class) : bool :=
  match c with
  | ValueError | TypeError => true
  | _ => false
  end.

Inductive outcome (A : Type) :=
| Ok (a : A)
| Raise (e : exc).
Arguments Ok {A} a.
Arguments Raise {A} e.

Definition obind {A B} (o : outcome A) (k : A -> outcome B) : outcome B :=
  match o with
  | Ok a => k a
  | Raise e => Raise e
  end.

(** [try: o  except Exception as e: h e] on a computation without state. *)
Definition ocatch {A} (o : outcome A) (h : exc -> outcome A) : outcome A :=
  match o with
  | Ok a => Ok a
  | Raise e => h e
  end.

(** [frappe.throw(msg, cls)] *)
Definition othrow {A} (msg : string) (cls : exc_class) : outcome A :=
  Raise (mkExc cls msg).

Declare Scope outcome_scope.
Delimit Scope outcome_scope with outcome.
Notation "x <~ a ;; b" := (obind a (fun x => b))
  (at level 61, a at next level, right associativity) : outcome_scope.
Notation "a ;;~ b" := (obind a (fun _ => b))
  (at level 61, right associativity) : outcome_scope.

(* ================================================================== *)
(** ** Dates and times *)

(** A [datetime]: wall-clock seconds counted from 0001-01-01 00:00:00,
    the microsecond field, and the UTC offset in seconds of an aware
    value ([None] for a naive one). *)
Record datetime := mkDatetime {
  wall : Z;
  micro : Z;
  tzoff : option Z
}.

Definition SECONDS_PER_DAY : Z := 86400.

(** One past [datetime.max]: 9999-12-31 is day 3652059. *)
Definition MAX_WALL : Z := 3652059 * SECONDS_PER_DAY.

Definition in_range (s : Z) : bool := (0 <=? s) && (s <? MAX_WALL).

Definition overflow {A} : outcome A :=
  Raise (mkExc OverflowError "date value out of range").

(** [dt.astimezone(timezone.utc)] on an aware value. *)
Definition astimezone_utc (d : datetime) : outcome datetime :=
  match tzoff d with
  | Some off =>
      let s := wall d - off in
      if in_range s then Ok (mkDatetime s (micro d) (Some 0)) else overflow
  | None => Ok d
  end.

(** [dt.replace(tzinfo=None)] *)
Definition replace_tzinfo_none (d : datetime) : datetime :=
  mkDatetime (wall d) (micro d) None.

(** [dt.replace(microsecond=0)] *)
Definition replace_microsecond_0 (d : datetime) : datetime :=
  mkDatetime (wall d) 0 (tzoff d).

(** [dt.replace(hour=0, minute=0, second=0, microsecond=0)] *)
Definition replace_midnight (d : datetime) : datetime :=
  mkDatetime (wall d - wall d mod SECONDS_PER_DAY) 0 (tzoff d).

(** [dt + timedelta(days=1)] *)
Definition add_one_day (d : datetime) : outcome datetime :=
  let s := wall d + SECONDS_PER_DAY in
  if in_range s then Ok (mkDatetime s (micro d) (tzoff d)) else overflow.

(** The calendar date of a value: its day number. *)
Definition date_of (d : datetime) : Z := wall d / SECONDS_PER_DAY.

(** The order the storage layer puts on stored times. *)
Definition dt_key (d : datetime) : Z := wall d * 1000000 + micro d.

(** The [between] filter, [time BETWEEN lo AND hi]: both ends included. *)
Definition between (lo hi t : datetime) : bool :=
  (dt_key lo <=? dt_key t) && (dt_key t <=? dt_key hi).

(* ================================================================== *)
(** ** base64 *)

Definition b64_value (c : ascii) : option N :=
  let n := N_of_ascii c in
  (if (65 <=? n) && (n <=? 90) then Some (n - 65)
   else if (97 <=? n) && (n <=? 122) then Some (n - 71)
   else if (48 <=? n) && (n <=? 57) then Some (n + 4)
   else if n =? 43 then Some 62
   else if n =? 47 then Some 63
   else None)%N.

Definition byte_of_N (n : N) : byte := byte_of_ascii (ascii_of_N n).

Definition binascii_error {A} (msg : string) : outcome A :=
  Raise (mkExc ValueError msg).

(** [binascii.a2b_base64] in its default, lenient mode: characters outside
    the alphabet are skipped, a pad that completes a quad ends the input,
    and a quad left open at the end is an error. *)
Fixpoint a2b_base64 (s : string) (quad_pos leftchar pads : N)
    (out : list byte) : outcome (list byte) :=
  match s with
  | EmptyString =>
      if (quad_pos =? 0)%N then Ok (rev out)
      else if (quad_pos =? 1)%N then
        binascii_error "Invalid base64-encoded string: number of data characters cannot be 1 more than a multiple of 4"
      else binascii_error "Incorrect padding"
  | String c r =>
      if Ascii.eqb c "="%char then
        if (2 <=? quad_pos)%N then
          if (4 <=? quad_pos + (pads + 1))%N then Ok (rev out)
          else a2b_base64 r quad_pos leftchar (pads + 1)%N out
        else a2b_base64 r quad_pos leftchar pads out
      else
        match b64_value c with
        | None => a2b_base64 r quad_pos leftchar pads out
        | Some v =>
            match quad_pos with
            | 0%N => a2b_base64 r 1%N v 0%N out
            | 1%N =>
                a2b_base64 r 2%N (N.land v 15) 0%N
                  (byte_of_N (N.lor (N.shiftl leftchar 2) (N.shiftr v 4)) :: out)
            | 2%N =>
                a2b_base64 r 3%N (N.land v 3) 0%N
                  (byte_of_N (N.lor (N.shiftl leftchar 4) (N.shiftr v 2)) :: out)
            | _ =>
                a2b_base64 r 0%N 0%N 0%N
                  (byte_of_N (N.lor (N.shiftl leftchar 6) v) :: out)
            end
        end
  end.

Fixpoint is_ascii_text (s : string) : bool :=
  match s with
  | EmptyString => true
  | String c r => (N_of_ascii c <? 128)%N && is_ascii_text r
  end.

(** [base64.b64decode(s)] for a [str] argument. *)
Definition b64decode (s : string) : outcome (list byte) :=
  if is_ascii_text s then a2b_base64 s 0%N 0%N 0%N []
  else Raise (mkExc ValueError
                "string argument should contain only ASCII characters").

(** [len(b)] *)
Definition len (b : list byte) : Z := Z.of_nat (List.length b).

(* ================================================================== *)
(** ** The documents the endpoints read and write *)

Record user := mkUser {
  usr_name : string;
  usr_email : option string;
  usr_full_name : option string;
  usr_api_key : option string;
  usr_api_secret : option string
}.

Record employee := mkEmployee {
  emp_name : string;
  emp_employee_name : option string;
  emp_employee_code : option string;
  emp_employee_number : option string;
  emp_company_email : option string;
  emp_status : string;
  emp_company : option string;
  emp_department : option string;
  emp_branch : option string
}.

Record company := mkCompany {
  co_name : string;
  (** [None]: the custom field is not installed or holds no value. *)
  custom_attendnace_validations_based_on_department : option bool
}.

(** A rule attribute on a Department or Project document: not an
    attribute of the document at all, present without a value, or set. *)
Inductive attr :=
| Absent
| Null
| Value (b : bool).

Record rules := mkRules {
  custom_required_to_upload_location_photo : attr;
  custom_required_to_upload_client_bio_metric_photo : attr;
  custom_required_location_check_on_check_out : attr
}.

Record department := mkDepartment {
  dep_name : string;
  dep_rules : rules;
  custom_project : option string
}.

Record project := mkProject {
  prj_name : string;
  prj_rules : rules
}.

Record branch := mkBranch {
  br_name : string;
  br_branch : option string;
  custom_latitude : pyval;
  custom_longitude : pyval;
  custom_radius_in_meters : pyval
}.

Record file_doc := mkFile {
  f_name : string;
  f_file_name : string;
  f_file_url : string;
  f_attached_to_doctype : option string;
  f_attached_to_name : option string;
  f_content : list byte
}.

Record shift_info := mkShift {
  sh_shift : option string;
  sh_shift_start : option datetime;
  sh_shift_end : option datetime;
  sh_attendance : option string
}.

(** An Employee Checkin document. *)
Record checkin := mkCheckin {
  ck_name : string;
  ck_employee : string;
  ck_employee_name : string;
  ck_log_type : string;
  ck_time : datetime;
  ck_latitude : option pyfloat;
  ck_longitude : option pyfloat;
  ck_device_id : option string;
  ck_notes : option string;
  ck_shift : shift_info;
  ck_skip_auto_attendance : Z;
  ck_custom_location_photo : option string;
  ck_custom_client_bio_metric_photo : option string
}.

(** An uploaded multipart file: its file name (an unnamed one is falsy)
    and what reading its stream gives. *)
Record file_storage := mkStorage {
  fs_filename : string;
  fs_read : outcome (list byte)
}.

(** A photo argument of the endpoint.  [PhOther] is any other object
    (a number, say), one without a length. *)
Inductive photo_arg :=
| PhNone
| PhStr (s : string)
| PhBytes (b : list byte)
| PhStorage (fs : file_storage)
| PhOther (truth : bool).

Definition photo_truthy (p : photo_arg) : bool :=
  match p with
  | PhNone => false
  | PhStr s => negb (String.eqb s "")
  | PhBytes b => negb (len b =? 0)
  | PhStorage fs => negb (String.eqb (fs_filename fs) "")
  | PhOther t => t
  end.

(* ================================================================== *)
(** ** The framework *)

(** What the surrounding framework computes without touching the tables
    below.  Nothing is assumed about these functions. *)
Record framework := mkFramework {
  (** [float(s)] and [int(s)] on text; [None] is a [ValueError]. *)
  float_of_str : string -> option pyfloat;
  int_of_str : string -> option Z;
  get_distance_between_coordinates :
    pyfloat -> pyfloat -> pyfloat -> pyfloat -> outcome pyfloat;
  (** [frappe.utils.get_datetime(text)] *)
  get_datetime : string -> outcome datetime;
  (** ["{0:.2f}".format(x)], [str(n)], [round(x, 2)] *)
  format_2f : pyfloat -> string;
  str_of_Z : Z -> string;
  round2 : pyfloat -> pyfloat;
  (** [d.strftime("%B %d, %Y")] on a day number, [dt.isoformat()],
      [dt.strftime("%Y%m%d_%H%M%S")] *)
  strftime_date : Z -> string;
  isoformat : datetime -> string;
  strftime_stamp : datetime -> string;
  (** [LoginManager.authenticate]: the authenticated user, if any. *)
  authenticate : string -> string -> outcome (option string);
  (** [LoginManager.post_login]'s verdict on opening the session. *)
  post_login_check : string -> option exc;
  (** [frappe.generate_hash], by the number of hashes drawn before. *)
  generate_hash : nat -> string;
  (** The storage layer's verdict on a save or insert: [None] accepts. *)
  user_save_check : user -> option exc;
  checkin_insert_check : list checkin -> checkin -> option exc;
  file_save_check : file_doc -> option exc;
  save_file_check : string -> list byte -> option exc;
  (** Names given to new documents, by the table they go to. *)
  checkin_autoname : list checkin -> checkin -> string;
  file_autoname : list file_doc -> string -> string;
  (** [checkin_doc.fetch_shift()] *)
  fetch_shift : string -> datetime -> outcome shift_info;
  (** Whether the Employee Checkin doctype has these custom fields. *)
  has_notes : bool;
  has_custom_location_photo : bool;
  has_custom_client_bio_metric_photo : bool
}.

(** The state the endpoints act on. *)
Record world := mkWorld {
  session_user : string;
  session_sid : option string;
  tabUser : list user;
  tabEmployee : list employee;
  tabCompany : list company;
  tabDepartment : list department;
  tabProject : list project;
  tabBranch : list branch;
  tabFile : list file_doc;
  tabEmployee_Checkin : list checkin;
  (** [frappe.request.files] *)
  request_files : list (string * file_storage);
  (** [frappe.local.response.http_status_code]; [None] until set. *)
  http_status_code : option Z;
  (** [frappe.log_error]: title and message, latest first. *)
  error_log : list (string * string);
  hashes_drawn : nat;
  (** [now_datetime()] *)
  now : datetime
}.

Definition set_session (u : string) (w : world) : world :=
  mkWorld u (session_sid w) (tabUser w) (tabEmployee w) (tabCompany w)
    (tabDepartment w) (tabProject w) (tabBranch w) (tabFile w)
    (tabEmployee_Checkin w) (request_files w) (http_status_code w)
    (error_log w) (hashes_drawn w) (now w).

Definition set_tabUser (t : list user) (w : world) : world :=
  mkWorld (session_user w) (session_sid w) t (tabEmployee w) (tabCompany w)
    (tabDepartment w) (tabProject w) (tabBranch w) (tabFile w)
    (tabEmployee_Checkin w) (request_files w) (http_status_code w)
    (error_log w) (hashes_drawn w) (now w).

Definition set_tabFile (t : list file_doc) (w : world) : world :=
  mkWorld (session_user w) (session_sid w) (tabUser w) (tabEmployee w)
    (tabCompany w) (tabDepartment w) (tabProject w) (tabBranch w) t
    (tabEmployee_Checkin w) (request_files w) (http_status_code w)
    (error_log w) (hashes_drawn w) (now w).

Definition set_tabEmployee_Checkin (t : list checkin) (w : world) : world :=
  mkWorld (session_user w) (session_sid w) (tabUser w) (tabEmployee w)
    (tabCompany w) (tabDepartment w) (tabProject w) (tabBranch w)
    (tabFile w) t (request_files w) (http_status_code w)
    (error_log w) (hashes_drawn w) (now w).

Definition set_http_status_code (c : Z) (w : world) : world :=
  mkWorld (session_user w) (session_sid w) (tabUser w) (tabEmployee w)
    (tabCompany w) (tabDepartment w) (tabProject w) (tabBranch w)
    (tabFile w) (tabEmployee_Checkin w) (request_files w) (Some c)
    (error_log w) (hashes_drawn w) (now w).

Definition add_error_log (title message : string) (w : world) : world :=
  mkWorld (session_user w) (session_sid w) (tabUser w) (tabEmployee w)
    (tabCompany w) (tabDepartment w) (tabProject w) (tabBranch w)
    (tabFile w) (tabEmployee_Checkin w) (request_files w)
    (http_status_code w) ((title, message) :: error_log w)
    (hashes_drawn w) (now w).

Definition draw_hash (w : world) : world :=
  mkWorld (session_user w) (session_sid w) (tabUser w) (tabEmployee w)
    (tabCompany w) (tabDepartment w) (tabProject w) (tabBranch w)
    (tabFile w) (tabEmployee_Checkin w) (request_files w)
    (http_status_code w) (error_log w) (S (hashes_drawn w)) (now w).

(* ================================================================== *)
(** ** The monad of an endpoint: state that survives an exception *)

Definition M (A : Type) : Type := world -> outcome A * world.

Definition ret {A} (a : A) : M A := fun w => (Ok a, w).

Definition bind {A B} (m : M A) (k : A -> M B) : M B :=
  fun w =>
    match m w with
    | (Ok a, w') => k a w'
    | (Raise e, w') => (Raise e, w')
    end.

Definition raise {A} (e : exc) : M A := fun w => (Raise e, w).

(** [frappe.throw(msg, cls)], and [raise cls(msg)]. *)
Definition throw {A} (msg : string) (cls : exc_class) : M A :=
  raise (mkExc cls msg).

(** [try: m  except Exception as e: h e] *)
Definition try_except {A} (m : M A) (h : exc -> M A) : M A :=
  fun w =>
    match m w with
    | (Ok a, w') => (Ok a, w')
    | (Raise e, w') => h e w'
    end.

Definition lift {A} (o : outcome A) : M A := fun w => (o, w).

Definition gets {A} (f : world -> A) : M A := fun w => (Ok (f w), w).

Definition modify (f : world -> world) : M unit := fun w => (Ok tt, f w).

Declare Scope endpoint_scope.
Delimit Scope endpoint_scope with endpoint.
Notation "x <- a ;; b" := (bind a (fun x => b))
  (at level 61, a at next level, right associativity) : endpoint_scope.
Notation "a ;; b" := (bind a (fun _ => b))
  (at level 61, right associativity) : endpoint_scope.

(** [frappe.log_error(title=..., message=...)] *)
Definition log_error (title message : string) : M unit :=
  modify (add_error_log title message).

(** The first row of a table with the given key. *)
Definition lookup {A} (key : A -> string) (n : string) (t : list A)
  : option A :=
  find (fun x => String.eqb (key x) n) t.

(** [frappe.get_doc(doctype, name)]: the document, or the not-found error. *)
Definition get_doc {A} (doctype : string) (key : A -> string)
    (table : world -> list A) (n : string) : M A :=
  fun w =>
    match lookup key n (table w) with
    | Some d => (Ok d, w)
    | None =>
        (Raise (mkExc DoesNotExistError (doctype ++ " " ++ n ++ " not found")), w)
    end.

(** [frappe.db.exists(doctype, name)] *)
Definition db_exists {A} (key : A -> string) (table : world -> list A)
    (n : string) : M bool :=
  gets (fun w => match lookup key n (table w) with
                 | Some _ => true
                 | None => false
                 end).

Local Open Scope endpoint_scope.

(* ================================================================== *)
(** ** Results of the endpoints *)

Record login_response := mkLoginResponse {
  lr_message : string;
  lr_home_page : string;
  lr_full_name : string;
  lr_sid : option string
}.

Record api_credentials := mkCredentials {
  token : option string;
  generated : bool;
  cred_message : string
}.

Record login_result := mkLoginResult {
  login : login_response;
  credentials : api_credentials
}.

(** The dictionary [_get_employee_settings] returns. *)
Record settings := mkSettings {
  required_to_upload_location_photo : bool;
  required_to_upload_client_bio_metric_photo : bool;
  require_location_check_on_check_out : bool;
  branch_latitude : pyfloat;
  branch_longitude : pyfloat;
  branch_radius : Z;
  settings_branch : string
}.

(** The success dictionary of [create_checkin_checkout]; the optional
    keys are options. *)
Record checkin_response := mkCheckinResponse {
  resp_checkin_id : string;
  resp_employee_id : string;
  resp_employee_name : string;
  resp_log_type : string;
  resp_time : string;
  resp_latitude : option pyfloat;
  resp_longitude : option pyfloat;
  resp_shift : option string;
  resp_shift_start : option string;
  resp_shift_end : option string;
  resp_attendance : option string;
  resp_status : string;
  resp_distance_from_branch_meters : option pyfloat;
  (** url and id of each attached photo *)
  resp_location_photo : option (string * string);
  resp_client_biometric_photo : option (string * string)
}.

(** What [create_checkin_checkout] returns: the success dictionary, or
    [{"exception": message}]. *)
Inductive response :=
| Success (r : checkin_response)
| Failure (message : string).

Record checkin_args := mkArgs {
  employee_id : option string;
  log_type : string;
  latitude : pyval;
  longitude : pyval;
  device_id : option string;
  location_photo : photo_arg;
  client_biometric_photo : photo_arg;
  timestamp : option string;
  notes : option string;
  checkin_id : option string;
  location_photo_id : option string;
  client_biometric_photo_id : option string
}.

(** One entry of the list [get_employee_checkin_records] returns. *)
Record record_data := mkRecordData {
  rd_checkin_id : string;
  rd_employee_id : string;
  rd_employee_name : string;
  rd_log_type : string;
  rd_time : string;
  rd_latitude : option pyfloat;
  rd_longitude : option pyfloat;
  rd_device_id : option string;
  rd_shift : option string;
  rd_shift_start : option string;
  rd_shift_end : option string;
  rd_attendance : option string;
  rd_skip_auto_attendance : Z;
  (** id and url of each photo *)
  rd_location_photo : option (string * string);
  rd_client_biometric_photo : option (string * string)
}.

Record records_response := mkRecordsResponse {
  records : list record_data;
  total_count : Z;
  rr_limit : Z;
  rr_offset : Z;
  has_more : bool
}.

(** The [time] entry of a filter dictionary. *)
Inductive time_filter :=
| AnyTime
| Between (lo hi : datetime)
| AtLeast (lo : datetime)
| Before (hi : datetime).

Definition time_matches (f : time_filter) (t : datetime) : bool :=
  match f with
  | AnyTime => true
  | Between lo hi => between lo hi t
  | AtLeast lo => dt_key lo <=? dt_key t
  | Before hi => dt_key t <? dt_key hi
  end.

(** A filter dictionary on Employee Checkin: employee, optional
    log type, optional time condition. *)
Definition matches (emp : string) (lt : option string) (tf : time_filter)
    (c : checkin) : bool :=
  String.eqb (ck_employee c) emp
  && match lt with
     | Some l => String.eqb (ck_log_type c) l
     | None => true
     end
  && time_matches tf (ck_time c).

(** [frappe.db.count("Employee Checkin", filters=...)] *)
Definition db_count (emp : string) (lt : option string) (tf : time_filter)
    : M Z :=
  gets (fun w => Z.of_nat
     (List.length (filter (matches emp lt tf) (tabEmployee_Checkin w)))).

(** [frappe.db.exists("Employee Checkin", {...})] *)
Definition checkin_exists (emp : string) (lt : option string)
    (tf : time_filter) : M bool :=
  gets (fun w => existsb (matches emp lt tf) (tabEmployee_Checkin w)).

Definition when_ (b : bool) (m : M unit) : M unit :=
  if b then m else ret tt.

Definition opt_or (a b : option string) : option string :=
  if truthy_str a then a else b.

Definition opt_or_str (a : option string) (b : string) : string :=
  if truthy_str a then or_empty a else b.

(* ================================================================== *)
(** ** The source functions *)

Section Endpoints.

Variable fw : framework.

(** [float(n)] of an [int]: the nearest double, a tie going to the even
    one of the two 53-bit mantissas, and an [OverflowError] when that
    lies beyond the largest double. *)
Definition float_of_int (n : Z) : outcome pyfloat :=
  let a := Z.abs n in
  let shift := Z.log2 a + 1 - 53 in
  if shift <=? 0 then Ok (float_of_Z n)
  else
    let q := Z.shiftr a shift in
    let r := a - Z.shiftl q shift in
    let half := Z.shiftl 1 (shift - 1) in
    let q := if (half <? r) || ((r =? half) && Z.odd q) then q + 1 else q in
    let m := Z.shiftl q shift in
    if 2 ^ 1024 <=? m then
      Raise (mkExc OverflowError "int too large to convert to float")
    else Ok (float_of_Z (Z.sgn n * m)).

(** [float(v)] *)
Definition py_float (v : pyval) : outcome pyfloat :=
  match v with
  | PBool b => Ok (float_of_Z (if b then 1 else 0))
  | PInt z => float_of_int z
  | PFloat f => Ok f
  | PStr s =>
      match float_of_str fw s with
      | Some f => Ok f
      | None =>
          Raise (mkExc ValueError
                   ("could not convert string to float: '" ++ s ++ "'"))
      end
  | PNone | PObj _ =>
      Raise (mkExc TypeError
               "float() argument must be a string or a real number")
  end.

(** [int(v)]: a finite float is cut toward zero, a NaN is a [ValueError],
    an infinity an [OverflowError]. *)
Definition py_int (v : pyval) : outcome Z :=
  match v with
  | PBool b => Ok (if b then 1 else 0)
  | PInt z => Ok z
  | PFloat (Finite q) => Ok (Z.quot (Qnum q) (Zpos (Qden q)))
  | PFloat NaN =>
      Raise (mkExc ValueError "cannot convert float NaN to integer")
  | PFloat _ =>
      Raise (mkExc OverflowError "cannot convert float infinity to integer")
  | PStr s =>
      match int_of_str fw s with
      | Some z => Ok z
      | None =>
          Raise (mkExc ValueError
                   ("invalid literal for int() with base 10: '" ++ s ++ "'"))
      end
  | PNone | PObj _ =>
      Raise (mkExc TypeError
               "int() argument must be a string, a bytes-like object or a real number")
  end.

(* ------------------------------------------------------------------ *)
(** *** mobile_login *)

(** Lines 50-54: the flag as a boolean. *)
Definition coerce_has_existing_token (has_existing_token : pyval) : bool :=
  match has_existing_token with
  | PStr s => str_in (lower s) ["true"; "1"; "yes"]
  | v => truthy v
  end.

(** [login_manager.post_login()]: the session becomes the user's. *)
Definition post_login (u : string) : M unit :=
  match post_login_check fw u with
  | Some e => raise e
  | None => modify (set_session u)
  end.

(** [frappe.generate_hash(length=15)] *)
Definition draw_generate_hash : M string :=
  n <- gets hashes_drawn ;;
  modify draw_hash ;;
  ret (generate_hash fw n).

Definition replace_user (u : user) (t : list user) : list user :=
  map (fun x => if String.eqb (usr_name x) (usr_name u) then u else x) t.

(** [user_doc.save(ignore_permissions=True)] and the commit. *)
Definition save_user (u : user) : M unit :=
  match user_save_check fw u with
  | Some e => raise e
  | None => modify (fun w => set_tabUser (replace_user u (tabUser w)) w)
  end.

Definition mobile_login (usr pwd : option string) (has_existing_token : pyval)
    : M login_result :=
  when_ (negb (truthy_str usr))
    (throw "Username is required." ValidationError) ;;
  when_ (negb (truthy_str pwd))
    (throw "Password is required." ValidationError) ;;
  let has_existing_token := coerce_has_existing_token has_existing_token in
  login_manager_user <-
    try_except
      (u <- lift (authenticate fw (or_empty usr) (or_empty pwd)) ;;
       if negb (truthy_str u) then
         throw "Invalid login credentials. Please check your username and password."
           ValidationError
       else
         post_login (or_empty u) ;;
         ret (or_empty u))
      (fun e =>
         match exc_cls e with
         | AuthenticationError =>
             throw ("Login failed: " ++ exc_msg e) ValidationError
         | _ => throw ("Login error: " ++ exc_msg e) ValidationError
         end) ;;
  user_doc <-
    try_except (get_doc "User" usr_name tabUser login_manager_user)
      (fun e =>
         throw ("Error retrieving user information: " ++ exc_msg e)
           ValidationError) ;;
  sid <- gets session_sid ;;
  let login_response :=
    mkLoginResponse "Logged In" "/app"
      (opt_or_str (usr_full_name user_doc) (usr_name user_doc)) sid in
  api_credentials <-
    (if has_existing_token then
       ret (mkCredentials None false "Using existing API credentials.")
     else
       try_except
         (let has_api_key := truthy_str (usr_api_key user_doc) in
          api_secret <- draw_generate_hash ;;
          api_key <-
            (if negb (truthy_str (usr_api_key user_doc))
             then draw_generate_hash
             else ret (or_empty (usr_api_key user_doc))) ;;
          save_user
            (mkUser (usr_name user_doc) (usr_email user_doc)
               (usr_full_name user_doc) (Some api_key) (Some api_secret)) ;;
          ret (mkCredentials (Some (api_key ++ ":" ++ api_secret)) true
                 (if negb has_api_key
                  then "API credentials generated successfully."
                  else "New API credentials generated. Old credentials are now invalid.")))
         (fun e =>
            throw ("Error generating API credentials: " ++ exc_msg e)
              ValidationError)) ;;
  ret (mkLoginResult login_response api_credentials).

(* ------------------------------------------------------------------ *)
(** *** _get_employee_settings *)

Definition hasattr (a : attr) : bool :=
  match a with
  | Absent => false
  | _ => true
  end.

(** [getattr(doc, name, None)], defaulted to [False] when [None], and
    then [bool(...)]. *)
Definition rule_value (a : attr) : bool :=
  match a with
  | Value b => b
  | _ => false
  end.

Definition has_any_rule (r : rules) : bool :=
  hasattr (custom_required_to_upload_location_photo r)
  || hasattr (custom_required_to_upload_client_bio_metric_photo r)
  || hasattr (custom_required_location_check_on_check_out r).

Definition is_none (v : pyval) : bool :=
  match v with
  | PNone => true
  | _ => false
  end.

Definition _get_employee_settings (employee : employee) : M settings :=
  let department := or_empty (emp_department employee) in
  let company := emp_company employee in
  when_ (negb (truthy_str company))
    (throw "Employee has no company assigned." ValidationError) ;;
  company_doc <- get_doc "Company" co_name tabCompany (or_empty company) ;;
  let use_department_settings :=
    match custom_attendnace_validations_based_on_department company_doc with
    | Some b => b
    | None => false
    end in
  r <-
    (if use_department_settings then
       when_ (String.eqb department "")
         (throw "Company setting requires Department settings, but Employee has no Department assigned."
            ValidationError) ;;
       department_doc <- get_doc "Department" dep_name tabDepartment department ;;
       when_ (negb (has_any_rule (dep_rules department_doc)))
         (throw "Company setting requires Department settings, but Department has no validation settings configured."
            ValidationError) ;;
       ret (dep_rules department_doc)
     else
       when_ (String.eqb department "")
         (throw "Company setting requires Project settings, but Employee has no Department assigned."
            ValidationError) ;;
       department_doc <- get_doc "Department" dep_name tabDepartment department ;;
       let project := custom_project department_doc in
       when_ (negb (truthy_str project))
         (throw "Company setting requires Project settings, but Department has no linked Project."
            ValidationError) ;;
       project_doc <- get_doc "Project" prj_name tabProject (or_empty project) ;;
       when_ (negb (has_any_rule (prj_rules project_doc)))
         (throw "Company setting requires Project settings, but linked Project has no validation settings configured."
            ValidationError) ;;
       ret (prj_rules project_doc)) ;;
  let branch := or_empty (emp_branch employee) in
  when_ (String.eqb branch "")
    (throw "Employee has no branch assigned." ValidationError) ;;
  branch_doc <- get_doc "Branch" br_name tabBranch branch ;;
  let latitude := custom_latitude branch_doc in
  let longitude := custom_longitude branch_doc in
  let radius := custom_radius_in_meters branch_doc in
  when_ (is_none latitude || is_none longitude || is_none radius)
    (let branch_name := opt_or_str (br_branch branch_doc) branch in
     throw ("Branch " ++ branch_name
              ++ " does not have location information configured.")
       ValidationError) ;;
  lat <- lift (py_float latitude) ;;
  lon <- lift (py_float longitude) ;;
  rad <- lift (py_int radius) ;;
  ret (mkSettings
         (rule_value (custom_required_to_upload_location_photo r))
         (rule_value (custom_required_to_upload_client_bio_metric_photo r))
         (rule_value (custom_required_location_check_on_check_out r))
         lat lon rad branch).

(* ------------------------------------------------------------------ *)
(** *** _validate_location *)

Local Open Scope outcome_scope.

Definition _validate_location (latitude longitude : pyval)
    (branch_latitude branch_longitude : pyfloat) (branch_radius : Z)
    (log_type : string) : outcome pyfloat :=
  (if negb (truthy latitude) || negb (truthy longitude) then
     let action := if String.eqb log_type "IN" then "check-in" else "check-out" in
     othrow ("Location coordinates are required for " ++ action
               ++ ". Please enable GPS and try again.") ValidationError
   else Ok tt) ;;~
  ll <~ ocatch
          (lat <~ py_float latitude ;; lon <~ py_float longitude ;; Ok (lat, lon))
          (fun e =>
             if is_value_or_type (exc_cls e) then
               othrow ("Invalid location coordinates. Please ensure GPS is enabled and try again. Error: "
                         ++ exc_msg e) ValidationError
             else Raise e) ;;
  let latitude := fst ll in
  let longitude := snd ll in
  (if negb (fle (float_of_Z (-90)) latitude && fle latitude (float_of_Z 90)) then
     othrow "Invalid latitude value. Latitude must be between -90 and 90 degrees."
       ValidationError
   else Ok tt) ;;~
  (if negb (fle (float_of_Z (-180)) longitude && fle longitude (float_of_Z 180)) then
     othrow "Invalid longitude value. Longitude must be between -180 and 180 degrees."
       ValidationError
   else Ok tt) ;;~
  distance <~ ocatch
                (get_distance_between_coordinates fw
                   branch_latitude branch_longitude latitude longitude)
                (fun e =>
                   othrow ("Error calculating distance from branch location. Please try again. Error: "
                             ++ exc_msg e) ValidationError) ;;
  if fgt distance (float_of_Z branch_radius) then
    let action := if String.eqb log_type "IN" then "check in" else "check out" in
    othrow ("You are " ++ format_2f fw distance
              ++ " meters away from the branch location. Please move within "
              ++ str_of_Z fw branch_radius ++ " meters to " ++ action ++ ".")
      CheckinRadiusExceededError
  else Ok distance.

Local Close Scope outcome_scope.

(* ------------------------------------------------------------------ *)
(** *** _handle_photo_upload *)

Definition MAX_SIZE : Z := 5 * 1024 * 1024.

(** [save_file(fname=..., content=..., dt=..., dn=..., is_private=0)]:
    a new File document attached to the given document. *)
Definition save_file (fname : string) (content : list byte) (dt dn : string)
    : M file_doc :=
  fun w =>
    match save_file_check fw fname content with
    | Some e => (Raise e, w)
    | None =>
        let d := mkFile (file_autoname fw (tabFile w) fname) fname
                   ("/files/" ++ fname) (Some dt) (Some dn) content in
        (Ok d, set_tabFile (tabFile w ++ [d])%list w)
    end.

(** Lines 513-525: a text that names an existing File is that file. *)
Definition as_file_id (photo_data : photo_arg) : M (option file_doc) :=
  match photo_data with
  | PhStr s =>
      if negb (startswith "data:" s) then
        ex <- db_exists f_name tabFile s ;;
        if ex then
          log_error "Checkin Photo Debug"
            ("_handle_photo_upload - treating as file_id: " ++ s) ;;
          d <- get_doc "File" f_name tabFile s ;;
          ret (Some d)
        else
          log_error "Checkin Photo Debug"
            "_handle_photo_upload - treating string as base64" ;;
          ret None
      else ret None
  | _ => ret None
  end.

(** Lines 527-558: the bytes of the photo. *)
Definition photo_bytes (photo_data : photo_arg) : M (list byte) :=
  match photo_data with
  | PhStr s =>
      payload <-
        (if startswith "data:" s then
           match split_comma s with
           | Some (_, r) => ret r
           | None => raise (mkExc IndexError "list index out of range")
           end
         else ret s) ;;
      try_except
        (file_bytes <- lift (b64decode payload) ;;
         when_ (len file_bytes =? 0)
           (throw "Invalid image data. The photo appears to be empty. Please capture the photo again."
              ValidationError) ;;
         log_error "Checkin Photo Debug"
           ("_handle_photo_upload - decoded base64, size: "
              ++ str_of_Z fw (len file_bytes)) ;;
         ret file_bytes)
        (fun e =>
           log_error "Checkin Photo Debug"
             ("_handle_photo_upload - base64 decode error: " ++ exc_msg e) ;;
           throw "Invalid image format. Please ensure the photo is properly encoded and try again."
             ValidationError)
  | PhBytes b =>
      log_error "Checkin Photo Debug"
        ("_handle_photo_upload - using bytes directly, size: "
           ++ str_of_Z fw (len b)) ;;
      ret b
  | _ => raise (mkExc TypeError "object has no len()")
  end.

(** Lines 560-610: the file name, the size checks and the save. *)
Definition store_photo (file_bytes : list byte)
    (employee_id checkin_id photo_type : string) : M (option file_doc) :=
  t <- gets now ;;
  let filename :=
    photo_type ++ "_photo_" ++ employee_id ++ "_"
      ++ strftime_stamp fw t ++ ".jpg" in
  log_error "Checkin Photo Debug"
    ("Calling save_file - filename: " ++ filename ++ ", checkin: "
       ++ checkin_id ++ ", size: " ++ str_of_Z fw (len file_bytes)) ;;
  file_doc <-
    try_except
      (when_ (len file_bytes =? 0)
         (throw "Photo file is empty. Please capture the photo again and try uploading."
            ValidationError) ;;
       when_ (len file_bytes >? MAX_SIZE)
         (throw "Photo file size exceeds the maximum limit of 5MB. Please compress the image and try again."
            ValidationError) ;;
       file_doc <- save_file filename file_bytes "Employee Checkin" checkin_id ;;
       log_error "Checkin Photo Debug"
         ("save_file successful - file_id: " ++ f_name file_doc) ;;
       ret file_doc)
      (fun e =>
         if is_validation (exc_cls e) then raise e
         else
           log_error "Checkin Photo Debug"
             ("save_file error: " ++ exc_msg e) ;;
           throw "Error uploading photo. Please try again. If the problem persists, contact support."
             ValidationError) ;;
  ret (Some file_doc).

Definition _handle_photo_upload (photo_data : photo_arg)
    (employee_id checkin_id photo_type : string) : M (option file_doc) :=
  if negb (photo_truthy photo_data) then
    log_error "Checkin Photo Debug"
      "_handle_photo_upload - photo_data is empty/None" ;;
    ret None
  else
    found <- as_file_id photo_data ;;
    match found with
    | Some d => ret (Some d)
    | None =>
        file_bytes <- photo_bytes photo_data ;;
        store_photo file_bytes employee_id checkin_id photo_type
    end.

(* ------------------------------------------------------------------ *)
(** *** create_checkin_checkout *)

(** Lines 651-668. *)
Definition _read_file_storage (file_storage : file_storage) : M photo_arg :=
  if String.eqb (fs_filename file_storage) "" then ret PhNone
  else
    match fs_read file_storage with
    | Ok b => ret (PhBytes b)
    | Raise e =>
        log_error "Checkin Photo Debug"
          ("Error reading file_storage stream: " ++ exc_msg e) ;;
        ret PhNone
    end.

Definition files_get (field : string) (files : list (string * file_storage))
    : option file_storage :=
  match find (fun p => String.eqb (fst p) field) files with
  | Some p => Some (snd p)
  | None => None
  end.

(** Lines 670-691, for one of the two photo fields. *)
Definition read_upload (field : string) (photo : photo_arg) : M photo_arg :=
  if photo_truthy photo then
    match photo with
    | PhStorage fs => _read_file_storage fs
    | _ => ret photo
    end
  else
    request_files <- gets request_files ;;
    match request_files with
    | [] => ret photo
    | _ =>
        match files_get field request_files with
        | Some fs =>
            if negb (String.eqb (fs_filename fs) "") then _read_file_storage fs
            else ret photo
        | None => ret photo
        end
    end.

(** [frappe.db.get_value("User", frappe.session.user, "email")] *)
Definition session_user_email : M (option string) :=
  gets (fun w => match lookup usr_name (session_user w) (tabUser w) with
                 | Some u => usr_email u
                 | None => None
                 end).

(** [frappe.db.get_value("Employee", {"company_email": email}, "name")] *)
Definition employee_name_by_email (email : string) : M (option string) :=
  gets (fun w =>
          match find (fun e => match emp_company_email e with
                               | Some x => String.eqb x email
                               | None => false
                               end) (tabEmployee w) with
          | Some e => Some (emp_name e)
          | None => None
          end).

Definition employee_get_doc (name : string) : M employee :=
  try_except (get_doc "Employee" emp_name tabEmployee name)
    (fun e =>
       throw ("Error retrieving employee record: " ++ exc_msg e)
         DoesNotExistError).

(** Lines 693-726. *)
Definition resolve_employee (employee_id : option string) : M employee :=
  if truthy_str employee_id then
    ex <- db_exists emp_name tabEmployee (or_empty employee_id) ;;
    when_ (negb ex)
      (throw "Employee not found. Please check the employee ID and try again."
         DoesNotExistError) ;;
    employee_get_doc (or_empty employee_id)
  else
    user_email <- session_user_email ;;
    u <- gets session_user ;;
    when_ (negb (truthy_str user_email))
      (throw ("User " ++ u ++ " does not have an email address configured.")
         ValidationError) ;;
    employee_name <- employee_name_by_email (or_empty user_email) ;;
    when_ (negb (truthy_str employee_name))
      (throw ("Employee not found for user email " ++ or_empty user_email
                ++ ". Please ensure your user account is linked to an employee record.")
         DoesNotExistError) ;;
    employee_get_doc (or_empty employee_name).

(** [hrms.hr.utils.validate_active_employee]: an employee whose status
    is Inactive is refused. *)
Definition validate_active_employee (name : string) : M unit :=
  st <- gets (fun w => match lookup emp_name name (tabEmployee w) with
                       | Some e => emp_status e
                       | None => ""
                       end) ;;
  when_ (String.eqb st "Inactive")
    (throw ("Transactions cannot be created for an Inactive Employee "
              ++ name ++ ".") InactiveEmployeeStatusError).

(** Lines 740-768: the distance, or [None] when no check is made. *)
Definition validate_location_step (log_type : string) (latitude longitude : pyval)
    (settings : settings) : outcome (option pyfloat) :=
  if String.eqb log_type "IN" then
    if negb (truthy latitude) || negb (truthy longitude) then
      othrow "Location is required for check-in. Please provide latitude and longitude."
        ValidationError
    else
      obind (_validate_location latitude longitude
               (branch_latitude settings) (branch_longitude settings)
               (branch_radius settings) log_type)
        (fun distance => Ok (Some distance))
  else if require_location_check_on_check_out settings then
    if negb (truthy latitude) || negb (truthy longitude) then
      othrow "Location is required for check-out. Please provide latitude and longitude."
        ValidationError
    else
      obind (_validate_location latitude longitude
               (branch_latitude settings) (branch_longitude settings)
               (branch_radius settings) log_type)
        (fun distance => Ok (Some distance))
  else Ok None.

Definition action_of (log_type : string) : string :=
  if String.eqb log_type "IN" then "check-in" else "check-out".

(** One of the two blocks of lines 774-792.  [Some message] is the
    dictionary returned on the spot when the photo is missing. *)
Definition required_photo (required : bool) (photo : photo_arg)
    (photo_id : option string) (label missing_file : string)
    (log_type : string) : M (option string) :=
  if required then
    if negb (photo_truthy photo) && negb (truthy_str photo_id) then
      ret (Some (label ++ " is required for " ++ action_of log_type ++ "."))
    else
      ex <- db_exists f_name tabFile (or_empty photo_id) ;;
      when_ (truthy_str photo_id && negb ex)
        (throw missing_file ValidationError) ;;
      ret None
  else ret None.

(** Lines 794-809. *)
Definition parse_timestamp (timestamp : option string) : M datetime :=
  if truthy_str timestamp then
    try_except
      (lift
         (obind (get_datetime fw (or_empty timestamp)) (fun checkin_time =>
          obind (match tzoff checkin_time with
                 | Some _ =>
                     obind (astimezone_utc checkin_time)
                       (fun u => Ok (replace_tzinfo_none u))
                 | None => Ok checkin_time
                 end) (fun checkin_time =>
          Ok (replace_microsecond_0 checkin_time)))))
      (fun e =>
         throw ("Invalid timestamp format. Please use ISO 8601 format (e.g., 2025-01-27T09:15:30Z). Error: "
                  ++ exc_msg e) ValidationError)
  else
    t <- gets now ;;
    ret (replace_microsecond_0 t).

(** Lines 811-849: one IN and one OUT per employee per date. *)
Definition one_in_one_out (employee_name log_type : string)
    (checkin_time : datetime) : M unit :=
  let start_of_day := replace_midnight checkin_time in
  end_of_day <- lift (add_one_day start_of_day) ;;
  let date_str := strftime_date fw (date_of start_of_day) in
  (if String.eqb log_type "OUT" then
     checkin_exists <-
       checkin_exists employee_name (Some "IN") (Between start_of_day end_of_day) ;;
     when_ (negb checkin_exists)
       (throw ("You must check-in before you can check-out. No check-in record found for "
                 ++ date_str ++ ".") ValidationError)
   else ret tt) ;;
  existing_count <-
    db_count employee_name (Some log_type) (Between start_of_day end_of_day) ;;
  when_ (existing_count >? 0)
    (throw ("You have already completed your " ++ action_of log_type ++ " for "
              ++ date_str
              ++ ". Only one check-in and one check-out are allowed per day.")
       ValidationError).

Definition opt_float (v : pyval) : M (option pyfloat) :=
  if truthy v then f <- lift (py_float v) ;; ret (Some f) else ret None.

(** Lines 851-864: the new document, before it has a name. *)
Definition new_checkin_doc (a : checkin_args) (employee : employee)
    (checkin_time : datetime) : M checkin :=
  lat <- opt_float (latitude a) ;;
  lon <- opt_float (longitude a) ;;
  sh <- lift (fetch_shift fw (emp_name employee) checkin_time) ;;
  ret (mkCheckin "" (emp_name employee)
         (opt_or_str (emp_employee_name employee) (emp_name employee))
         (log_type a) checkin_time lat lon (device_id a)
         (if truthy_str (notes a) && has_notes fw then notes a else None)
         sh 0 None None).

Definition with_name (n : string) (c : checkin) : checkin :=
  mkCheckin n (ck_employee c) (ck_employee_name c) (ck_log_type c) (ck_time c)
    (ck_latitude c) (ck_longitude c) (ck_device_id c) (ck_notes c) (ck_shift c)
    (ck_skip_auto_attendance c) (ck_custom_location_photo c)
    (ck_custom_client_bio_metric_photo c).

(** [checkin_doc.insert()] and the commit. *)
Definition insert (doc : checkin) : M checkin :=
  fun w =>
    match checkin_insert_check fw (tabEmployee_Checkin w) doc with
    | Some e => (Raise e, w)
    | None =>
        let d := with_name (checkin_autoname fw (tabEmployee_Checkin w) doc) doc in
        (Ok d, set_tabEmployee_Checkin (tabEmployee_Checkin w ++ [d])%list w)
    end.

(** Lines 866-879. *)
Definition insert_checkin (doc : checkin) : M checkin :=
  try_except (insert doc)
    (fun e =>
       match exc_cls e with
       | DuplicateEntryError =>
           throw "A check-in record already exists for this timestamp. Please wait a moment and try again, or use a different timestamp."
             ValidationError
       | _ =>
           if contains "duplicate" (lower (exc_msg e)) then
             throw "A check-in record already exists for this timestamp. Please wait a moment and try again."
               ValidationError
           else
             throw ("Error creating check-in record: " ++ exc_msg e)
               ValidationError
       end).

Definition replace_file (d : file_doc) (t : list file_doc) : list file_doc :=
  map (fun x => if String.eqb (f_name x) (f_name d) then d else x) t.

(** [file_doc.save(ignore_permissions=True)] *)
Definition save_file_doc (d : file_doc) : M unit :=
  match file_save_check fw d with
  | Some e => raise e
  | None => modify (fun w => set_tabFile (replace_file d (tabFile w)) w)
  end.

(** One of the two blocks of lines 881-902. *)
Definition attach_photo (photo : photo_arg) (photo_id : option string)
    (employee_name checkin_name photo_type : string) : M (option file_doc) :=
  if photo_truthy photo then
    _handle_photo_upload photo employee_name checkin_name photo_type
  else if truthy_str photo_id then
    ex <- db_exists f_name tabFile (or_empty photo_id) ;;
    if ex then
      file_doc <- get_doc "File" f_name tabFile (or_empty photo_id) ;;
      let file_doc :=
        mkFile (f_name file_doc) (f_file_name file_doc) (f_file_url file_doc)
          (Some "Employee Checkin") (Some checkin_name) (f_content file_doc) in
      save_file_doc file_doc ;;
      ret (Some file_doc)
    else ret None
  else ret None.

Definition update_photo_fields (loc bio : option string) (c : checkin) : checkin :=
  mkCheckin (ck_name c) (ck_employee c) (ck_employee_name c) (ck_log_type c)
    (ck_time c) (ck_latitude c) (ck_longitude c) (ck_device_id c) (ck_notes c)
    (ck_shift c) (ck_skip_auto_attendance c)
    (match loc with Some u => Some u | None => ck_custom_location_photo c end)
    (match bio with
     | Some u => Some u
     | None => ck_custom_client_bio_metric_photo c
     end).

(** Lines 904-910: [frappe.db.set_value] with the photo URLs. *)
Definition backfill_photo_urls (name : string)
    (location_photo_file client_biometric_photo_file : option file_doc)
    : M unit :=
  let loc := match location_photo_file with
             | Some f => if has_custom_location_photo fw
                         then Some (f_file_url f) else None
             | None => None
             end in
  let bio := match client_biometric_photo_file with
             | Some f => if has_custom_client_bio_metric_photo fw
                         then Some (f_file_url f) else None
             | None => None
             end in
  match loc, bio with
  | None, None => ret tt
  | _, _ =>
      modify (fun w =>
        set_tabEmployee_Checkin
          (map (fun c => if String.eqb (ck_name c) name
                         then update_photo_fields loc bio c else c)
             (tabEmployee_Checkin w)) w)
  end.

Definition photo_entry (f : option file_doc) : option (string * string) :=
  match f with
  | Some d => Some (f_file_url d, f_name d)
  | None => None
  end.

(** Lines 912-947. *)
Definition success_response (employee : employee) (log_type : string)
    (checkin_doc : checkin) (distance : option pyfloat)
    (location_photo_file client_biometric_photo_file : option file_doc)
    : checkin_response :=
  mkCheckinResponse
    (ck_name checkin_doc)
    (opt_or_str (emp_employee_code employee)
       (opt_or_str (emp_employee_number employee) (emp_name employee)))
    (opt_or_str (emp_employee_name employee) (emp_name employee))
    log_type
    (isoformat fw (ck_time checkin_doc))
    (ck_latitude checkin_doc)
    (ck_longitude checkin_doc)
    (sh_shift (ck_shift checkin_doc))
    (option_map (isoformat fw) (sh_shift_start (ck_shift checkin_doc)))
    (option_map (isoformat fw) (sh_shift_end (ck_shift checkin_doc)))
    (sh_attendance (ck_shift checkin_doc))
    "success"
    (option_map (round2 fw) distance)
    (photo_entry location_photo_file)
    (photo_entry client_biometric_photo_file).

(** Lines 794-947: from the timestamp to the response. *)
Definition record_checkin (a : checkin_args) (employee : employee)
    (location_photo client_biometric_photo : photo_arg)
    (distance : option pyfloat) : M response :=
  checkin_time <- parse_timestamp (timestamp a) ;;
  one_in_one_out (emp_name employee) (log_type a) checkin_time ;;
  doc <- new_checkin_doc a employee checkin_time ;;
  checkin_doc <- insert_checkin doc ;;
  location_photo_file <-
    attach_photo location_photo (location_photo_id a)
      (emp_name employee) (ck_name checkin_doc) "location" ;;
  client_biometric_photo_file <-
    attach_photo client_biometric_photo (client_biometric_photo_id a)
      (emp_name employee) (ck_name checkin_doc) "biometric" ;;
  backfill_photo_urls (ck_name checkin_doc)
    location_photo_file client_biometric_photo_file ;;
  ret (Success (success_response employee (log_type a) checkin_doc distance
                  location_photo_file client_biometric_photo_file)).

(** Lines 643-738: the uploads, the employee and the settings. *)
Definition prepare (a : checkin_args)
    : M (photo_arg * photo_arg * employee * settings) :=
  location_photo <- read_upload "location_photo" (location_photo a) ;;
  client_biometric_photo <-
    read_upload "client_biometric_photo" (client_biometric_photo a) ;;
  employee <- resolve_employee (employee_id a) ;;
  validate_active_employee (emp_name employee) ;;
  when_ (negb (str_in (log_type a) ["IN"; "OUT"]))
    (throw "Invalid log_type. Must be 'IN' for check-in or 'OUT' for check-out."
       ValidationError) ;;
  settings <- _get_employee_settings employee ;;
  ret (location_photo, client_biometric_photo, employee, settings).

(** Lines 740-947, with what [prepare] found. *)
Definition validate_and_record (a : checkin_args)
    (ctx : photo_arg * photo_arg * employee * settings) : M response :=
  let '(location_photo, client_biometric_photo, employee, settings) := ctx in
  distance <-
    lift (validate_location_step (log_type a) (latitude a) (longitude a) settings) ;;
  missing <-
    required_photo (required_to_upload_location_photo settings)
      location_photo (location_photo_id a) "Location photo"
      "Location photo file not found. Please upload the photo again."
      (log_type a) ;;
  match missing with
  | Some message => ret (Failure message)
  | None =>
      missing <-
        required_photo (required_to_upload_client_bio_metric_photo settings)
          client_biometric_photo (client_biometric_photo_id a)
          "Client biometric photo"
          "Client biometric photo file not found. Please upload the photo again."
          (log_type a) ;;
      match missing with
      | Some message => ret (Failure message)
      | None =>
          record_checkin a employee location_photo client_biometric_photo
            distance
      end
  end.

(** Lines 643-947: the body of the outer [try]. *)
Definition checkin_body (a : checkin_args) : M response :=
  ctx <- prepare a ;;
  validate_and_record a ctx.

(** Lines 949-962: the two handlers of the outer [try]. *)
Definition checkin_handler (e : exc) : M response :=
  if is_validation (exc_cls e) then
    modify (set_http_status_code 401) ;;
    ret (Failure (exc_msg e))
  else
    log_error "Checkin API Unexpected Error" (exc_msg e) ;;
    modify (set_http_status_code 500) ;;
    ret (Failure "Something went wrong while creating your check-in. Please try again or contact support.").

Definition create_checkin_checkout (a : checkin_args) : M response :=
  try_except (checkin_body a) checkin_handler.

(* ------------------------------------------------------------------ *)
(** *** get_employee_checkin_records *)

(** Lines 999-1012. *)
Definition records_employee (employee_id : option string) : M employee :=
  if truthy_str employee_id then
    get_doc "Employee" emp_name tabEmployee (or_empty employee_id)
  else
    user_email <- session_user_email ;;
    u <- gets session_user ;;
    when_ (negb (truthy_str user_email))
      (throw ("User " ++ u ++ " does not have an email address configured.")
         ValidationError) ;;
    employee_name <- employee_name_by_email (or_empty user_email) ;;
    when_ (negb (truthy_str employee_name))
      (throw ("Employee not found for user email " ++ or_empty user_email)
         DoesNotExistError) ;;
    get_doc "Employee" emp_name tabEmployee (or_empty employee_name).

(** [get_datetime(text)], made naive UTC when it is aware. *)
Definition naive_utc (text : string) : outcome datetime :=
  obind (get_datetime fw text) (fun d =>
  match tzoff d with
  | Some _ => obind (astimezone_utc d) (fun u => Ok (replace_tzinfo_none u))
  | None => Ok d
  end).

(** Lines 1023-1061. *)
Definition date_filter (start_date end_date : option string) : M time_filter :=
  if truthy_str start_date && truthy_str end_date then
    try_except
      (lift (obind (naive_utc (or_empty start_date)) (fun start_datetime =>
             obind (naive_utc (or_empty end_date)) (fun end_datetime =>
             obind (add_one_day end_datetime) (fun end_datetime =>
             Ok (Between start_datetime end_datetime))))))
      (fun _ =>
         throw "Invalid date format. Use ISO 8601 format or YYYY-MM-DD."
           ValidationError)
  else if truthy_str start_date then
    try_except
      (lift (obind (naive_utc (or_empty start_date)) (fun start_datetime =>
             Ok (AtLeast start_datetime))))
      (fun _ =>
         throw "Invalid start_date format. Use ISO 8601 format or YYYY-MM-DD."
           ValidationError)
  else if truthy_str end_date then
    try_except
      (lift (obind (naive_utc (or_empty end_date)) (fun end_datetime =>
             obind (add_one_day end_datetime) (fun end_datetime =>
             Ok (Before end_datetime)))))
      (fun _ =>
         throw "Invalid end_date format. Use ISO 8601 format or YYYY-MM-DD."
           ValidationError)
  else ret AnyTime.

(** Lines 1063-1072. *)
Definition sanitize_limit (limit : pyval) : outcome Z :=
  match limit with
  | PNone => Ok 100
  | _ =>
      ocatch
        (obind (py_int limit) (fun limit =>
         if limit <? 1 then Ok 100 else Ok limit))
        (fun e => if is_value_or_type (exc_cls e) then Ok 100 else Raise e)
  end.

(** Lines 1074-1080. *)
Definition sanitize_offset (offset : pyval) : outcome Z :=
  ocatch
    (obind (py_int offset) (fun offset =>
     if offset <? 0 then Ok 0 else Ok offset))
    (fun e => if is_value_or_type (exc_cls e) then Ok 0 else Raise e).

Fixpoint insert_desc (c : checkin) (l : list checkin) : list checkin :=
  match l with
  | [] => [c]
  | x :: r =>
      if dt_key (ck_time x) <? dt_key (ck_time c) then c :: l
      else x :: insert_desc c r
  end.

(** [order_by="time desc"] *)
Definition order_by_time_desc (l : list checkin) : list checkin :=
  fold_right insert_desc [] l.

(** [frappe.get_all("Employee Checkin", filters=..., order_by="time desc",
    limit=limit, start=offset)] *)
Definition get_all_checkins (emp : string) (lt : option string)
    (tf : time_filter) (limit offset : Z) : M (list checkin) :=
  gets (fun w =>
    firstn (Z.to_nat limit)
      (skipn (Z.to_nat offset)
         (order_by_time_desc
            (filter (matches emp lt tf) (tabEmployee_Checkin w))))).

(** The latest File attached to a check-in whose file name contains
    the given text. *)
Definition latest_photo (w : world) (checkin_name pattern : string)
    : option file_doc :=
  find (fun f =>
          match f_attached_to_doctype f, f_attached_to_name f with
          | Some dt, Some dn =>
              String.eqb dt "Employee Checkin" && String.eqb dn checkin_name
              && contains pattern (f_file_name f)
          | _, _ => false
          end) (rev (tabFile w)).

Definition photo_of (w : world) (attached : option file_doc)
    (custom_field : option string) : option (string * string) :=
  match attached with
  | Some f => Some (f_name f, f_file_url f)
  | None =>
      if truthy_str custom_field then
        match lookup f_name (or_empty custom_field) (tabFile w) with
        | Some f => Some (f_name f, f_file_url f)
        | None => None
        end
      else None
  end.

(** Lines 1112-1184, for one record. *)
Definition build_record_data (w : world) (employee : employee) (record : checkin)
    : record_data :=
  mkRecordData
    (ck_name record)
    (opt_or_str (emp_employee_code employee)
       (opt_or_str (emp_employee_number employee) (emp_name employee)))
    (if String.eqb (ck_employee_name record) "" then emp_name employee
     else ck_employee_name record)
    (ck_log_type record)
    (isoformat fw (ck_time record))
    (ck_latitude record)
    (ck_longitude record)
    (ck_device_id record)
    (sh_shift (ck_shift record))
    (option_map (isoformat fw) (sh_shift_start (ck_shift record)))
    (option_map (isoformat fw) (sh_shift_end (ck_shift record)))
    (sh_attendance (ck_shift record))
    (ck_skip_auto_attendance record)
    (photo_of w (latest_photo w (ck_name record) "location_photo")
       (ck_custom_location_photo record))
    (photo_of w (latest_photo w (ck_name record) "biometric")
       (ck_custom_client_bio_metric_photo record)).

Definition get_employee_checkin_records (employee_id log_type : option string)
    (start_date end_date : option string) (limit offset : pyval)
    : M records_response :=
  employee <- records_employee employee_id ;;
  when_ (truthy_str log_type && negb (str_in (or_empty log_type) ["IN"; "OUT"]))
    (throw "log_type must be 'IN' or 'OUT'." ValidationError) ;;
  let log_type_filter := if truthy_str log_type then log_type else None in
  time_filter <- date_filter start_date end_date ;;
  limit <- lift (sanitize_limit limit) ;;
  offset <- lift (sanitize_offset offset) ;;
  total_count <- db_count (emp_name employee) log_type_filter time_filter ;;
  checkin_records <-
    get_all_checkins (emp_name employee) log_type_filter time_filter limit offset ;;
  records_with_photos <-
    gets (fun w => map (build_record_data w employee) checkin_records) ;;
  ret (mkRecordsResponse records_with_photos total_count limit offset
         (offset + limit <? total_count)).

End Endpoints.

Arguments Between lo hi : clear implicits.

(* ================================================================== *)
(** ** get_employee_configuration *)

(** The company's choice between department and project rules, lines
    215-217 and 361-363: a missing or null flag is [False]. *)
Definition by_department (c : company) : bool :=
  match custom_attendnace_validations_based_on_department c with
  | Some b => b
  | None => false
  end.

(** The [branch] block of the configuration. *)
Record branch_info := mkBranchInfo {
  bi_branch_id : string;
  bi_branch_name : string;
  bi_latitude : pyval;
  bi_longitude : pyval;
  bi_checkin_radius_meters : pyval;
  bi_address : option string
}.

(** The [settings] block of the configuration. *)
Record settings_block := mkSettingsBlock {
  sb_required_to_upload_location_photo : bool;
  sb_required_to_upload_client_bio_metric_photo : bool;
  sb_require_location_check_on_check_out : bool;
  settings_source : string;
  sb_department_id : option string;
  sb_department_name : option string;
  sb_project_id : option string;
  sb_project_name : option string
}.

(** The dictionary [get_employee_configuration] returns. *)
Record configuration := mkConfiguration {
  cfg_employee_id : string;
  cfg_employee_name : string;
  cfg_employee_code : string;
  cfg_designation : string;
  cfg_department : string;
  cfg_department_name : string;
  cfg_company : option string;
  cfg_branch : branch_info;
  cfg_settings : settings_block
}.

(** [x or None] on a text. *)
Definition or_none (a : option string) : option string :=
  if truthy_str a then a else None.

(** ["{0}".format(x)] on a text that may be [None]. *)
Definition format_opt (a : option string) : string :=
  match a with
  | Some s => s
  | None => "None"
  end.

(** [frappe.db.get_value(doctype, name, field)]: the field of the
    document, [None] when there is no such document. *)
Definition get_value {A} (key : A -> string) (table : world -> list A)
    (n : string) (field : A -> option string) : M (option string) :=
  gets (fun w => match lookup key n (table w) with
                 | Some d => field d
                 | None => None
                 end).

Section Configuration.

(** Fields that the documents above do not carry, and
    [json.dumps(response, indent=4)]. *)
Variable department_name : department -> option string.
Variable project_name : project -> option string.
Variable designation : employee -> option string.
Variable address : branch -> option string.
Variable json_dumps : configuration -> string.

(** Lines 219-292: the rules, their source, and the project. *)
Definition configuration_rules (company_doc : company) (department : string)
    : M (rules * string * option string * option string) :=
  if by_department company_doc then
    when_ (String.eqb department "")
      (throw "Company setting requires Department settings, but Employee has no Department assigned."
         ValidationError) ;;
    department_doc <- get_doc "Department" dep_name tabDepartment department ;;
    when_ (negb (has_any_rule (dep_rules department_doc)))
      (throw "Company setting requires Department settings, but Department has no validation settings configured. Please configure settings in Department."
         ValidationError) ;;
    ret (dep_rules department_doc, "department", None, None)
  else
    when_ (String.eqb department "")
      (throw "Company setting requires Project settings, but Employee has no Department assigned."
         ValidationError) ;;
    department_doc <- get_doc "Department" dep_name tabDepartment department ;;
    let project := custom_project department_doc in
    when_ (negb (truthy_str project))
      (throw "Company setting requires Project settings, but Department has no linked Project. Please link a Project to Department via custom_project field."
         ValidationError) ;;
    project_doc <- get_doc "Project" prj_name tabProject (or_empty project) ;;
    name <- get_value prj_name tabProject (or_empty project) project_name ;;
    let project_name := opt_or name project in
    when_ (negb (has_any_rule (prj_rules project_doc)))
      (throw "Company setting requires Project settings, but linked Project has no validation settings configured. Please configure settings in Project."
         ValidationError) ;;
    ret (prj_rules project_doc, "project", project, project_name).

(** Lines 157-327: the response, before it is logged. *)
Definition configuration_response (employee_id : option string)
    : M configuration :=
  (* lines 157-169, the statements of lines 999-1012 *)
  employee <- records_employee employee_id ;;
  let employee_name :=
    opt_or_str (emp_employee_name employee) (emp_name employee) in
  let employee_code := emp_name employee in
  let email := emp_company_email employee in
  when_ (negb (truthy_str email))
    (throw "Employee has no company email assigned. Please assign a company email to the employee."
       ValidationError) ;;
  let department := or_empty (emp_department employee) in
  department_name <-
    (if negb (String.eqb department "")
     then get_value dep_name tabDepartment department department_name
     else ret (Some "")) ;;
  let branch := or_empty (emp_branch employee) in
  branch_name <-
    (if negb (String.eqb branch "")
     then get_value br_name tabBranch branch br_branch
     else ret (Some "")) ;;
  when_ (String.eqb branch "")
    (throw "Employee has no branch assigned. Please assign a branch to the employee."
       ValidationError) ;;
  branch_doc <- get_doc "Branch" br_name tabBranch branch ;;
  let latitude := custom_latitude branch_doc in
  let longitude := custom_longitude branch_doc in
  let radius := custom_radius_in_meters branch_doc in
  when_ (is_none latitude || is_none longitude || is_none radius)
    (throw ("Branch " ++ format_opt branch_name
              ++ " does not have location information (latitude, longitude, or radius) configured.")
       ValidationError) ;;
  let company := emp_company employee in
  when_ (negb (truthy_str company))
    (throw "Employee has no company assigned." ValidationError) ;;
  company_doc <- get_doc "Company" co_name tabCompany (or_empty company) ;;
  found <- configuration_rules company_doc department ;;
  let '(r, source, project, project_name) := found in
  let branch_info :=
    mkBranchInfo branch (opt_or_str branch_name branch) latitude longitude
      radius (address branch_doc) in
  let settings :=
    mkSettingsBlock
      (rule_value (custom_required_to_upload_location_photo r))
      (rule_value (custom_required_to_upload_client_bio_metric_photo r))
      (rule_value (custom_required_location_check_on_check_out r))
      source
      (or_none (Some department))
      (or_none department_name)
      project project_name in
  ret (mkConfiguration employee_code employee_name employee_code
         (or_empty (designation employee))
         department
         (or_empty department_name)
         company branch_info settings).

Definition get_employee_configuration (employee_id : option string)
    : M configuration :=
  response <- configuration_response employee_id ;;
  log_error "Employee Configuration" (json_dumps response) ;;
  ret response.

End Configuration.

(* ================================================================== *)
(** ** The reporting endpoints *)

(** A dictionary with text keys, in insertion order; a key occurs once. *)
Definition dict (V : Type) := list (string * V).

(** [d.get(k)], [None] standing for a missing key. *)
Definition dict_find {V} (k : string) (d : dict V) : option V :=
  match find (fun p => String.eqb (fst p) k) d with
  | Some p => Some (snd p)
  | None => None
  end.

(** [d[k] = v] *)
Fixpoint dict_set {V} (k : string) (v : V) (d : dict V) : dict V :=
  match d with
  | [] => [(k, v)]
  | p :: r =>
      if String.eqb (fst p) k then (k, v) :: r else p :: dict_set k v r
  end.

(** [k in d] *)
Definition dict_mem {V} (k : string) (d : dict V) : bool :=
  match dict_find k d with
  | Some _ => true
  | None => false
  end.

(** [filters.get(k)] on a dictionary of request values. *)
Definition dict_get (k : string) (d : dict pyval) : pyval :=
  match dict_find k d with
  | Some v => v
  | None => PNone
  end.

(** The [filters] argument: left out, a JSON text, or a dictionary. *)
Inductive filters_arg :=
| FiltersNone
| FiltersText (s : string)
| FiltersDict (d : dict pyval).

(** What [json.loads] makes of a text: an object, or a value of another
    type, named as Python names it. *)
Inductive json_value :=
| JsonObject (d : dict pyval)
| JsonOther (type_name : string).

(** A row of the stock query, lines 1229-1237. *)
Record stock_row := mkStockRow {
  st_item : string;
  st_item_name : pyval;
  st_item_group : pyval;
  st_warehouse : pyval;
  st_available_stock : pyval
}.

(** A row of Item Price, lines 1241-1245. *)
Record price_row := mkPriceRow {
  pr_item_code : string;
  pr_price_list_rate : pyval;
  pr_custom_base_price_ : pyval;
  pr_custom_retail_price_wrp : pyval;
  pr_custom_minimum_sales_price : pyval
}.

(** An entry of the list [get_item_stock_and_prices] returns. *)
Record stock_entry := mkStockEntry {
  se_item : string;
  se_item_name : pyval;
  se_item_group : pyval;
  se_warehouse : pyval;
  se_available_stock : pyfloat;
  se_current_sales_price_wp : pyfloat;
  se_base_price : pyfloat;
  se_web_retail_price : pyfloat;
  se_minimum_sale_price : pyfloat
}.

(** A row of Customer, lines 1278-1283. *)
Record customer_row := mkCustomerRow {
  cu_id : string;
  cu_customer_name : pyval;
  cu_email : pyval;
  cu_mobile : pyval;
  cu_custom_is_bff_member : pyval;
  cu_customer_group : pyval;
  cu_territory : pyval;
  cu_disabled : pyval
}.

(** A row of the loyalty query, lines 1287-1290. *)
Record loyalty_row := mkLoyaltyRow {
  lo_customer : string;
  lo_loyalty_points_balance : pyval
}.

(** An entry of the list [get_customers_with_loyalty_balance] returns. *)
Record customer_entry := mkCustomerEntry {
  ce_row : customer_row;
  ce_loyalty_points_balance : pyfloat
}.

(** A row of Sales Order, lines 1325-1330. *)
Record order_row := mkOrderRow {
  or_sales_order : string;
  or_customer : pyval;
  or_customer_name : pyval;
  or_transaction_date : pyval;
  or_delivery_date : pyval;
  or_status : pyval;
  or_grand_total : pyval;
  or_rounded_total : pyval;
  or_company : pyval;
  or_currency : pyval;
  or_territory : pyval;
  or_docstatus : pyval
}.

(** A row of Sales Order Item, lines 1334-1339. *)
Record item_row := mkItemRow {
  ir_parent : string;
  ir_item_name : pyval;
  ir_item_code : pyval;
  ir_item_description : pyval;
  ir_qty : pyval;
  ir_rate : pyval;
  ir_amount : pyval;
  ir_delivery_date : pyval;
  ir_warehouse : pyval;
  ir_uom : pyval;
  ir_stock_uom : pyval;
  ir_conversion_factor : pyval
}.

(** A row of Sales Taxes and Charges, lines 1340-1345. *)
Record tax_row := mkTaxRow {
  tr_parent : string;
  tr_tax_name : pyval;
  tr_charge_type : pyval;
  tr_account_head : pyval;
  tr_description : pyval;
  tr_rate : pyval;
  tr_tax_amount : pyval;
  tr_total : pyval;
  tr_cost_center : pyval
}.

(** An entry of an order's [items]. *)
Record item_entry := mkItemEntry {
  ie_item_name : pyval;
  ie_item_code : pyval;
  ie_item_description : pyval;
  ie_qty : pyfloat;
  ie_rate : pyfloat;
  ie_amount : pyfloat;
  ie_delivery_date : option string;
  ie_warehouse : pyval;
  ie_uom : pyval;
  ie_stock_uom : pyval;
  ie_conversion_factor : pyfloat
}.

(** An entry of an order's [taxes]. *)
Record tax_entry := mkTaxEntry {
  te_tax_name : pyval;
  te_charge_type : pyval;
  te_account_head : pyval;
  te_description : pyval;
  te_rate : pyfloat;
  te_tax_amount : pyfloat;
  te_total : pyfloat;
  te_cost_center : pyval
}.

(** An entry of the list [get_sales_orders] returns. *)
Record order_entry := mkOrderEntry {
  oe_sales_order : string;
  oe_customer : pyval;
  oe_customer_name : pyval;
  oe_transaction_date : option string;
  oe_delivery_date : option string;
  oe_status : pyval;
  oe_grand_total : pyfloat;
  oe_rounded_total : pyfloat;
  oe_company : pyval;
  oe_currency : pyval;
  oe_territory : pyval;
  oe_docstatus : pyval;
  oe_items : list item_entry;
  oe_taxes : list tax_entry
}.

(** What the framework answers to the reporting endpoints. *)
Record reports := mkReports {
  (** [json.loads(text)] *)
  json_loads : string -> outcome json_value;
  (** [frappe.utils.flt(x)] and [str(x)] *)
  utils_flt : pyval -> pyfloat;
  py_str : pyval -> string;
  (** The stock query under a [WHERE] clause with its parameters. *)
  sql_stock : string -> list pyval -> list stock_row;
  (** The selling prices of the given items on a price list. *)
  get_all_item_price : list string -> pyval -> list price_row;
  (** The enabled customers, all or the one named. *)
  get_all_customer : option pyval -> list customer_row;
  (** The loyalty point sums of the given customers. *)
  sql_loyalty : list string -> list loyalty_row;
  (** The sales orders, all or the one named, and the item and tax rows
      of the given orders. *)
  get_all_sales_order : option pyval -> list order_row;
  get_all_sales_order_item : list string -> list item_row;
  get_all_sales_taxes : list string -> list tax_row
}.

Section Reporting.

Variable rp : reports.

Local Open Scope outcome_scope.

(** The first lines of each endpoint: the filters as a dictionary.  A
    JSON text that is no object has no [get]. *)
Definition filters_of (filters : filters_arg) : outcome (dict pyval) :=
  parsed <~
    match filters with
    | FiltersText s =>
        if negb (String.eqb s "") then json_loads rp s else Ok (JsonObject [])
    | FiltersNone => Ok (JsonObject [])
    | FiltersDict d => Ok (JsonObject d)
    end ;;
  match parsed with
  | JsonObject d => Ok d
  | JsonOther type_name =>
      Raise (mkExc OtherError
               ("'" ++ type_name ++ "' object has no attribute 'get'"))
  end.

Local Close Scope outcome_scope.

(** [str(x) if x else None] *)
Definition str_or_none (x : pyval) : option string :=
  if truthy x then Some (py_str rp x) else None.

(* ------------------------------------------------------------------ *)
(** *** get_item_stock_and_prices *)

(** Lines 1211-1227: the conditions and their parameters. *)
Definition stock_conditions (filters : dict pyval)
    : list string * list pyval :=
  let include_zero_stock :=
    match dict_find "include_zero_stock" filters with
    | Some v => v
    | None => PBool true
    end in
  let add (key condition : string) (acc : list string * list pyval) :=
    if truthy (dict_get key filters)
    then ((fst acc ++ [condition])%list,
          (snd acc ++ [dict_get key filters])%list)
    else acc in
  let acc := (["item.disabled = 0"], []) in
  let acc := add "item_code" "bin.item_code = %s" acc in
  let acc := add "warehouse" "bin.warehouse = %s" acc in
  let acc := add "company" "warehouse.company = %s" acc in
  let acc := add "item_group" "item.item_group = %s" acc in
  if negb (truthy include_zero_stock)
  then ((fst acc ++ ["bin.actual_qty != 0"])%list, snd acc)
  else acc.

(** Line 1228. *)
Definition where_clause (conditions : list string) : string :=
  match conditions with
  | [] => ""
  | _ => "WHERE " ++ String.concat " AND " conditions
  end.

(** Line 1246: the price rows by item code, a later row replacing an
    earlier one of the same item. *)
Definition price_dict (item_prices : list price_row) : dict price_row :=
  fold_left (fun d p => dict_set (pr_item_code p) p d) item_prices [].

(** Lines 1251-1261. *)
Definition stock_entry_of (row : stock_row) (item_price : option price_row)
    : stock_entry :=
  let price := fun (field : price_row -> pyval) =>
    match item_price with
    | Some p => utils_flt rp (field p)
    | None => float_of_Z 0
    end in
  mkStockEntry (st_item row) (st_item_name row) (st_item_group row)
    (st_warehouse row) (utils_flt rp (st_available_stock row))
    (price pr_price_list_rate) (price pr_custom_base_price_)
    (price pr_custom_retail_price_wrp) (price pr_custom_minimum_sales_price).

Definition nodup_codes (l : list string) : list string :=
  nodup string_dec l.

Definition get_item_stock_and_prices (filters : filters_arg)
    : outcome (list stock_entry) :=
  obind (filters_of filters) (fun filters =>
  let price_list :=
    if truthy (dict_get "price_list" filters)
    then dict_get "price_list" filters
    else PStr "Sales Price List" in
  let '(conditions, params) := stock_conditions filters in
  let stock_data := sql_stock rp (where_clause conditions) params in
  match stock_data with
  | [] => Ok []
  | _ =>
      let item_codes := nodup_codes (map st_item stock_data) in
      let item_prices := get_all_item_price rp item_codes price_list in
      let price_dict := price_dict item_prices in
      Ok (map (fun row =>
                 stock_entry_of row (dict_find (st_item row) price_dict))
              stock_data)
  end).

(* ------------------------------------------------------------------ *)
(** *** get_customers_with_loyalty_balance *)

(** Lines 1291-1294. *)
Definition loyalty_dict (loyalty_data : list loyalty_row) : dict pyfloat :=
  fold_left
    (fun d row =>
       let balance_value := lo_loyalty_points_balance row in
       dict_set (lo_customer row)
         (if negb (is_none balance_value) then utils_flt rp balance_value
          else float_of_Z 0) d)
    loyalty_data [].

Definition get_customers_with_loyalty_balance (filters : filters_arg)
    : outcome (list customer_entry) :=
  obind (filters_of filters) (fun filters =>
  let customer_id := dict_get "customer" filters in
  let customers :=
    get_all_customer rp (if truthy customer_id then Some customer_id else None) in
  match customers with
  | [] => Ok []
  | _ =>
      let customer_ids := map cu_id customers in
      let loyalty_data := sql_loyalty rp customer_ids in
      let loyalty_dict := loyalty_dict loyalty_data in
      Ok (map (fun customer =>
                 mkCustomerEntry customer
                   (match dict_find (cu_id customer) loyalty_dict with
                    | Some balance => balance
                    | None => float_of_Z 0
                    end))
              customers)
  end).

(* ------------------------------------------------------------------ *)
(** *** get_sales_orders *)

Definition item_entry_of (item : item_row) : item_entry :=
  mkItemEntry (ir_item_name item) (ir_item_code item)
    (ir_item_description item)
    (utils_flt rp (ir_qty item)) (utils_flt rp (ir_rate item))
    (utils_flt rp (ir_amount item))
    (str_or_none (ir_delivery_date item))
    (ir_warehouse item) (ir_uom item) (ir_stock_uom item)
    (utils_flt rp (ir_conversion_factor item)).

Definition tax_entry_of (tax : tax_row) : tax_entry :=
  mkTaxEntry (tr_tax_name tax) (tr_charge_type tax) (tr_account_head tax)
    (tr_description tax)
    (utils_flt rp (tr_rate tax)) (utils_flt rp (tr_tax_amount tax))
    (utils_flt rp (tr_total tax))
    (tr_cost_center tax).

(** The two loops of lines 1346-1365: the entries of the rows under
    their parent, in the order of the rows. *)
Definition group_by_parent {R E} (parent : R -> string) (entry : R -> E)
    (rows : list R) : dict (list E) :=
  fold_left
    (fun d row =>
       let d := if negb (dict_mem (parent row) d)
                then dict_set (parent row) [] d else d in
       match dict_find (parent row) d with
       | Some l => dict_set (parent row) (l ++ [entry row])%list d
       | None => d
       end)
    rows [].

(** [d.get(k, [])] *)
Definition dict_list {E} (k : string) (d : dict (list E)) : list E :=
  match dict_find k d with
  | Some l => l
  | None => []
  end.

(** Lines 1369-1378. *)
Definition order_entry_of (so : order_row) (items : list item_entry)
    (taxes : list tax_entry) : order_entry :=
  mkOrderEntry (or_sales_order so) (or_customer so) (or_customer_name so)
    (str_or_none (or_transaction_date so)) (str_or_none (or_delivery_date so))
    (or_status so)
    (utils_flt rp (or_grand_total so)) (utils_flt rp (or_rounded_total so))
    (or_company so) (or_currency so) (or_territory so) (or_docstatus so)
    items taxes.

Definition get_sales_orders (filters : filters_arg)
    : outcome (list order_entry) :=
  obind (filters_of filters) (fun filters =>
  let sales_order_id := dict_get "sales_order" filters in
  let sales_orders :=
    get_all_sales_order rp
      (if truthy sales_order_id then Some sales_order_id else None) in
  match sales_orders with
  | [] => Ok []
  | _ =>
      let so_names := map or_sales_order sales_orders in
      let items := get_all_sales_order_item rp so_names in
      let taxes := get_all_sales_taxes rp so_names in
      let items_dict := group_by_parent ir_parent item_entry_of items in
      let taxes_dict := group_by_parent tr_parent tax_entry_of taxes in
      Ok (map (fun so =>
                 order_entry_of so
                   (dict_list (or_sales_order so) items_dict)
                   (dict_list (or_sales_order so) taxes_dict))
              sales_orders)
  end).

End Reporting.

(** Two filter dictionaries have the same shape: the same filters are
    set, whatever their values. *)
Definition same_shape (d1 d2 : dict pyval) : Prop :=
  (forall k, truthy (dict_get k d1) = truthy (dict_get k d2))
  /\ (forall v, dict_find "include_zero_stock" d1 = Some v ->
        exists v', dict_find "include_zero_stock" d2 = Some v'
                   /\ truthy v' = truthy v)
  /\ (dict_find "include_zero_stock" d1 = None ->
      dict_find "include_zero_stock" d2 = None).

(* ================================================================== *)
(** ** A small deployment, to run the endpoints on concrete inputs *)

Module Demo.

Definition digit_of (c : ascii) : option Z :=
  let n := Z.of_N (N_of_ascii c) in
  if (48 <=? n) && (n <=? 57) then Some (n - 48) else None.

Fixpoint digits (s : string) (acc : Z) : option Z :=
  match s with
  | EmptyString => Some acc
  | String c r =>
      match digit_of c with
      | Some d => digits r (10 * acc + d)
      | None => None
      end
  end.

(** A non-empty run of decimal digits. *)
Definition natural (s : string) : option Z :=
  match s with
  | EmptyString => None
  | _ => digits s 0
  end.

(** Whole numbers in decimal, with an optional minus sign. *)
Definition int_of_str (s : string) : option Z :=
  match s with
  | String "-"%char r => option_map Z.opp (natural r)
  | _ => natural s
  end.

(** The text before the first [c], and the text after it if there is one. *)
Fixpoint cut (c : ascii) (s : string) : string * option string :=
  match s with
  | EmptyString => (EmptyString, None)
  | String x r =>
      if Ascii.eqb x c then (EmptyString, Some r)
      else let (a, b) := cut c r in (String x a, b)
  end.

Definition unsigned_decimal (s : string) : option Q :=
  match cut "."%char s with
  | (whole, None) => option_map inject_Z (natural whole)
  | (whole, Some frac) =>
      match natural whole, natural frac with
      | Some a, Some b =>
          let scale := 10 ^ Z.of_nat (String.length frac) in
          Some (Qred ((a * scale + b) # Z.to_pos scale))
      | _, _ => None
      end
  end.

(** Decimal numbers such as [40.0005] and [-74]. *)
Definition float_of_str (s : string) : option pyfloat :=
  match s with
  | String "-"%char r => option_map (fun q => Finite (- q)) (unsigned_decimal r)
  | _ => option_map Finite (unsigned_decimal s)
  end.

(** The length of one degree of a great circle on the sphere of
    radius 6371 km that [get_distance_between_coordinates] uses:
    6371000 * pi / 180 metres. *)
Definition METRES_PER_DEGREE : Q :=
  (6371000 # 180) * (3141592653589793 # 1000000000000000).

(** Metres between two points.  Along a meridian this is the
    great-circle distance that the haversine formula gives; off a
    meridian the degrees of longitude are added at the same length. *)
Definition get_distance (lat1 lon1 lat2 lon2 : pyfloat) : outcome pyfloat :=
  match lat1, lon1, lat2, lon2 with
  | Finite a, Finite b, Finite c, Finite d =>
      Ok (Finite (Qred (METRES_PER_DEGREE * (Qabs (a - c) + Qabs (b - d)))))
  | _, _, _, _ => Ok NaN
  end.

Definition str_of_Z (z : Z) : string :=
  DecimalString.NilZero.string_of_int (Z.to_int z).

Definition pad2 (z : Z) : string :=
  if z <? 10 then "0" ++ str_of_Z z else str_of_Z z.

Definition pad4 (z : Z) : string :=
  if z <? 10 then "000" ++ str_of_Z z
  else if z <? 100 then "00" ++ str_of_Z z
  else if z <? 1000 then "0" ++ str_of_Z z
  else str_of_Z z.

(** Year, month and day of a day number counted from 0001-01-01. *)
Definition civil_of_days (n : Z) : Z * Z * Z :=
  let z := n + 306 in
  let era := z / 146097 in
  let doe := z - era * 146097 in
  let yoe := (doe - doe / 1460 + doe / 36524 - doe / 146096) / 365 in
  let doy := doe - (365 * yoe + yoe / 4 - yoe / 100) in
  let mp := (5 * doy + 2) / 153 in
  let d := doy - (153 * mp + 2) / 5 + 1 in
  let m := if mp <? 10 then mp + 3 else mp - 9 in
  (yoe + era * 400 + (if m <=? 2 then 1 else 0), m, d).

(** The day number of a date, counted from 0001-01-01. *)
Definition days_of_civil (y m d : Z) : Z :=
  let y := if m <=? 2 then y - 1 else y in
  let era := y / 400 in
  let yoe := y - era * 400 in
  let mp := if 2 <? m then m - 3 else m + 9 in
  let doy := (153 * mp + 2) / 5 + d - 1 in
  era * 146097 + (yoe * 365 + yoe / 4 - yoe / 100 + doy) - 306.

(** Wall-clock seconds of a date and time of day. *)
Definition clock (y m d hh mm ss : Z) : Z :=
  days_of_civil y m d * SECONDS_PER_DAY + hh * 3600 + mm * 60 + ss.

Definition month_name (m : Z) : string :=
  nth (Z.to_nat (m - 1))
    ["January"; "February"; "March"; "April"; "May"; "June"; "July";
     "August"; "September"; "October"; "November"; "December"] "".

(** ["%B %d, %Y"] *)
Definition strftime_date (n : Z) : string :=
  let '(y, m, d) := civil_of_days n in
  month_name m ++ " " ++ pad2 d ++ ", " ++ pad4 y.

Definition hms (sep : string) (s : Z) : string :=
  pad2 (s / 3600) ++ sep ++ pad2 (s mod 3600 / 60) ++ sep ++ pad2 (s mod 60).

Definition micro_text (u : Z) : string :=
  let t := str_of_Z (1000000 + u) in
  "." ++ String.substring 1 6 t.

Definition offset_text (off : Z) : string :=
  (if off <? 0 then "-" else "+")
    ++ pad2 (Z.abs off / 3600) ++ ":" ++ pad2 (Z.abs off mod 3600 / 60).

Definition isoformat (d : datetime) : string :=
  let '(y, m, dd) := civil_of_days (wall d / SECONDS_PER_DAY) in
  pad4 y ++ "-" ++ pad2 m ++ "-" ++ pad2 dd ++ "T"
    ++ hms ":" (wall d mod SECONDS_PER_DAY)
    ++ (if micro d =? 0 then "" else micro_text (micro d))
    ++ match tzoff d with
       | Some off => offset_text off
       | None => ""
       end.

(** ["%Y%m%d_%H%M%S"] *)
Definition strftime_stamp (d : datetime) : string :=
  let '(y, m, dd) := civil_of_days (wall d / SECONDS_PER_DAY) in
  pad4 y ++ pad2 m ++ pad2 dd ++ "_" ++ hms "" (wall d mod SECONDS_PER_DAY).

Definition field (start len : nat) (s : string) : option Z :=
  natural (String.substring start len s).

Definition char_at (n : nat) (s : string) : string := String.substring n 1 s.

(** The zone suffix of a timestamp: none, [Z], or [+HH:MM] / [-HH:MM]. *)
Definition parse_zone (s : string) : option (option Z) :=
  if String.eqb s "" then Some None
  else if String.eqb s "Z" then Some (Some 0)
  else
    match field 1 2 s, field 4 2 s with
    | Some h, Some m =>
        if negb (String.eqb (char_at 3 s) ":") || negb (String.length s =? 6)%nat
        then None
        else if String.eqb (char_at 0 s) "+" then Some (Some (h * 3600 + m * 60))
        else if String.eqb (char_at 0 s) "-" then Some (Some (- (h * 3600 + m * 60)))
        else None
    | _, _ => None
    end.

(** The fraction and zone after the seconds. *)
Definition parse_tail (s : string) : option (Z * option Z) :=
  if String.eqb (char_at 0 s) "." then
    match field 1 6 s,
          parse_zone (String.substring 7 (String.length s - 7) s) with
    | Some u, Some z =>
        if (7 <=? String.length s)%nat then Some (u, z) else None
    | _, _ => None
    end
  else option_map (fun z => (0, z)) (parse_zone s).

(** Timestamps written [YYYY-MM-DD HH:MM:SS] or [YYYY-MM-DDTHH:MM:SS], with
    an optional six-digit fraction and an optional zone. *)
Definition get_datetime (s : string) : outcome datetime :=
  match field 0 4 s, field 5 2 s, field 8 2 s,
        field 11 2 s, field 14 2 s, field 17 2 s,
        parse_tail (String.substring 19 (String.length s - 19) s) with
  | Some y, Some m, Some d, Some hh, Some mm, Some ss, Some (u, z) =>
      if String.eqb (char_at 4 s) "-" && String.eqb (char_at 7 s) "-"
         && (String.eqb (char_at 10 s) " " || String.eqb (char_at 10 s) "T")
         && String.eqb (char_at 13 s) ":" && String.eqb (char_at 16 s) ":"
         && (1 <=? y) && (1 <=? m) && (m <=? 12) && (1 <=? d) && (d <=? 31)
         && (hh <? 24) && (mm <? 60) && (ss <? 60)
      then Ok (mkDatetime (clock y m d hh mm ss) u z)
      else Raise (mkExc ValueError ("Unknown string format: " ++ s))
  | _, _, _, _, _, _, _ =>
      Raise (mkExc ValueError ("Unknown string format: " ++ s))
  end.

Definition cents (q : Q) : Z := Qfloor (q * (100 # 1) + (1 # 2)).

Definition round2 (f : pyfloat) : pyfloat :=
  match f with
  | Finite q => Finite (Qred (cents q # 100))
  | _ => f
  end.

Definition format_2f (f : pyfloat) : string :=
  match f with
  | Finite q => str_of_Z (cents q / 100) ++ "." ++ pad2 (cents q mod 100)
  | PosInf => "inf"
  | NegInf => "-inf"
  | NaN => "nan"
  end.

(** The framework of the deployment: one password for everybody, a
    storage layer that accepts every save, no shifts. *)
Definition demo_fw : framework :=
  mkFramework
    float_of_str int_of_str get_distance get_datetime
    format_2f str_of_Z round2
    strftime_date isoformat strftime_stamp
    (fun usr pwd =>
       if String.eqb pwd "secret" then Ok (Some usr)
       else Raise (mkExc AuthenticationError "Incorrect password"))
    (fun _ => None)
    (fun n => "hash" ++ str_of_Z (Z.of_nat n))
    (fun _ => None)
    (fun _ _ => None)
    (fun _ => None)
    (fun _ _ => None)
    (fun t _ => "EMP-CKIN-" ++ str_of_Z (Z.of_nat (List.length t) + 1))
    (fun t _ => "FILE-" ++ str_of_Z (Z.of_nat (List.length t) + 1))
    (fun _ _ => Ok (mkShift None None None None))
    false true true.

Definition emp1 : employee :=
  mkEmployee "EMP-001" (Some "Ada") None None (Some "ada@example.com")
    "Active" (Some "ACME") (Some "Field") (Some "HQ").

Definition ada : user :=
  mkUser "ada@example.com" (Some "ada@example.com") (Some "Ada") None None.

Definition bob : user :=
  mkUser "bob@example.com" (Some "bob@example.com") (Some "Bob")
    (Some "key-bob") (Some "old-secret").

(** Ada is logged in; she is employee EMP-001 of branch HQ, which lies at
    (40.001, -74.0) and has a radius of 100 m; the rules come from her
    department; it is noon on 2025-01-01. *)
Definition demo_world (r : rules) (checkins : list checkin) : world :=
  mkWorld "ada@example.com" (Some "sid-1")
    [ada; bob] [emp1]
    [mkCompany "ACME" (Some true)]
    [mkDepartment "Field" r None]
    []
    [mkBranch "HQ" (Some "Head Office")
       (PFloat (Finite (40001 # 1000))) (PFloat (Finite (-74 # 1))) (PInt 100)]
    [] checkins [] None []
    0%nat
    (mkDatetime (clock 2025 1 1 12 0 0) 123456 None).

Definition no_rules : rules := mkRules (Value false) (Value false) (Value false).
Definition photo_rule : rules := mkRules (Value true) Null Null.
Definition checkout_rule : rules := mkRules Null Null (Value true).

(** A call for EMP-001 from the device phone-1. *)
Definition args (lt : string) (lat lon : pyval) (photo : photo_arg)
    (ts : option string) : checkin_args :=
  mkArgs (Some "EMP-001") lt lat lon (Some "phone-1") photo PhNone ts None
    None None None.

(** A check-in of EMP-001 stored earlier. *)
Definition stored (name lt : string) (t : Z) : checkin :=
  mkCheckin name "EMP-001" "Ada" lt (mkDatetime t 0 None) None None None None
    (mkShift None None None None) 0 None None.

End Demo.

(* ================================================================== *)
(** ** A small shop, to run the reporting endpoints on concrete inputs *)

Module DemoReports.

(** [flt]: a number is itself, a text its number as far as it is one,
    and anything else 0.0. *)
Definition demo_flt (v : pyval) : pyfloat :=
  match v with
  | PInt z => float_of_Z z
  | PFloat f => f
  | PStr s =>
      match Demo.float_of_str s with
      | Some f => f
      | None => float_of_Z 0
      end
  | PBool b => float_of_Z (if b then 1 else 0)
  | _ => float_of_Z 0
  end.

Definition py_str (v : pyval) : string :=
  match v with
  | PStr s => s
  | PInt z => Demo.str_of_Z z
  | PNone => "None"
  | _ => ""
  end.

(** The two texts the shop's clients send: the empty object and the
    empty list. *)
Definition json_loads (s : string) : outcome json_value :=
  if String.eqb s "{}" then Ok (JsonObject [])
  else if String.eqb s "[]" then Ok (JsonOther "list")
  else Raise (mkExc ValueError "Expecting value: line 1 column 1 (char 0)").

Definition order (name : string) (total : Z) : order_row :=
  mkOrderRow name (PStr "CUST-1") (PStr "Carol") (PStr "2025-01-02") PNone
    (PStr "To Deliver") (PInt total) (PInt total) (PStr "ACME") (PStr "USD")
    PNone (PInt 1).

Definition item (parent code : string) (qty : Z) : item_row :=
  mkItemRow parent (PStr (parent ++ "-" ++ code)) (PStr code) (PStr code)
    (PInt qty) (PInt 10) (PInt (10 * qty)) PNone (PStr "Stores") (PStr "Nos")
    (PStr "Nos") (PInt 1).

Definition tax (parent : string) : tax_row :=
  mkTaxRow parent (PStr (parent ++ "-VAT")) (PStr "On Net Total")
    (PStr "VAT") (PStr "VAT") (PInt 5) (PInt 1) (PInt 21) PNone.

(** Carol has two loyalty sums on file and Dan none; tea is priced
    twice and salt not at all. *)
Definition demo_reports : reports :=
  mkReports json_loads demo_flt py_str
    (fun _ _ =>
       [mkStockRow "TEA" (PStr "Tea") (PStr "Drinks") (PStr "Stores") (PInt 7);
        mkStockRow "SALT" (PStr "Salt") (PStr "Food") (PStr "Stores") (PStr "2.5")])
    (fun _ _ =>
       [mkPriceRow "TEA" (PInt 3) (PInt 2) (PInt 4) (PInt 2);
        mkPriceRow "TEA" (PInt 5) (PInt 2) (PInt 6) (PInt 3)])
    (fun _ =>
       [mkCustomerRow "CUST-1" (PStr "Carol") PNone PNone (PInt 1) PNone PNone
          (PInt 0);
        mkCustomerRow "CUST-2" (PStr "Dan") PNone PNone (PInt 0) PNone PNone
          (PInt 0)])
    (fun _ => [mkLoyaltyRow "CUST-1" (PInt 40); mkLoyaltyRow "CUST-1" (PInt 15)])
    (fun _ => [order "SO-2" 21; order "SO-1" 30])
    (fun _ => [item "SO-1" "TEA" 2; item "SO-2" "SALT" 2; item "SO-1" "SALT" 1])
    (fun _ => [tax "SO-2"]).

End DemoReports.

(** A computation keeps a relation between the world before and after. *)
Definition keeps {A} (P : world -> world -> Prop) (m : M A) : Prop :=
  forall w r w', m w = (r, w') -> P w w'.

(** Nothing at all has changed. *)
Definition unchanged (w w' : world) : Prop := w' = w.

(** The check-in table and the clock are as before. *)
Definition same_checkins (w w' : world) : Prop :=
  tabEmployee_Checkin w' = tabEmployee_Checkin w /\ now w' = now w.

(** What a stored check-in says about attendance: who, which way, when. *)
Definition core (c : checkin) : string * string * datetime :=
  (ck_employee c, ck_log_type c, ck_time c).

(** The table says the same about attendance as before. *)
Definition core_same (w w' : world) : Prop :=
  map core (tabEmployee_Checkin w') = map core (tabEmployee_Checkin w).

(** A time whose microsecond field is in range, as every [datetime] is. *)
Definition wf_time (d : datetime) : bool :=
  (0 <=? micro d) && (micro d <? 1000000).

(** The check-ins of one employee, one direction, one calendar date. *)
Definition on_date (emp lt : string) (day : Z) (t : list checkin)
    : list checkin :=
  filter (fun c => String.eqb (ck_employee c) emp
                   && String.eqb (ck_log_type c) lt
                   && (date_of (ck_time c) =? day)) t.



Definition wf_times (t : list checkin) : Prop :=
  forall c, In c t -> wf_time (ck_time c) = true.

(** Every exception a computation raises satisfies [P]. *)
Definition raises {A} (P : exc -> Prop) (m : M A) : Prop :=
  forall w e w', m w = (Raise e, w') -> P e.

(** The exception is of the validation family, which the check-in
    endpoint answers with status 401. *)
Definition validation (e : exc) : Prop := is_validation (exc_cls e) = true.

(** The session, the master data, the uploaded request files, the hash
    supply and the clock are as before. *)
Definition reference_data_same (w w' : world) : Prop :=
  session_user w' = session_user w
  /\ session_sid w' = session_sid w
  /\ tabUser w' = tabUser w
  /\ tabEmployee w' = tabEmployee w
  /\ tabCompany w' = tabCompany w
  /\ tabDepartment w' = tabDepartment w
  /\ tabProject w' = tabProject w
  /\ tabBranch w' = tabBranch w
  /\ request_files w' = request_files w
  /\ hashes_drawn w' = hashes_drawn w
  /\ now w' = now w.

(** What the body of the check-in endpoint leaves alone: the reference
    data and the response status. *)
Definition body_frame (w w' : world) : Prop :=
  reference_data_same w w' /\ http_status_code w' = http_status_code w.

(** No check-in and no file has been written. *)
Definition nothing_stored (w w' : world) : Prop :=
  tabEmployee_Checkin w' = tabEmployee_Checkin w
  /\ tabFile w' = tabFile w
  /\ reference_data_same w w'.

(** The coordinate a check-in stores for an argument: [float()] of a
    truthy argument, nothing for a falsy one. *)
Definition coordinate_of (fw : framework) (v : pyval) (c : option pyfloat)
    : Prop :=
  if truthy v
  then exists f, py_float fw v = Ok f /\ c = Some f
  else c = None.


(* ================================================================== *)
(** * Properties *)

(** ** The monad *)

Lemma bind_ok_inv {A B} (m : M A) (k : A -> M B) w b w' :
  bind m k w = (Ok b, w') ->
  exists a w1, m w = (Ok a, w1) /\ k a w1 = (Ok b, w').
Proof.
  unfold bind. destruct (m w) as [[a|e] w1]; intros H.
  - exists a, w1. split; [reflexivity|exact H].
  - discriminate H.
Qed.

Lemma bind_inv {A B} (m : M A) (k : A -> M B) w r w' :
  bind m k w = (r, w') ->
  (exists a w1, m w = (Ok a, w1) /\ k a w1 = (r, w'))
  \/ (exists e, m w = (Raise e, w') /\ r = Raise e).
Proof.
  unfold bind. destruct (m w) as [[a|e] w1]; intros H.
  - left. exists a, w1. split; [reflexivity|exact H].
  - right. exists e. inversion H; subst. split; reflexivity.
Qed.

Lemma when_throw_ok_inv b msg cls w u w' :
  when_ b (throw msg cls) w = (Ok u, w') -> b = false /\ w' = w.
Proof.
  destruct b; unfold when_, throw, raise, ret; intros H.
  - discriminate H.
  - inversion H. split; reflexivity.
Qed.

Lemma lift_inv {A} (o : outcome A) w r w' :
  lift o w = (r, w') -> r = o /\ w' = w.
Proof. unfold lift. intros H. inversion H. split; reflexivity. Qed.

Lemma ret_inv {A} (a : A) w r w' :
  ret a w = (r, w') -> r = Ok a /\ w' = w.
Proof. unfold ret. intros H. inversion H. split; reflexivity. Qed.

Lemma gets_inv {A} (f : world -> A) w r w' :
  gets f w = (r, w') -> r = Ok (f w) /\ w' = w.
Proof. unfold gets. intros H. inversion H. split; reflexivity. Qed.

(** ** Conversions *)

(** [float()] raises a [ValueError] or a [TypeError], or else the
    [OverflowError] of an integer beyond the doubles. *)
Lemma py_float_raises fw v e :
  py_float fw v = Raise e ->
  is_value_or_type (exc_cls e) = true
  \/ exists n, v = PInt n /\ float_of_int n = Raise e.
Proof.
  destruct v as [| b | z | f | s | t]; cbn [py_float]; intros H;
    try discriminate H; try (inversion H; left; reflexivity).
  - right. exists z. split; [reflexivity | exact H].
  - destruct (float_of_str fw s);
      [discriminate H | inversion H; left; reflexivity].
Qed.

Lemma float_of_int_raises n e :
  float_of_int n = Raise e ->
  e = mkExc OverflowError "int too large to convert to float".
Proof.
  unfold float_of_int.
  destruct (Z.log2 (Z.abs n) + 1 - 53 <=? 0); [discriminate|].
  match goal with
  | |- (if ?c then _ else _) = _ -> _ => destruct c
  end; intros H; inversion H; reflexivity.
Qed.

(** An integer of at most 53 bits is converted exactly. *)
Lemma float_of_int_small n :
  Z.abs n < 2 ^ 53 -> float_of_int n = Ok (float_of_Z n).
Proof.
  intros H. unfold float_of_int.
  assert (L : (Z.log2 (Z.abs n) + 1 - 53 <=? 0) = true).
  { apply Z.leb_le.
    destruct (Z.eq_dec (Z.abs n) 0) as [E | E]; [rewrite E; cbn; lia|].
    assert (Z.log2 (Z.abs n) < 53); [| lia].
    apply Z.log2_lt_pow2; lia. }
  rewrite L. reflexivity.
Qed.

(** ** mobile_login: the flag *)

Lemma coerce_bool b : coerce_has_existing_token (PBool b) = b.
Proof. reflexivity. Qed.

(** C9.  A text flag is true exactly when its lower-case form is "true",
    "1" or "yes" (so "false", "no" and the empty text are false, and
    upper-case spellings of the three are true); any other value is
    taken by its truth value; and [mobile_login] sees the flag only
    through this boolean. *)
Theorem has_existing_token_coercion :
  (forall s,
     coerce_has_existing_token (PStr s) = true
     <-> (lower s = "true" \/ lower s = "1" \/ lower s = "yes"))
  /\ coerce_has_existing_token (PStr "false") = false
  /\ coerce_has_existing_token (PStr "no") = false
  /\ coerce_has_existing_token (PStr "") = false
  /\ coerce_has_existing_token (PStr "TRUE") = true
  /\ coerce_has_existing_token (PStr "Yes") = true
  /\ coerce_has_existing_token (PStr "1") = true
  /\ coerce_has_existing_token PNone = false
  /\ (forall b, coerce_has_existing_token (PBool b) = b)
  /\ (forall z, coerce_has_existing_token (PInt z) = negb (z =? 0))
  /\ (forall f, coerce_has_existing_token (PFloat f) = float_truthy f)
  /\ (forall t, coerce_has_existing_token (PObj t) = t)
  /\ (forall fw usr pwd v,
        mobile_login fw usr pwd v
        = mobile_login fw usr pwd (PBool (coerce_has_existing_token v))).
Proof.
  split.
  { intros s. unfold coerce_has_existing_token, str_in. cbn [existsb].
    rewrite orb_false_r, !orb_true_iff, !String.eqb_eq.
    tauto. }
  repeat split; try reflexivity.
Qed.

(** ** _validate_location *)


(** C2, at latitude 0.  The latitude 0.0 lies in [-90, 90] and the
    longitude 10.0 in [-180, 180], yet whatever the distance function and
    the branch, the validator raises the "coordinates are required" error
    and returns no distance: a zero coordinate is falsy. *)
Theorem validate_location_zero_latitude :
  forall fw blat blon r,
    fle (float_of_Z (-90)) (Finite 0) && fle (Finite 0) (float_of_Z 90) = true
    /\ fle (float_of_Z (-180)) (Finite (10 # 1))
       && fle (Finite (10 # 1)) (float_of_Z 180) = true
    /\ _validate_location fw (PFloat (Finite 0)) (PFloat (Finite (10 # 1)))
         blat blon r "IN"
       = Raise (mkExc ValidationError
                  "Location coordinates are required for check-in. Please enable GPS and try again.")
    /\ _validate_location fw (PInt 0) (PFloat (Finite (10 # 1)))
         blat blon r "IN"
       = Raise (mkExc ValidationError
                  "Location coordinates are required for check-in. Please enable GPS and try again.").
Proof. intros. repeat split. Qed.

(** ** create_checkin_checkout: the shape of what it returns *)

(** The endpoint always returns a response: nothing it raises escapes. *)
Lemma create_checkin_checkout_returns fw a w :
  exists resp w', create_checkin_checkout fw a w = (Ok resp, w').
Proof.
  unfold create_checkin_checkout, try_except.
  destruct (checkin_body fw a w) as [[resp|e] wb].
  - exists resp, wb. reflexivity.
  - unfold checkin_handler. destruct (is_validation (exc_cls e)); eexists; eexists; reflexivity.
Qed.

(** An exception raised in the body comes back as [{"exception": ...}]:
    with status 401 and its own message when it is a validation error,
    logged and with status 500 and the generic message otherwise. *)
Lemma create_checkin_checkout_raised fw a w e wb :
  checkin_body fw a w = (Raise e, wb) ->
  create_checkin_checkout fw a w
  = if is_validation (exc_cls e) then
      (Ok (Failure (exc_msg e)), set_http_status_code 401 wb)
    else
      (Ok (Failure "Something went wrong while creating your check-in. Please try again or contact support."),
       set_http_status_code 500
         (add_error_log "Checkin API Unexpected Error" (exc_msg e) wb)).
Proof.
  intros H. unfold create_checkin_checkout, try_except. rewrite H.
  unfold checkin_handler. destruct (is_validation (exc_cls e)); reflexivity.
Qed.

(** C4, the required photo that is missing.  The department of EMP-001
    requires a location photo.  A check-out without one, and a check-in
    without one from inside the radius, each come back as
    [{"exception": "Location photo is required ..."}] with the world,
    and so the response status, left as it was: the status is never set
    to 401. *)
Theorem required_photo_missing_status :
  forall fw,
    let w := Demo.demo_world Demo.photo_rule [] in
    http_status_code w = None
    /\ create_checkin_checkout fw (Demo.args "OUT" PNone PNone PhNone None) w
       = (Ok (Failure "Location photo is required for check-out."), w)
    /\ create_checkin_checkout Demo.demo_fw
         (Demo.args "IN" (PFloat (Finite (400005 # 10000)))
            (PFloat (Finite (-74 # 1))) PhNone None) w
       = (Ok (Failure "Location photo is required for check-in."), w).
Proof. intros fw. repeat split. Qed.

(** ** What a computation leaves alone *)

Section Keeps.

Variable P : world -> world -> Prop.
Hypothesis P_refl : forall w, P w w.
Hypothesis P_trans : forall a b c, P a b -> P b c -> P a c.

Lemma keeps_ret {A} (a : A) : keeps P (ret a).
Proof. intros w r w' H. apply ret_inv in H. destruct H as [_ ->]. apply P_refl. Qed.

Lemma keeps_raise {A} e : keeps P (@raise A e).
Proof. intros w r w' H. inversion H. apply P_refl. Qed.

Lemma keeps_throw {A} msg cls : keeps P (@throw A msg cls).
Proof. apply keeps_raise. Qed.

Lemma keeps_lift {A} (o : outcome A) : keeps P (lift o).
Proof. intros w r w' H. apply lift_inv in H. destruct H as [_ ->]. apply P_refl. Qed.

Lemma keeps_gets {A} (f : world -> A) : keeps P (gets f).
Proof. intros w r w' H. apply gets_inv in H. destruct H as [_ ->]. apply P_refl. Qed.

Lemma keeps_bind {A B} (m : M A) (k : A -> M B) :
  keeps P m -> (forall a, keeps P (k a)) -> keeps P (bind m k).
Proof.
  intros Hm Hk w r w' H. apply bind_inv in H.
  destruct H as [(a & w1 & H1 & H2) | (e & H1 & _)].
  - eapply P_trans; [eapply Hm, H1 | eapply Hk, H2].
  - eapply Hm, H1.
Qed.

Lemma keeps_try_except {A} (m : M A) h :
  keeps P m -> (forall e, keeps P (h e)) -> keeps P (try_except m h).
Proof.
  intros Hm Hh w r w' H. unfold try_except in H.
  destruct (m w) as [[a|e] w1] eqn:E.
  - inversion H; subst. eapply Hm, E.
  - eapply P_trans; [eapply Hm, E | eapply Hh, H].
Qed.

Lemma keeps_when b m : keeps P m -> keeps P (when_ b m).
Proof. intros Hm. destruct b; [exact Hm | apply keeps_ret]. Qed.

Lemma keeps_modify f : (forall w, P w (f w)) -> keeps P (modify f).
Proof. intros Hf w r w' H. inversion H. apply Hf. Qed.

Lemma keeps_get_doc {A} doctype (key : A -> string) table n :
  keeps P (get_doc doctype key table n).
Proof.
  intros w r w' H. unfold get_doc in H.
  destruct (lookup key n (table w)); inversion H; apply P_refl.
Qed.

Lemma keeps_db_exists {A} (key : A -> string) table n :
  keeps P (db_exists key table n).
Proof. apply keeps_gets. Qed.

Lemma keeps_db_count emp lt tf : keeps P (db_count emp lt tf).
Proof. apply keeps_gets. Qed.

Lemma keeps_checkin_exists emp lt tf : keeps P (checkin_exists emp lt tf).
Proof. apply keeps_gets. Qed.

Lemma keeps_log_error title message :
  (forall w, P w (add_error_log title message w)) ->
  keeps P (log_error title message).
Proof. apply keeps_modify. Qed.

End Keeps.

(** One step of a proof that a computation keeps a relation: [r] and [t]
    are the proofs that the relation is reflexive and transitive, [l]
    that writing to the error log respects it. *)
Ltac keeps_step r t l :=
  first
    [ apply (keeps_ret _ r)
    | apply (keeps_throw _ r)
    | apply (keeps_raise _ r)
    | apply (keeps_lift _ r)
    | apply (keeps_get_doc _ r)
    | apply (keeps_db_exists _ r)
    | apply (keeps_db_count _ r)
    | apply (keeps_checkin_exists _ r)
    | apply (keeps_gets _ r)
    | apply (keeps_log_error _); intro; apply l
    | apply (keeps_when _ r)
    | apply (keeps_bind _ t); [ | intro ]
    | apply (keeps_try_except _ t); [ | intro ]
    | match goal with
      | |- keeps _ (if ?b then _ else _) => destruct b
      | |- keeps _ (match ?x with _ => _ end) => destruct x
      end ].

Ltac keeps_all r t l := repeat keeps_step r t l.

(** *** Computations that only read *)

Lemma unchanged_refl w : unchanged w w.
Proof. reflexivity. Qed.

Lemma unchanged_trans a b c : unchanged a b -> unchanged b c -> unchanged a c.
Proof. unfold unchanged. congruence. Qed.

Ltac reads_only :=
  keeps_all unchanged_refl unchanged_trans unchanged_refl.

Lemma records_employee_reads employee_id :
  keeps unchanged (records_employee employee_id).
Proof.
  unfold records_employee, session_user_email, employee_name_by_email.
  reads_only.
Qed.

Lemma date_filter_reads fw start_date end_date :
  keeps unchanged (date_filter fw start_date end_date).
Proof. unfold date_filter. reads_only. Qed.

(** ** get_employee_checkin_records: pagination *)

Lemma sanitize_limit_unfold fw limit :
  sanitize_limit fw limit
  = ocatch (obind (py_int fw limit)
              (fun l => if l <? 1 then Ok 100 else Ok l))
      (fun e => if is_value_or_type (exc_cls e) then Ok 100 else Raise e).
Proof. destruct limit; reflexivity. Qed.

Lemma sanitize_limit_ok fw limit l :
  sanitize_limit fw limit = Ok l ->
  (limit = PNone -> l = 100)
  /\ (forall e, py_int fw limit = Raise e -> l = 100)
  /\ (forall z, limit <> PNone -> py_int fw limit = Ok z ->
        l = if z <? 1 then 100 else z)
  /\ 1 <= l.
Proof.
  intros H.
  assert (D : limit = PNone \/ limit <> PNone)
    by (destruct limit; (left; reflexivity) || (right; discriminate)).
  destruct D as [-> | N].
  - simpl in H. inversion H; subst l.
    split; [reflexivity|]. split; [reflexivity|].
    split; [intros z Hz; congruence | lia].
  - rewrite (sanitize_limit_unfold fw limit) in H.
    unfold ocatch, obind in H.
    split; [intros E; congruence|].
    destruct (py_int fw limit) as [z|e] eqn:E.
    + split; [intros e He; discriminate He|].
      destruct (z <? 1) eqn:Z1; inversion H; subst l.
      * split; [|lia]. intros z' _ Hz'. inversion Hz'; subst z'.
        rewrite Z1. reflexivity.
      * apply Z.ltb_ge in Z1 as Z1'.
        split; [|lia]. intros z' _ Hz'. inversion Hz'; subst z'.
        rewrite Z1. reflexivity.
    + destruct (is_value_or_type (exc_cls e)); inversion H; subst l.
      split; [reflexivity|].
      split; [intros z _ Hz; discriminate Hz | lia].
Qed.

Lemma sanitize_offset_ok fw offset o :
  sanitize_offset fw offset = Ok o ->
  (forall e, py_int fw offset = Raise e -> o = 0)
  /\ (forall z, py_int fw offset = Ok z -> o = if z <? 0 then 0 else z)
  /\ 0 <= o.
Proof.
  unfold sanitize_offset, ocatch, obind. intros H.
  destruct (py_int fw offset) as [z|e] eqn:E.
  - split; [intros e He; discriminate He|].
    destruct (z <? 0) eqn:Z0; inversion H; subst o.
    + split; [|lia]. intros z' Hz'. inversion Hz'; subst z'.
      rewrite Z0. reflexivity.
    + apply Z.ltb_ge in Z0 as Z0'.
      split; [|lia]. intros z' Hz'. inversion Hz'; subst z'.
      rewrite Z0. reflexivity.
  - destruct (is_value_or_type (exc_cls e)); inversion H; subst o.
    split; [reflexivity|].
    split; [intros z Hz; discriminate Hz | lia].
Qed.

(** [int()] raises a [ValueError], a [TypeError], or, on an infinite
    float only, an [OverflowError]. *)
Lemma py_int_raises fw v e :
  py_int fw v = Raise e ->
  is_value_or_type (exc_cls e) = true
  \/ (v = PFloat PosInf \/ v = PFloat NegInf).
Proof.
  destruct v as [| b | z | f | s | t]; simpl; intros H;
    try discriminate H; try (inversion H; left; reflexivity).
  - destruct f; try discriminate H; try (inversion H; left; reflexivity);
      right; [left | right]; reflexivity.
  - destruct (int_of_str fw s); [discriminate H | inversion H; left; reflexivity].
Qed.

Lemma sanitize_limit_raises fw limit e :
  sanitize_limit fw limit = Raise e ->
  limit = PFloat PosInf \/ limit = PFloat NegInf.
Proof.
  intros H.
  rewrite (sanitize_limit_unfold fw limit) in H.
  unfold ocatch, obind in H.
  destruct (py_int fw limit) as [z|e'] eqn:E.
  - destruct (z <? 1); discriminate H.
  - destruct (py_int_raises fw limit e' E) as [V | I]; [|exact I].
    rewrite V in H. discriminate H.
Qed.

Lemma sanitize_offset_raises fw offset e :
  sanitize_offset fw offset = Raise e ->
  offset = PFloat PosInf \/ offset = PFloat NegInf.
Proof.
  unfold sanitize_offset, ocatch, obind. intros H.
  destruct (py_int fw offset) as [z|e'] eqn:E.
  - destruct (z <? 0); discriminate H.
  - destruct (py_int_raises fw offset e' E) as [V | I]; [|exact I].
    rewrite V in H. discriminate H.
Qed.

(** C10, as the code has it.  Sanitizing a limit or an offset raises
    only on an infinite float.  When the endpoint returns, the limit it
    reports is 100 for a missing limit, 100 when [int(limit)] raises,
    100 when [int(limit)] is below 1, and [int(limit)] otherwise (so a
    fractional number is cut toward zero and kept); the offset is 0 when
    [int(offset)] raises or is negative and [int(offset)] otherwise;
    [has_more] is [(offset + limit) < total_count] on these values; and
    the records are the first [limit] of the matching check-ins, latest
    first, after skipping [offset] of them. *)
Theorem pagination_sanitized :
  forall fw limit offset,
    (forall e, sanitize_limit fw limit = Raise e ->
       limit = PFloat PosInf \/ limit = PFloat NegInf)
    /\ (forall e, sanitize_offset fw offset = Raise e ->
          offset = PFloat PosInf \/ offset = PFloat NegInf)
    /\ forall employee_id log_type start_date end_date w res w',
         get_employee_checkin_records fw employee_id log_type start_date
           end_date limit offset w = (Ok res, w') ->
         (limit = PNone -> rr_limit res = 100)
         /\ (forall e, py_int fw limit = Raise e -> rr_limit res = 100)
         /\ (forall z, limit <> PNone -> py_int fw limit = Ok z ->
               rr_limit res = if z <? 1 then 100 else z)
         /\ (forall e, py_int fw offset = Raise e -> rr_offset res = 0)
         /\ (forall z, py_int fw offset = Ok z ->
               rr_offset res = if z <? 0 then 0 else z)
         /\ has_more res = (rr_offset res + rr_limit res <? total_count res)
         /\ Z.of_nat (List.length (records res)) <= rr_limit res
         /\ (exists emp lt tf,
               let found :=
                 filter (matches emp lt tf) (tabEmployee_Checkin w) in
               total_count res = Z.of_nat (List.length found)
               /\ map rd_checkin_id (records res)
                  = map ck_name
                      (firstn (Z.to_nat (rr_limit res))
                         (skipn (Z.to_nat (rr_offset res))
                            (order_by_time_desc found)))).
Proof.
  intros fw limit offset.
  split; [apply sanitize_limit_raises|].
  split; [apply sanitize_offset_raises|].
  intros employee_id log_type start_date end_date w res w' H.
  unfold get_employee_checkin_records in H.
  apply bind_ok_inv in H. destruct H as (emp & w1 & He & H).
  apply records_employee_reads in He. unfold unchanged in He. subst w1.
  apply bind_ok_inv in H. destruct H as (u & w2 & Hw & H).
  apply when_throw_ok_inv in Hw. destruct Hw as [_ ->].
  apply bind_ok_inv in H. destruct H as (tf & w3 & Hd & H).
  apply date_filter_reads in Hd. unfold unchanged in Hd. subst w3.
  apply bind_ok_inv in H. destruct H as (l & w4 & Hl & H).
  apply lift_inv in Hl. destruct Hl as [Hl ->].
  apply bind_ok_inv in H. destruct H as (o & w5 & Ho & H).
  apply lift_inv in Ho. destruct Ho as [Ho ->].
  apply bind_ok_inv in H. destruct H as (n & w6 & Hn & H).
  apply gets_inv in Hn. destruct Hn as [Hn ->].
  apply bind_ok_inv in H. destruct H as (rs & w7 & Hrs & H).
  apply gets_inv in Hrs. destruct Hrs as [Hrs ->].
  apply bind_ok_inv in H. destruct H as (rp & w8 & Hrp & H).
  apply gets_inv in Hrp. destruct Hrp as [Hrp ->].
  apply ret_inv in H. destruct H as [H _].
  inversion H; subst res; clear H. inversion Hn; subst n; clear Hn.
  inversion Hrs; subst rs; clear Hrs. inversion Hrp; subst rp; clear Hrp.
  symmetry in Hl, Ho.
  destruct (sanitize_limit_ok fw limit l Hl) as (L1 & L2 & L3 & L4).
  destruct (sanitize_offset_ok fw offset o Ho) as (O1 & O2 & O3).
  cbn [rr_limit rr_offset has_more total_count records].
  split; [exact L1|]. split; [exact L2|]. split; [exact L3|].
  split; [exact O1|]. split; [exact O2|]. split; [reflexivity|].
  split.
  { rewrite length_map.
    match goal with
    | |- Z.of_nat (List.length (firstn ?k ?x)) <= _ =>
        pose proof (firstn_le_length k x) as Hle
    end.
    lia. }
  exists (emp_name emp),
    (if truthy_str log_type then log_type else None), tf.
  cbn zeta. split; [reflexivity|].
  rewrite map_map. cbn [rd_checkin_id build_record_data]. reflexivity.
Qed.

(** C10, as stated, at a fractional limit and offset.  The limit 3.7
    and the offset 2.5 are not integers; they become 3 and 2, not 100
    and 0. *)
Lemma fractional_limit_is_cut :
  exists res w',
    get_employee_checkin_records Demo.demo_fw (Some "EMP-001") None None None
      (PFloat (Finite (37 # 10))) (PFloat (Finite (5 # 2)))
      (Demo.demo_world Demo.no_rules []) = (Ok res, w')
    /\ rr_limit res = 3 /\ rr_limit res <> 100
    /\ rr_offset res = 2 /\ rr_offset res <> 0.
Proof.
  eexists. eexists. split; [vm_compute; reflexivity|].
  cbn [rr_limit rr_offset]. repeat split; discriminate.
Qed.

(** C10, run on a text that is no number and a negative offset: the
    limit becomes 100 and the offset 0. *)
Lemma pagination_sanitized_witness :
  exists res w',
    get_employee_checkin_records Demo.demo_fw (Some "EMP-001") None None None
      (PStr "abc") (PInt (-4))
      (Demo.demo_world Demo.no_rules []) = (Ok res, w')
    /\ rr_limit res = 100 /\ rr_offset res = 0.
Proof.
  destruct (get_employee_checkin_records Demo.demo_fw (Some "EMP-001") None
              None None (PStr "abc") (PInt (-4))
              (Demo.demo_world Demo.no_rules [])) as [[res|e] w'] eqn:E;
    [| vm_compute in E; discriminate E].
  exists res, w'. split; [reflexivity|].
  destruct (pagination_sanitized Demo.demo_fw (PStr "abc") (PInt (-4)))
    as (_ & _ & T).
  destruct (T _ _ _ _ _ _ _ E) as (_ & L & _ & _ & O & _).
  split.
  - eapply L. vm_compute. reflexivity.
  - rewrite (O (-4)); reflexivity.
Defined.

(** ** mobile_login: the credentials *)

Ltac bind_ok H a w1 E :=
  apply bind_ok_inv in H; destruct H as (a & w1 & E & H).

Ltac when_ok H :=
  let u := fresh "u" in
  let w1 := fresh "w" in
  let E := fresh "E" in
  bind_ok H u w1 E; apply when_throw_ok_inv in E; destruct E as [E ->].

Lemma try_except_ok_inv {A} (m : M A) h w a w' :
  try_except m h w = (Ok a, w') ->
  m w = (Ok a, w')
  \/ exists e w1, m w = (Raise e, w1) /\ h e w1 = (Ok a, w').
Proof.
  unfold try_except. destruct (m w) as [[x|e] w1]; intros H.
  - left. exact H.
  - right. exists e, w1. split; [reflexivity | exact H].
Qed.

Lemma lookup_key {A} (key : A -> string) n t d :
  lookup key n t = Some d -> key d = n.
Proof.
  unfold lookup. intros H. apply find_some in H. destruct H as [_ H].
  apply String.eqb_eq. exact H.
Qed.

Lemma lookup_replace_user u' t n u :
  lookup usr_name n t = Some u -> usr_name u' = n ->
  lookup usr_name n (replace_user u' t) = Some u'.
Proof.
  unfold lookup, replace_user. intros H Hn. subst n.
  induction t as [|x t IH]; [discriminate H|].
  cbn [map find] in *.
  destruct (String.eqb (usr_name x) (usr_name u')) eqn:X.
  - rewrite String.eqb_refl. reflexivity.
  - rewrite X. apply IH. exact H.
Qed.

(** The users' credentials and the hash supply are as before. *)
Lemma credentials_kept_refl w :
  tabUser w = tabUser w /\ hashes_drawn w = hashes_drawn w.
Proof. split; reflexivity. Qed.

Lemma credentials_kept_trans (a b c : world) :
  tabUser b = tabUser a /\ hashes_drawn b = hashes_drawn a ->
  tabUser c = tabUser b /\ hashes_drawn c = hashes_drawn b ->
  tabUser c = tabUser a /\ hashes_drawn c = hashes_drawn a.
Proof. intros [H1 H2] [H3 H4]. split; congruence. Qed.

Lemma mobile_login_existing_token_keeps fw usr pwd flag :
  coerce_has_existing_token flag = true ->
  keeps (fun w w' => tabUser w' = tabUser w /\ hashes_drawn w' = hashes_drawn w)
    (mobile_login fw usr pwd flag).
Proof.
  intros Hc. unfold mobile_login, post_login. rewrite Hc.
  keeps_all credentials_kept_refl credentials_kept_trans credentials_kept_refl.
  apply keeps_modify. intro. split; reflexivity.
Qed.

(** C6.  With the flag true, a call leaves every user's credentials and
    the hash supply as they were and, when it returns, carries no token.
    With the flag false, a call that returns carries the token
    [api_key:api_secret], where the secret is the hash drawn first and
    the key is the user's own when there is one and the hash drawn next
    otherwise, and the user document now holds that key and that secret;
    and the call does return whenever the login succeeds and the storage
    layer accepts the save. *)
Theorem mobile_login_credentials :
  forall fw usr pwd flag w r w',
    mobile_login fw usr pwd flag w = (r, w') ->
    (coerce_has_existing_token flag = true ->
       tabUser w' = tabUser w
       /\ hashes_drawn w' = hashes_drawn w
       /\ forall res, r = Ok res ->
            token (credentials res) = None
            /\ generated (credentials res) = false)
    /\ (coerce_has_existing_token flag = false ->
        forall res, r = Ok res ->
        exists u,
          lookup usr_name (session_user w') (tabUser w) = Some u
          /\ let api_secret := generate_hash fw (hashes_drawn w) in
             let api_key :=
               if truthy_str (usr_api_key u) then or_empty (usr_api_key u)
               else generate_hash fw (S (hashes_drawn w)) in
             token (credentials res) = Some (api_key ++ ":" ++ api_secret)
             /\ generated (credentials res) = true
             /\ lookup usr_name (session_user w') (tabUser w')
                = Some (mkUser (usr_name u) (usr_email u) (usr_full_name u)
                          (Some api_key) (Some api_secret)))
    /\ (coerce_has_existing_token flag = false ->
        forall name u,
          truthy_str usr = true -> truthy_str pwd = true ->
          authenticate fw (or_empty usr) (or_empty pwd) = Ok (Some name) ->
          truthy_str (Some name) = true ->
          post_login_check fw name = None ->
          lookup usr_name name (tabUser w) = Some u ->
          (forall key secret,
             user_save_check fw
               (mkUser (usr_name u) (usr_email u) (usr_full_name u)
                  (Some key) (Some secret)) = None) ->
          exists res, r = Ok res).
Proof.
  intros fw usr pwd flag w r w' H.
  split; [|split].
  - intros Hc.
    destruct (mobile_login_existing_token_keeps fw usr pwd flag Hc w r w' H)
      as [K1 K2].
    split; [exact K1|]. split; [exact K2|].
    intros res ->. unfold mobile_login in H. rewrite Hc in H.
    when_ok H. when_ok H.
    bind_ok H name w3 E3. bind_ok H user_doc w4 E4. bind_ok H sid w5 E5.
    bind_ok H creds w6 E6.
    apply ret_inv in E6. destruct E6 as [E6 _]. inversion E6; subst creds.
    apply ret_inv in H. destruct H as [H _]. inversion H; subst res.
    split; reflexivity.
  - intros Hc res ->. unfold mobile_login in H. rewrite Hc in H.
    when_ok H. when_ok H.
    bind_ok H name w3 E3. bind_ok H user_doc w4 E4. bind_ok H sid w5 E5.
    bind_ok H creds w6 E6.
    apply ret_inv in H. destruct H as [H ->]. inversion H; subst res; clear H.
    (* the login *)
    apply try_except_ok_inv in E3.
    destruct E3 as [E3 | (e & wx & _ & E3)];
      [| destruct (exc_cls e); discriminate E3].
    bind_ok E3 au w3' A3. apply lift_inv in A3. destruct A3 as [A3 ->].
    destruct (truthy_str au) eqn:Tau; cbn [negb] in E3; [|discriminate E3].
    bind_ok E3 um w3'' M3. unfold post_login in M3.
    destruct (post_login_check fw (or_empty au)); [discriminate M3|].
    inversion M3; subst w3''; clear M3.
    apply ret_inv in E3. destruct E3 as [E3 ->]. inversion E3; subst name; clear E3.
    (* the user document *)
    apply try_except_ok_inv in E4.
    destruct E4 as [E4 | (e & wx & _ & E4)]; [| discriminate E4].
    unfold get_doc in E4. cbn [tabUser set_session] in E4.
    destruct (lookup usr_name (or_empty au) (tabUser w)) as [d|] eqn:L;
      [| discriminate E4].
    inversion E4; subst user_doc w4; clear E4.
    apply gets_inv in E5. destruct E5 as [_ ->].
    (* the credentials *)
    apply try_except_ok_inv in E6.
    destruct E6 as [E6 | (e & wx & _ & E6)]; [| discriminate E6].
    bind_ok E6 api_secret w7 S7.
    unfold draw_generate_hash in S7.
    bind_ok S7 n w7' G7. apply gets_inv in G7. destruct G7 as [G7 ->].
    inversion G7; subst n; clear G7.
    bind_ok S7 ud w7'' D7. inversion D7; subst w7''; clear D7.
    apply ret_inv in S7. destruct S7 as [S7 ->]. inversion S7; subst api_secret; clear S7.
    bind_ok E6 api_key w8 K8.
    bind_ok E6 us w9 V9.
    apply ret_inv in E6. destruct E6 as [E6 ->]. inversion E6; subst creds; clear E6.
    unfold save_user in V9.
    match type of V9 with
    | match ?c with _ => _ end _ = _ => destruct c; [discriminate V9|]
    end.
    inversion V9; subst w9; clear V9.
    exists d. cbn [session_user set_session set_tabUser draw_hash tabUser
                   hashes_drawn token generated credentials].
    pose proof (lookup_key usr_name _ _ _ L) as Hname.
    assert (Hsess : session_user w8 = or_empty au /\ tabUser w8 = tabUser w
                    /\ api_key = (if truthy_str (usr_api_key d)
                                  then or_empty (usr_api_key d)
                                  else generate_hash fw (S (hashes_drawn w)))).
    { destruct (truthy_str (usr_api_key d)); cbn [negb] in K8.
      - apply ret_inv in K8. destruct K8 as [K8 ->]. inversion K8.
        repeat split.
      - unfold draw_generate_hash in K8.
        bind_ok K8 n w8' G8. apply gets_inv in G8. destruct G8 as [G8 ->].
        inversion G8; subst n; clear G8.
        bind_ok K8 ue w8'' D8. inversion D8; subst w8''; clear D8.
        apply ret_inv in K8. destruct K8 as [K8 ->]. inversion K8.
        repeat split. }
    destruct Hsess as (Hs & Ht & Hk). rewrite Hs, Ht. subst api_key.
    split; [exact L|]. cbn zeta.
    split; [reflexivity|]. split; [reflexivity|].
    apply (lookup_replace_user _ _ _ d L). exact Hname.
  - intros Hc name u Tu Tp Au Tn Pl Lu Sv.
    unfold mobile_login in H. rewrite Hc, Tu, Tp in H.
    unfold bind at 1 in H. cbn [negb when_ ret] in H.
    unfold bind at 1 in H. cbn [negb when_ ret] in H.
    unfold bind at 1, try_except at 1, bind at 1, lift in H.
    rewrite Au, Tn in H. cbn [negb] in H.
    unfold bind at 1, post_login, modify, ret in H.
    cbn [or_empty] in H. rewrite Pl in H.
    unfold bind at 1, try_except at 1, get_doc in H.
    cbn [tabUser set_session or_empty] in H. rewrite Lu in H.
    unfold bind at 1, gets in H.
    unfold bind at 1, try_except at 1 in H.
    match type of H with
    | match (match ?m with _ => _ end) with _ => _ end = _ =>
        assert (Hm : exists c wz, m = (Ok c, wz))
    end.
    { unfold draw_generate_hash, save_user.
      destruct (truthy_str (usr_api_key u)); cbn [negb];
        unfold bind, gets, modify, ret; rewrite Sv; eexists; eexists; reflexivity. }
    destruct Hm as (c & wz & Hm). rewrite Hm in H.
    unfold ret in H. inversion H. eexists. reflexivity.
Qed.

(** C6, run twice: Ada logs in saying she has a token and nothing
    changes; Bob logs in saying he has none, keeps his key and gets a
    new secret. *)
Lemma mobile_login_credentials_witness :
  let w := Demo.demo_world Demo.no_rules [] in
  (exists r w',
     mobile_login Demo.demo_fw (Some "ada@example.com") (Some "secret")
       (PStr "YES") w = (r, w')
     /\ tabUser w' = tabUser w)
  /\ (exists res w',
        mobile_login Demo.demo_fw (Some "bob@example.com") (Some "secret")
          (PStr "No") w = (Ok res, w')
        /\ token (credentials res) = Some "key-bob:hash0"
        /\ generated (credentials res) = true).
Proof.
  intros w. split.
  - destruct (mobile_login Demo.demo_fw (Some "ada@example.com")
                (Some "secret") (PStr "YES") w) as [r w'] eqn:E.
    exists r, w'. split; [reflexivity|].
    destruct (mobile_login_credentials _ _ _ _ _ _ _ E) as (T & _ & _).
    apply T. reflexivity.
  - destruct (mobile_login Demo.demo_fw (Some "bob@example.com")
                (Some "secret") (PStr "No") w) as [[res|e] w'] eqn:E;
      [| vm_compute in E; discriminate E].
    exists res, w'. split; [reflexivity|].
    destruct (mobile_login_credentials _ _ _ _ _ _ _ E) as (_ & T & _).
    destruct (T eq_refl res eq_refl) as (u & Lu & Tk & G & _).
    assert (S : session_user w' = "bob@example.com")
      by (vm_compute in E; inversion E; reflexivity).
    rewrite S in Lu. vm_compute in Lu. inversion Lu; subst u.
    split; [exact Tk | exact G].
Defined.

(** ** _handle_photo_upload *)




(** Bytes above the limit are refused and nothing is saved. *)
Lemma store_photo_too_large fw b employee_id checkin_id photo_type w :
  MAX_SIZE < len b ->
  exists w2,
    store_photo fw b employee_id checkin_id photo_type w
    = (Raise (mkExc ValidationError
                "Photo file size exceeds the maximum limit of 5MB. Please compress the image and try again."),
       w2)
    /\ tabFile w2 = tabFile w.
Proof.
  intros Hb.
  assert (L0 : (len b =? 0) = false)
    by (apply Z.eqb_neq; unfold MAX_SIZE in Hb; lia).
  assert (L1 : (len b >? MAX_SIZE) = true)
    by (rewrite Z.gtb_ltb; apply Z.ltb_lt; lia).
  unfold store_photo, try_except, bind, gets, log_error, modify, ret, when_,
    throw, raise.
  rewrite L0, L1. cbn [exc_cls is_validation].
  eexists. split; reflexivity.
Qed.


Lemma handle_photo_bytes fw b employee_id checkin_id photo_type w :
  0 < len b ->
  exists w1,
    tabFile w1 = tabFile w /\ now w1 = now w
    /\ _handle_photo_upload fw (PhBytes b) employee_id checkin_id photo_type w
       = store_photo fw b employee_id checkin_id photo_type w1.
Proof.
  intros Hb.
  assert (L0 : (len b =? 0) = false) by (apply Z.eqb_neq; lia).
  unfold _handle_photo_upload. cbn [photo_truthy]. rewrite L0. cbn [negb].
  eexists. split; [|split; [|reflexivity]]; reflexivity.
Qed.




(** ** create_checkin_checkout: what it reads and what it writes *)

Lemma same_checkins_refl w : same_checkins w w.
Proof. split; reflexivity. Qed.

Lemma same_checkins_trans a b c :
  same_checkins a b -> same_checkins b c -> same_checkins a c.
Proof. unfold same_checkins. intros [H1 H2] [H3 H4]. split; congruence. Qed.

Lemma same_checkins_log title message w :
  same_checkins w (add_error_log title message w).
Proof. split; reflexivity. Qed.

Ltac keeps_checkins :=
  keeps_all same_checkins_refl same_checkins_trans same_checkins_log.

Lemma save_file_keeps fw fname content dt dn :
  keeps same_checkins (save_file fw fname content dt dn).
Proof.
  intros w r w' H. unfold save_file in H.
  destruct (save_file_check fw fname content); inversion H; split; reflexivity.
Qed.

Lemma save_file_doc_keeps fw d : keeps same_checkins (save_file_doc fw d).
Proof.
  unfold save_file_doc. destruct (file_save_check fw d).
  - apply keeps_raise, same_checkins_refl.
  - apply keeps_modify. intro. split; reflexivity.
Qed.

Lemma handle_photo_upload_keeps fw photo_data employee_id checkin_id photo_type :
  keeps same_checkins
    (_handle_photo_upload fw photo_data employee_id checkin_id photo_type).
Proof.
  unfold _handle_photo_upload, as_file_id, photo_bytes, store_photo.
  keeps_checkins; apply save_file_keeps.
Qed.

Lemma attach_photo_keeps fw photo photo_id employee_name checkin_name photo_type :
  keeps same_checkins
    (attach_photo fw photo photo_id employee_name checkin_name photo_type).
Proof.
  unfold attach_photo.
  keeps_checkins;
    first [apply handle_photo_upload_keeps | apply save_file_doc_keeps].
Qed.

Lemma read_upload_keeps field photo : keeps same_checkins (read_upload field photo).
Proof. unfold read_upload, _read_file_storage. keeps_checkins. Qed.

Lemma get_employee_settings_keeps fw employee :
  keeps same_checkins (_get_employee_settings fw employee).
Proof. unfold _get_employee_settings. keeps_checkins. Qed.

Lemma prepare_keeps fw a : keeps same_checkins (prepare fw a).
Proof.
  unfold prepare, resolve_employee, employee_get_doc, validate_active_employee,
    session_user_email, employee_name_by_email.
  keeps_checkins;
    first [apply read_upload_keeps | apply get_employee_settings_keeps].
Qed.

Lemma required_photo_keeps required photo photo_id label missing_file log_type :
  keeps same_checkins
    (required_photo required photo photo_id label missing_file log_type).
Proof. unfold required_photo. keeps_checkins. Qed.

(** What a parsed timestamp is. *)
Lemma parse_timestamp_ok fw ts w t w' :
  parse_timestamp fw ts w = (Ok t, w') ->
  w' = w
  /\ micro t = 0
  /\ (truthy_str ts = true ->
      exists d,
        get_datetime fw (or_empty ts) = Ok d
        /\ tzoff t = None
        /\ wall t = match tzoff d with
                    | Some off => wall d - off
                    | None => wall d
                    end)
  /\ (truthy_str ts = false -> t = replace_microsecond_0 (now w)).
Proof.
  unfold parse_timestamp. destruct (truthy_str ts); intros H.
  - apply try_except_ok_inv in H.
    destruct H as [H | (e & w1 & _ & H)]; [| discriminate H].
    apply lift_inv in H. destruct H as [H ->].
    unfold obind in H.
    destruct (get_datetime fw (or_empty ts)) as [d|e] eqn:D; [| discriminate H].
    unfold astimezone_utc in H.
    destruct (tzoff d) as [off|] eqn:Z.
    + destruct (in_range (wall d - off)); [| discriminate H].
      inversion H; subst t. cbn.
      split; [reflexivity|]. split; [reflexivity|].
      split; [| discriminate].
      intros _. exists d. rewrite Z. repeat split.
    + inversion H; subst t. cbn.
      split; [reflexivity|]. split; [reflexivity|].
      split; [| discriminate].
      intros _. exists d. rewrite Z. repeat split.
  - bind_ok H n w1 G. apply gets_inv in G. destruct G as [G ->].
    inversion G; subst n. apply ret_inv in H. destruct H as [H ->].
    inversion H; subst t.
    split; [reflexivity|]. split; [reflexivity|].
    split; [discriminate | reflexivity].
Qed.

(** What the day check has verified when it lets a call through: the
    window from the start of the day to the start of the next, both
    ends included, holds no record of this employee in this direction,
    and for an OUT it holds an IN. *)
Lemma one_in_one_out_ok fw emp lt t w u w' :
  one_in_one_out fw emp lt t w = (Ok u, w') ->
  w' = w
  /\ exists end_of_day,
       add_one_day (replace_midnight t) = Ok end_of_day
       /\ filter (matches emp (Some lt)
                    (Between (replace_midnight t) end_of_day))
            (tabEmployee_Checkin w) = []
       /\ (String.eqb lt "OUT" = true ->
           existsb (matches emp (Some "IN")
                      (Between (replace_midnight t) end_of_day))
             (tabEmployee_Checkin w) = true).
Proof.
  unfold one_in_one_out. intros H.
  bind_ok H e w1 A. apply lift_inv in A. destruct A as [A ->].
  bind_ok H u1 w2 B.
  bind_ok H n w3 C. apply gets_inv in C. destruct C as [C ->].
  inversion C; subst n; clear C.
  apply when_throw_ok_inv in H. destruct H as [H ->].
  assert (W : w2 = w
              /\ (String.eqb lt "OUT" = true ->
                  existsb (matches emp (Some "IN")
                             (Between (replace_midnight t) e))
                    (tabEmployee_Checkin w) = true)).
  { destruct (String.eqb lt "OUT").
    - bind_ok B x w4 X. apply gets_inv in X. destruct X as [X ->].
      inversion X; subst x; clear X.
      apply when_throw_ok_inv in B. destruct B as [B ->].
      split; [reflexivity|]. intros _.
      apply negb_false_iff in B. exact B.
    - apply ret_inv in B. destruct B as [_ ->].
      split; [reflexivity | discriminate]. }
  destruct W as [-> W].
  split; [reflexivity|]. exists e. split; [symmetry; exact A|].
  split; [| exact W].
  destruct (filter (matches emp (Some lt) (Between (replace_midnight t) e))
              (tabEmployee_Checkin w)); [reflexivity|].
  cbn [List.length] in H. rewrite Z.gtb_ltb in H. apply Z.ltb_ge in H. lia.
Qed.

Lemma insert_checkin_ok fw doc w d w' :
  insert_checkin fw doc w = (Ok d, w') ->
  d = with_name (checkin_autoname fw (tabEmployee_Checkin w) doc) doc
  /\ tabEmployee_Checkin w' = (tabEmployee_Checkin w ++ [d])%list
  /\ now w' = now w.
Proof.
  unfold insert_checkin. intros H. apply try_except_ok_inv in H.
  destruct H as [H | (e & w1 & _ & H)].
  - unfold insert in H.
    destruct (checkin_insert_check fw (tabEmployee_Checkin w) doc);
      [discriminate H|].
    inversion H; subst. repeat split.
  - destruct (exc_cls e); try discriminate H;
      destruct (contains "duplicate" (lower (exc_msg e))); discriminate H.
Qed.

Lemma new_checkin_doc_ok fw a employee t w doc w' :
  new_checkin_doc fw a employee t w = (Ok doc, w') ->
  w' = w /\ core doc = (emp_name employee, log_type a, t).
Proof.
  unfold new_checkin_doc, opt_float. intros H.
  bind_ok H lat w1 A. bind_ok H lon w2 B. bind_ok H sh w3 C.
  apply ret_inv in H. destruct H as [H ->]. inversion H; subst doc.
  apply lift_inv in C. destruct C as [_ ->].
  assert (W2 : w2 = w1).
  { destruct (truthy (longitude a)).
    - bind_ok B f w4 X. apply lift_inv in X. destruct X as [_ ->].
      apply ret_inv in B. destruct B as [_ ->]. reflexivity.
    - apply ret_inv in B. destruct B as [_ ->]. reflexivity. }
  assert (W1 : w1 = w).
  { destruct (truthy (latitude a)).
    - bind_ok A f w4 X. apply lift_inv in X. destruct X as [_ ->].
      apply ret_inv in A. destruct A as [_ ->]. reflexivity.
    - apply ret_inv in A. destruct A as [_ ->]. reflexivity. }
  subst. split; reflexivity.
Qed.

(** The backfill of photo URLs rewrites stored records without touching
    their names or what they say about attendance. *)
Lemma update_photo_fields_core loc bio c :
  ck_name (update_photo_fields loc bio c) = ck_name c
  /\ core (update_photo_fields loc bio c) = core c.
Proof. split; reflexivity. Qed.

Lemma backfill_photo_urls_ok fw name lf bf w u w' :
  backfill_photo_urls fw name lf bf w = (Ok u, w') ->
  now w' = now w
  /\ exists g,
       (forall c, ck_name (g c) = ck_name c /\ core (g c) = core c)
       /\ tabEmployee_Checkin w' = map g (tabEmployee_Checkin w).
Proof.
  unfold backfill_photo_urls.
  set (loc := match lf with
              | Some f => if has_custom_location_photo fw
                          then Some (f_file_url f) else None
              | None => None
              end).
  set (bio := match bf with
              | Some f => if has_custom_client_bio_metric_photo fw
                          then Some (f_file_url f) else None
              | None => None
              end).
  intros H.
  assert (D : (loc = None /\ bio = None)
              \/ w' = set_tabEmployee_Checkin
                        (map (fun c => if String.eqb (ck_name c) name
                                       then update_photo_fields loc bio c else c)
                           (tabEmployee_Checkin w)) w).
  { destruct loc; [right; inversion H; reflexivity|].
    destruct bio; [right; inversion H; reflexivity|].
    left. split; reflexivity. }
  destruct D as [[L B] | D].
  - rewrite L, B in H. apply ret_inv in H. destruct H as [_ ->].
    split; [reflexivity|]. exists (fun c => c).
    split; [intro; split; reflexivity|]. rewrite map_id. reflexivity.
  - subst w'. split; [reflexivity|].
    exists (fun c => if String.eqb (ck_name c) name
                     then update_photo_fields loc bio c else c).
    split; [| reflexivity].
    intros c. destruct (String.eqb (ck_name c) name).
    + apply update_photo_fields_core.
    + split; reflexivity.
Qed.

(** A recorded check-in: the response describes the new record, the
    record carries the parsed time, the day check passed on the table as
    it was, and the table afterwards is the old one followed by the new
    record, up to photo URLs. *)
Lemma record_checkin_ok fw a employee lp bp distance w r w' :
  record_checkin fw a employee lp bp distance w = (Ok r, w') ->
  exists t doc lf bf g,
    parse_timestamp fw (timestamp a) w = (Ok t, w)
    /\ one_in_one_out fw (emp_name employee) (log_type a) t w = (Ok tt, w)
    /\ core doc = (emp_name employee, log_type a, t)
    /\ r = Success (success_response fw employee (log_type a) doc distance lf bf)
    /\ (forall c, ck_name (g c) = ck_name c /\ core (g c) = core c)
    /\ tabEmployee_Checkin w' = map g (tabEmployee_Checkin w ++ [doc])%list.
Proof.
  unfold record_checkin. intros H.
  bind_ok H t w1 A. pose proof (parse_timestamp_ok _ _ _ _ _ A) as [-> _].
  bind_ok H u w2 B. pose proof (one_in_one_out_ok _ _ _ _ _ _ _ B) as [-> _].
  destruct u.
  bind_ok H doc0 w3 C. pose proof (new_checkin_doc_ok _ _ _ _ _ _ _ C) as [-> Hc].
  bind_ok H doc w4 D. pose proof (insert_checkin_ok _ _ _ _ _ D) as (Hd & Ht & Hn).
  bind_ok H lf w5 E. apply attach_photo_keeps in E. destruct E as [E1 E2].
  bind_ok H bf w6 F. apply attach_photo_keeps in F. destruct F as [F1 F2].
  bind_ok H u w7 G. apply backfill_photo_urls_ok in G.
  destruct G as (G1 & g & Hg & G2).
  apply ret_inv in H. destruct H as [H ->]. inversion H; subst r.
  exists t, doc, lf, bf, g.
  split; [exact A|]. split; [exact B|].
  split; [subst doc; exact Hc|].
  split; [reflexivity|]. split; [exact Hg|].
  rewrite G2, F1, E1, Ht. reflexivity.
Qed.

(** A successful call went through [prepare], the location step, the
    required-photo checks and [record_checkin], and nothing before
    [record_checkin] touched the check-in table or the clock. *)
Lemma create_checkin_checkout_success fw a w resp w' :
  create_checkin_checkout fw a w = (Ok (Success resp), w') ->
  exists lp bp employee settings w1 distance w2,
    prepare fw a w = (Ok (lp, bp, employee, settings), w1)
    /\ validate_location_step fw (log_type a) (latitude a) (longitude a) settings
       = Ok distance
    /\ same_checkins w w2
    /\ record_checkin fw a employee lp bp distance w2 = (Ok (Success resp), w').
Proof.
  unfold create_checkin_checkout. intros H. apply try_except_ok_inv in H.
  destruct H as [H | (e & w1 & _ & H)].
  2: { unfold checkin_handler in H.
       destruct (is_validation (exc_cls e)); discriminate H. }
  unfold checkin_body in H. bind_ok H ctx w1 P.
  destruct ctx as [[[lp bp] employee] settings]. cbn [validate_and_record] in H.
  bind_ok H distance w2 L. apply lift_inv in L. destruct L as [L ->].
  bind_ok H m1 w3 R1. destruct m1 as [m|]; [discriminate H|].
  bind_ok H m2 w4 R2. destruct m2 as [m|]; [discriminate H|].
  exists lp, bp, employee, settings, w1, distance, w4.
  split; [exact P|]. split; [symmetry; exact L|]. split; [| exact H].
  apply prepare_keeps in P. apply required_photo_keeps in R1, R2.
  eapply same_checkins_trans; [exact P|].
  eapply same_checkins_trans; [exact R1 | exact R2].
Qed.

(** C8.  After a successful call the table ends with the new record, the
    one the response names.  Its time has no microseconds.  When a
    timestamp was given, the time is naive and is the parsed value,
    moved to UTC by its offset when that value was aware; when none was
    given, the time is the current time without its microseconds. *)
Theorem stored_timestamp :
  forall fw a w resp w',
    create_checkin_checkout fw a w = (Ok (Success resp), w') ->
    exists old c,
      tabEmployee_Checkin w' = (old ++ [c])%list
      /\ List.length old = List.length (tabEmployee_Checkin w)
      /\ ck_name c = resp_checkin_id resp
      /\ isoformat fw (ck_time c) = resp_time resp
      /\ micro (ck_time c) = 0
      /\ (truthy_str (timestamp a) = true ->
          tzoff (ck_time c) = None
          /\ exists d,
               get_datetime fw (or_empty (timestamp a)) = Ok d
               /\ wall (ck_time c) = match tzoff d with
                                     | Some off => wall d - off
                                     | None => wall d
                                     end)
      /\ (truthy_str (timestamp a) = false ->
          ck_time c = replace_microsecond_0 (now w)).
Proof.
  intros fw a w resp w' H.
  apply create_checkin_checkout_success in H.
  destruct H as (lp & bp & employee & settings & w1 & distance & w2
                 & _ & _ & [St Sn] & H).
  apply record_checkin_ok in H.
  destruct H as (t & doc & lf & bf & g & Pt & _ & Hc & Hr & Hg & Ht).
  apply parse_timestamp_ok in Pt. destruct Pt as (_ & Pm & Pts & Pn).
  inversion Hr; subst resp; clear Hr.
  assert (Etime : ck_time (g doc) = t).
  { destruct (Hg doc) as [_ C]. rewrite Hc in C. unfold core in C.
    inversion C. reflexivity. }
  assert (Edoc : ck_time doc = t)
    by (unfold core in Hc; inversion Hc; reflexivity).
  exists (map g (tabEmployee_Checkin w)), (g doc).
  rewrite Ht, St, map_app. cbn [map].
  split; [reflexivity|]. split; [apply length_map|].
  split; [apply (Hg doc)|].
  cbn [resp_time success_response]. rewrite Etime, Edoc.
  split; [reflexivity|]. split; [exact Pm|].
  split.
  - intros T. destruct (Pts T) as (d & D & Z & W).
    split; [exact Z|]. exists d. split; [exact D | exact W].
  - intros T. rewrite (Pn T), Sn. reflexivity.
Qed.

(** ** The geofence in create_checkin_checkout *)

(** The validator raises validation errors only. *)
Lemma validate_location_raises fw lat lon blat blon r lt e :
  _validate_location fw lat lon blat blon r lt = Raise e ->
  is_validation (exc_cls e) = true
  \/ exists n, (lat = PInt n \/ lon = PInt n) /\ float_of_int n = Raise e.
Proof.
  unfold _validate_location, obind, ocatch, othrow.
  destruct (negb (truthy lat) || negb (truthy lon));
    [intros H; inversion H; left; reflexivity|].
  destruct (py_float fw lat) as [la|e1] eqn:E1.
  2: { destruct (py_float_raises fw lat e1 E1) as [V | (n & -> & F)].
       - rewrite V. intros H; inversion H; left; reflexivity.
       - rewrite (float_of_int_raises _ _ F). cbn [exc_cls is_value_or_type].
         intros H; inversion H; subst e. right. exists n.
         split; [left; reflexivity|].
         rewrite F. rewrite (float_of_int_raises _ _ F). reflexivity. }
  destruct (py_float fw lon) as [lo|e2] eqn:E2.
  2: { destruct (py_float_raises fw lon e2 E2) as [V | (n & -> & F)].
       - rewrite V. intros H; inversion H; left; reflexivity.
       - rewrite (float_of_int_raises _ _ F). cbn [exc_cls is_value_or_type].
         intros H; inversion H; subst e. right. exists n.
         split; [right; reflexivity|].
         rewrite F. rewrite (float_of_int_raises _ _ F). reflexivity. }
  cbn [fst snd].
  destruct (negb (fle (float_of_Z (-90)) la && fle la (float_of_Z 90)));
    [intros H; inversion H; left; reflexivity|].
  destruct (negb (fle (float_of_Z (-180)) lo && fle lo (float_of_Z 180)));
    [intros H; inversion H; left; reflexivity|].
  destruct (get_distance_between_coordinates fw blat blon la lo) as [d|e3];
    [| intros H; inversion H; left; reflexivity].
  destruct (fgt d (float_of_Z r)); intros H; inversion H; left; reflexivity.
Qed.


Lemma validate_location_step_raises fw lt lat lon s e :
  validate_location_step fw lt lat lon s = Raise e ->
  is_validation (exc_cls e) = true
  \/ exists n, (lat = PInt n \/ lon = PInt n) /\ float_of_int n = Raise e.
Proof.
  unfold validate_location_step, obind, othrow.
  destruct (String.eqb lt "IN");
    [| destruct (require_location_check_on_check_out s); [| discriminate]];
    (destruct (negb (truthy lat) || negb (truthy lon));
     [intros H; inversion H; left; reflexivity|];
     destruct (_validate_location fw lat lon (branch_latitude s)
                 (branch_longitude s) (branch_radius s) lt) eqn:V;
     [discriminate|];
     intros H; inversion H; subst;
     eapply validate_location_raises; exact V).
Qed.





(** C8, run on a check-in stamped 14:15:30.25 at +05:00: the stored time
    is 09:15:30, naive, without microseconds. *)
Lemma stored_timestamp_witness :
  let w := Demo.demo_world Demo.no_rules [] in
  let a := Demo.args "IN" (PFloat (Finite (400005 # 10000)))
             (PFloat (Finite (-74 # 1))) PhNone
             (Some "2025-01-27T14:15:30.250000+05:00") in
  exists resp w' old c,
    create_checkin_checkout Demo.demo_fw a w = (Ok (Success resp), w')
    /\ tabEmployee_Checkin w' = (old ++ [c])%list
    /\ ck_time c = mkDatetime (Demo.clock 2025 1 27 9 15 30) 0 None.
Proof.
  intros w a.
  destruct (create_checkin_checkout Demo.demo_fw a w)
    as [[[resp|m]|e] w'] eqn:E;
    [ | vm_compute in E; discriminate E | vm_compute in E; discriminate E].
  destruct (stored_timestamp _ _ _ _ _ E)
    as (old & c & Ht & _ & _ & _ & Hm & Hts & _).
  exists resp, w', old, c. split; [reflexivity|]. split; [exact Ht|].
  destruct (Hts eq_refl) as (Z & d & D & W).
  vm_compute in D. inversion D; subst d. cbn in W.
  destruct (ck_time c) as [wl mi tz]. cbn [wall micro tzoff] in *. subst.
  reflexivity.
Defined.


(** ** One call, at most one record *)

Lemma core_same_refl w : core_same w w.
Proof. reflexivity. Qed.

Lemma core_same_trans a b c : core_same a b -> core_same b c -> core_same a c.
Proof. unfold core_same. congruence. Qed.

Lemma core_same_log title message w :
  core_same w (add_error_log title message w).
Proof. reflexivity. Qed.

Lemma same_checkins_core w w' : same_checkins w w' -> core_same w w'.
Proof. intros [H _]. unfold core_same. rewrite H. reflexivity. Qed.

Lemma keeps_weaken {A} (P Q : world -> world -> Prop) (m : M A) :
  (forall w w', P w w' -> Q w w') -> keeps P m -> keeps Q m.
Proof. intros I K w r w' H. apply I. eapply K. exact H. Qed.

Lemma parse_timestamp_keeps fw ts : keeps same_checkins (parse_timestamp fw ts).
Proof. unfold parse_timestamp. keeps_checkins. Qed.

Lemma one_in_one_out_keeps fw emp lt t :
  keeps same_checkins (one_in_one_out fw emp lt t).
Proof. unfold one_in_one_out. keeps_checkins. Qed.

Lemma new_checkin_doc_keeps fw a employee t :
  keeps same_checkins (new_checkin_doc fw a employee t).
Proof. unfold new_checkin_doc, opt_float. keeps_checkins. Qed.

(** A refused insert leaves the world as it was. *)
Lemma insert_checkin_raised fw doc w e w' :
  insert_checkin fw doc w = (Raise e, w') -> w' = w.
Proof.
  unfold insert_checkin, try_except, insert.
  destruct (checkin_insert_check fw (tabEmployee_Checkin w) doc) as [x|];
    [| discriminate].
  destruct (exc_cls x); try (intros H; inversion H; reflexivity);
    destruct (contains "duplicate" (lower (exc_msg x)));
    intros H; inversion H; reflexivity.
Qed.

Lemma backfill_photo_urls_keeps fw name lf bf :
  keeps core_same (backfill_photo_urls fw name lf bf).
Proof.
  intros w r w' H. destruct r as [u|e].
  - apply backfill_photo_urls_ok in H. destruct H as (_ & g & Hg & Ht).
    unfold core_same. rewrite Ht, map_map. apply map_ext.
    intros c. apply (Hg c).
  - unfold backfill_photo_urls in H.
    repeat match type of H with
           | (match ?x with _ => _ end) _ = _ => destruct x
           end; discriminate H.
Qed.

(** What one run of [record_checkin] does to the table, whatever it
    returns: nothing, up to photo URLs, or one record added at the end,
    whose time has no microseconds and which went through the day check
    on the table as it was. *)
Lemma record_checkin_effect fw a employee lp bp distance w r w' :
  record_checkin fw a employee lp bp distance w = (r, w') ->
  core_same w w'
  \/ exists t doc,
       micro t = 0
       /\ core doc = (emp_name employee, log_type a, t)
       /\ one_in_one_out fw (emp_name employee) (log_type a) t w = (Ok tt, w)
       /\ map core (tabEmployee_Checkin w')
          = (map core (tabEmployee_Checkin w) ++ [core doc])%list.
Proof.
  unfold record_checkin. intros H.
  apply bind_inv in H. destruct H as [(t & w1 & A & H) | (e & A & _)].
  2: { left. apply same_checkins_core. eapply parse_timestamp_keeps, A. }
  pose proof (parse_timestamp_ok _ _ _ _ _ A) as (-> & Mt & _).
  apply bind_inv in H. destruct H as [(u & w2 & B & H) | (e & B & _)].
  2: { left. apply same_checkins_core. eapply one_in_one_out_keeps, B. }
  pose proof (one_in_one_out_ok _ _ _ _ _ _ _ B) as [-> _]. destruct u.
  apply bind_inv in H. destruct H as [(doc0 & w3 & C & H) | (e & C & _)].
  2: { left. apply same_checkins_core. eapply new_checkin_doc_keeps, C. }
  pose proof (new_checkin_doc_ok _ _ _ _ _ _ _ C) as [-> Hc].
  apply bind_inv in H. destruct H as [(doc & w4 & D & H) | (e & D & _)].
  2: { left. apply insert_checkin_raised in D. subst w'. apply core_same_refl. }
  pose proof (insert_checkin_ok _ _ _ _ _ D) as (Hd & Ht & _).
  right. exists t, doc.
  split; [exact Mt|]. split; [subst doc; exact Hc|]. split; [exact B|].
  assert (K : core_same w4 w').
  { revert H. generalize w4 r w'.
    change (keeps core_same
              (location_photo_file <-
                 attach_photo fw lp (location_photo_id a) (emp_name employee)
                   (ck_name doc) "location" ;;
               client_biometric_photo_file <-
                 attach_photo fw bp (client_biometric_photo_id a)
                   (emp_name employee) (ck_name doc) "biometric" ;;
               backfill_photo_urls fw (ck_name doc) location_photo_file
                 client_biometric_photo_file ;;
               ret (Success
                      (success_response fw employee (log_type a) doc distance
                         location_photo_file client_biometric_photo_file)))).
    apply (keeps_bind _ core_same_trans);
      [apply (keeps_weaken same_checkins), attach_photo_keeps;
       exact same_checkins_core | intro].
    apply (keeps_bind _ core_same_trans);
      [apply (keeps_weaken same_checkins), attach_photo_keeps;
       exact same_checkins_core | intro].
    apply (keeps_bind _ core_same_trans);
      [apply backfill_photo_urls_keeps | intro].
    apply (keeps_ret _ core_same_refl). }
  unfold core_same in K. rewrite K, Ht, map_app. reflexivity.
Qed.

Lemma checkin_handler_keeps e : keeps same_checkins (checkin_handler e).
Proof.
  unfold checkin_handler. keeps_checkins;
    apply keeps_modify; intro; split; reflexivity.
Qed.

(** Whatever a call returns, it adds at most one record, at the end of
    the table, and only one that went through the day check on the table
    as it was. *)
Lemma create_checkin_checkout_effect fw a w r w' :
  create_checkin_checkout fw a w = (r, w') ->
  core_same w w'
  \/ exists employee t doc w0,
       micro t = 0
       /\ same_checkins w w0
       /\ core doc = (emp_name employee, log_type a, t)
       /\ one_in_one_out fw (emp_name employee) (log_type a) t w0 = (Ok tt, w0)
       /\ map core (tabEmployee_Checkin w')
          = (map core (tabEmployee_Checkin w) ++ [core doc])%list.
Proof.
  unfold create_checkin_checkout, try_except. intros H.
  destruct (checkin_body fw a w) as [o wb] eqn:B.
  assert (E : core_same w wb
              \/ exists employee t doc w0,
                   micro t = 0
                   /\ same_checkins w w0
                   /\ core doc = (emp_name employee, log_type a, t)
                   /\ one_in_one_out fw (emp_name employee) (log_type a) t w0
                      = (Ok tt, w0)
                   /\ map core (tabEmployee_Checkin wb)
                      = (map core (tabEmployee_Checkin w) ++ [core doc])%list).
  { unfold checkin_body in B. apply bind_inv in B.
    destruct B as [(ctx & w1 & P & B) | (e & P & _)].
    2: { left. apply same_checkins_core. eapply prepare_keeps, P. }
    apply prepare_keeps in P.
    destruct ctx as [[[lp bp] employee] settings]. cbn [validate_and_record] in B.
    apply bind_inv in B. destruct B as [(distance & w2 & L & B) | (e & L & _)].
    2: { left. apply lift_inv in L. destruct L as [_ ->].
         apply same_checkins_core, P. }
    apply lift_inv in L. destruct L as [_ ->].
    apply bind_inv in B. destruct B as [(m1 & w3 & R1 & B) | (e & R1 & _)].
    2: { left. apply same_checkins_core. apply required_photo_keeps in R1.
         eapply same_checkins_trans; eassumption. }
    apply required_photo_keeps in R1.
    pose proof (same_checkins_trans _ _ _ P R1) as P3.
    destruct m1 as [m|].
    { apply ret_inv in B. destruct B as [_ ->]. left.
      apply same_checkins_core, P3. }
    apply bind_inv in B. destruct B as [(m2 & w4 & R2 & B) | (e & R2 & _)].
    2: { left. apply same_checkins_core. apply required_photo_keeps in R2.
         eapply same_checkins_trans; eassumption. }
    apply required_photo_keeps in R2.
    pose proof (same_checkins_trans _ _ _ P3 R2) as P4.
    destruct m2 as [m|].
    { apply ret_inv in B. destruct B as [_ ->]. left.
      apply same_checkins_core, P4. }
    apply record_checkin_effect in B.
    destruct B as [B | (t & doc & Mt & Hc & Hd & Ht)].
    - left. eapply core_same_trans; [apply same_checkins_core, P4 | exact B].
    - right. exists employee, t, doc, w4.
      split; [exact Mt|]. split; [exact P4|]. split; [exact Hc|].
      split; [exact Hd|]. rewrite Ht. destruct P4 as [-> _]. reflexivity. }
  assert (F : same_checkins wb w').
  { destruct o as [x|e].
    - inversion H. apply same_checkins_refl.
    - eapply checkin_handler_keeps, H. }
  destruct F as [F _].
  destruct E as [E | (employee & t & doc & w0 & E)].
  - left. unfold core_same in *. rewrite F. exact E.
  - right. exists employee, t, doc, w0. rewrite F. exact E.
Qed.

(** ** The day window and the calendar day *)

Lemma replace_midnight_wall t :
  wall (replace_midnight t) = SECONDS_PER_DAY * date_of t
  /\ micro (replace_midnight t) = 0.
Proof.
  unfold replace_midnight, date_of, SECONDS_PER_DAY. cbn [wall micro].
  split; [| reflexivity].
  pose proof (Z.div_mod (wall t) 86400). lia.
Qed.

Lemma add_one_day_ok d e :
  add_one_day d = Ok e ->
  wall e = wall d + SECONDS_PER_DAY /\ micro e = micro d.
Proof.
  unfold add_one_day. destruct (in_range (wall d + SECONDS_PER_DAY));
    intros H; inversion H. split; reflexivity.
Qed.

(** A well-formed time on the day of [t] lies in the window of [t]. *)
Lemma same_day_in_window t e x :
  add_one_day (replace_midnight t) = Ok e ->
  wf_time x = true -> date_of x = date_of t ->
  between (replace_midnight t) e x = true.
Proof.
  intros A W D. apply add_one_day_ok in A. destruct A as [Ew Em].
  destruct (replace_midnight_wall t) as [Sw Sm].
  unfold wf_time in W. apply andb_true_iff in W. destruct W as [W1 W2].
  apply Z.leb_le in W1. apply Z.ltb_lt in W2.
  unfold between, dt_key. rewrite Ew, Em, Sw, Sm.
  unfold date_of, SECONDS_PER_DAY in *.
  pose proof (Z.div_mod (wall x) 86400 ltac:(lia)) as Q.
  pose proof (Z.mod_pos_bound (wall x) 86400 ltac:(lia)) as B.
  rewrite D in Q.
  apply andb_true_iff. split; apply Z.leb_le; lia.
Qed.

(** A well-formed time in the window of [t] is on the day of [t], or is
    the midnight that starts the next day. *)
Lemma window_is_day_or_next_midnight t e x :
  add_one_day (replace_midnight t) = Ok e ->
  wf_time x = true ->
  between (replace_midnight t) e x = true ->
  date_of x = date_of t
  \/ (wall x = SECONDS_PER_DAY * (date_of t + 1) /\ micro x = 0).
Proof.
  intros A W B. apply add_one_day_ok in A. destruct A as [Ew Em].
  destruct (replace_midnight_wall t) as [Sw Sm].
  unfold wf_time in W. apply andb_true_iff in W. destruct W as [W1 W2].
  apply Z.leb_le in W1. apply Z.ltb_lt in W2.
  unfold between, dt_key in B. rewrite Ew, Em, Sw, Sm in B.
  apply andb_true_iff in B. destruct B as [B1 B2].
  apply Z.leb_le in B1. apply Z.leb_le in B2.
  unfold date_of, SECONDS_PER_DAY in *.
  assert (C : wall x < 86400 * (wall t / 86400) + 86400
              \/ wall x = 86400 * (wall t / 86400 + 1)) by lia.
  destruct C as [C | C].
  - left. symmetry. apply (Z.div_unique _ _ _ (wall x - 86400 * (wall t / 86400))); lia.
  - right. split; [exact C | lia].
Qed.

(** ** At most one IN and one OUT per employee per calendar day *)





(** What the day check answers, by what the window holds. *)
Lemma one_in_one_out_decides fw emp lt t w e :
  add_one_day (replace_midnight t) = Ok e ->
  let window := Between (replace_midnight t) e in
  let date_str := strftime_date fw (date_of (replace_midnight t)) in
  one_in_one_out fw emp lt t w
  = if String.eqb lt "OUT"
       && negb (existsb (matches emp (Some "IN") window) (tabEmployee_Checkin w))
    then
      (Raise (mkExc ValidationError
                ("You must check-in before you can check-out. No check-in record found for "
                   ++ date_str ++ ".")), w)
    else
      match filter (matches emp (Some lt) window) (tabEmployee_Checkin w) with
      | [] => (Ok tt, w)
      | _ :: _ =>
          (Raise (mkExc ValidationError
                    ("You have already completed your " ++ action_of lt ++ " for "
                       ++ date_str
                       ++ ". Only one check-in and one check-out are allowed per day.")),
           w)
      end.
Proof.
  intros A window date_str.
  unfold one_in_one_out, bind, lift, checkin_exists, db_count, gets, when_,
    throw, raise, ret.
  rewrite A. fold window.
  destruct (String.eqb lt "OUT"); cbn [andb].
  - destruct (existsb (matches emp (Some "IN") window) (tabEmployee_Checkin w));
      cbn [negb]; [| reflexivity].
    destruct (filter (matches emp (Some lt) window) (tabEmployee_Checkin w));
      reflexivity.
  - destruct (filter (matches emp (Some lt) window) (tabEmployee_Checkin w));
      reflexivity.
Qed.

Lemma on_date_in_window emp lt t e table :
  wf_times table ->
  add_one_day (replace_midnight t) = Ok e ->
  on_date emp lt (date_of t) table <> [] ->
  filter (matches emp (Some lt) (Between (replace_midnight t) e)) table <> []
  /\ existsb (matches emp (Some lt) (Between (replace_midnight t) e)) table
     = true.
Proof.
  intros W A N.
  destruct (on_date emp lt (date_of t) table) as [|c l] eqn:E; [congruence|].
  assert (I : In c (on_date emp lt (date_of t) table))
    by (rewrite E; left; reflexivity).
  unfold on_date in I. apply filter_In in I. destruct I as [I Q].
  apply andb_true_iff in Q. destruct Q as [Q Qd]. apply Z.eqb_eq in Qd.
  assert (Mc : matches emp (Some lt) (Between (replace_midnight t) e) c = true).
  { unfold matches. rewrite Q. cbn [andb time_matches].
    apply same_day_in_window; [exact A | apply W, I | exact Qd]. }
  split.
  - intros Z.
    assert (J : In c (filter (matches emp (Some lt)
                                (Between (replace_midnight t) e)) table))
      by (apply filter_In; split; assumption).
    rewrite Z in J. exact J.
  - apply existsb_exists. exists c. split; assumption.
Qed.

(** The state machine of one employee on one calendar day, on a table of
    well-formed times.  With an IN on the day, a further IN is refused
    as already completed; with an IN and an OUT on the day, a further
    OUT is refused as already completed; with an IN on the day and no
    OUT in the window, an OUT passes; with no IN in the window, an IN
    passes and an OUT is refused as lacking a check-in. *)
Lemma same_day_transitions fw emp t w e :
  wf_times (tabEmployee_Checkin w) ->
  add_one_day (replace_midnight t) = Ok e ->
  let table := tabEmployee_Checkin w in
  let window := Between (replace_midnight t) e in
  let date_str := strftime_date fw (date_of (replace_midnight t)) in
  let already := fun action =>
    mkExc ValidationError
      ("You have already completed your " ++ action ++ " for " ++ date_str
         ++ ". Only one check-in and one check-out are allowed per day.") in
  (on_date emp "IN" (date_of t) table <> [] ->
   one_in_one_out fw emp "IN" t w = (Raise (already "check-in"), w))
  /\ (on_date emp "IN" (date_of t) table <> [] ->
      on_date emp "OUT" (date_of t) table <> [] ->
      one_in_one_out fw emp "OUT" t w = (Raise (already "check-out"), w))
  /\ (on_date emp "IN" (date_of t) table <> [] ->
      filter (matches emp (Some "OUT") window) table = [] ->
      one_in_one_out fw emp "OUT" t w = (Ok tt, w))
  /\ (filter (matches emp (Some "IN") window) table = [] ->
      one_in_one_out fw emp "IN" t w = (Ok tt, w))
  /\ (existsb (matches emp (Some "IN") window) table = false ->
      one_in_one_out fw emp "OUT" t w
      = (Raise (mkExc ValidationError
                  ("You must check-in before you can check-out. No check-in record found for "
                     ++ date_str ++ ".")), w)).
Proof.
  intros W A table window date_str already.
  repeat split.
  - intros N. rewrite (one_in_one_out_decides fw emp "IN" t w e A).
    cbn [String.eqb Ascii.eqb Bool.eqb andb].
    destruct (on_date_in_window emp "IN" t e table W A N) as [F _].
    fold window table in F |- *.
    destruct (filter (matches emp (Some "IN") window) table); [congruence|].
    reflexivity.
  - intros NI NO. rewrite (one_in_one_out_decides fw emp "OUT" t w e A).
    destruct (on_date_in_window emp "IN" t e table W A NI) as [_ X].
    destruct (on_date_in_window emp "OUT" t e table W A NO) as [F _].
    fold window table in X, F |- *. rewrite X.
    cbn [String.eqb Ascii.eqb Bool.eqb andb negb].
    destruct (filter (matches emp (Some "OUT") window) table); [congruence|].
    reflexivity.
  - intros NI F. rewrite (one_in_one_out_decides fw emp "OUT" t w e A).
    destruct (on_date_in_window emp "IN" t e table W A NI) as [_ X].
    fold window table in X |- *. rewrite X, F. reflexivity.
  - intros F. rewrite (one_in_one_out_decides fw emp "IN" t w e A).
    fold window table. rewrite F. reflexivity.
  - intros X. rewrite (one_in_one_out_decides fw emp "OUT" t w e A).
    fold window table. rewrite X. reflexivity.
Qed.

(** C1, at midnight.  EMP-001 has one record, a check-in stamped
    2025-01-02 00:00:00, made through the endpoint.  Then a check-out
    stamped 2025-01-01 12:00:00 succeeds although no check-in exists on
    2025-01-01, and a first check-in stamped 2025-01-01 12:00:00 is
    refused as already completed: the day window includes the next
    midnight. *)
Theorem next_midnight_counts_for_the_day :
  let inside := (PFloat (Finite (400005 # 10000)), PFloat (Finite (-74 # 1))) in
  let w0 := Demo.demo_world Demo.no_rules [] in
  let r1 := create_checkin_checkout Demo.demo_fw
              (Demo.args "IN" (fst inside) (snd inside) PhNone
                 (Some "2025-01-02 00:00:00")) w0 in
  let r2 := create_checkin_checkout Demo.demo_fw
              (Demo.args "OUT" PNone PNone PhNone (Some "2025-01-01 12:00:00"))
              (snd r1) in
  let r3 := create_checkin_checkout Demo.demo_fw
              (Demo.args "IN" (fst inside) (snd inside) PhNone
                 (Some "2025-01-01 12:00:00")) (snd r1) in
  map core (tabEmployee_Checkin (snd r1))
  = [("EMP-001", "IN", mkDatetime (Demo.clock 2025 1 2 0 0 0) 0 None)]
  /\ on_date "EMP-001" "IN" (Demo.days_of_civil 2025 1 1)
       (tabEmployee_Checkin (snd r1)) = []
  /\ (exists resp, fst r2 = Ok (Success resp))
  /\ map core (tabEmployee_Checkin (snd r2))
     = [("EMP-001", "IN", mkDatetime (Demo.clock 2025 1 2 0 0 0) 0 None);
        ("EMP-001", "OUT", mkDatetime (Demo.clock 2025 1 1 12 0 0) 0 None)]
  /\ fst r3
     = Ok (Failure "You have already completed your check-in for January 01, 2025. Only one check-in and one check-out are allowed per day.")
  /\ http_status_code (snd r3) = Some 401.
Proof.
  vm_compute. repeat split. eexists. reflexivity.
Qed.

(** ** Photos are looked at after the insert *)

(** A photo above the size limit is refused after the record is in the
    table: once the insert has succeeded, [record_checkin] raises the
    size error and the new record stays. *)
Lemma oversized_photo_leaves_record fw a employee b bp distance w t doc0 doc w4 :
  parse_timestamp fw (timestamp a) w = (Ok t, w) ->
  one_in_one_out fw (emp_name employee) (log_type a) t w = (Ok tt, w) ->
  new_checkin_doc fw a employee t w = (Ok doc0, w) ->
  insert_checkin fw doc0 w = (Ok doc, w4) ->
  MAX_SIZE < len b ->
  exists w',
    record_checkin fw a employee (PhBytes b) bp distance w
    = (Raise (mkExc ValidationError
                "Photo file size exceeds the maximum limit of 5MB. Please compress the image and try again."),
       w')
    /\ tabEmployee_Checkin w' = (tabEmployee_Checkin w ++ [doc])%list.
Proof.
  intros P O N I L.
  assert (Pos : 0 < len b) by (unfold MAX_SIZE in L; lia).
  assert (L0 : (len b =? 0) = false) by (apply Z.eqb_neq; lia).
  destruct (handle_photo_bytes fw b (emp_name employee) (ck_name doc)
              "location" w4 Pos) as (w5 & _ & _ & R).
  destruct (store_photo_too_large fw b (emp_name employee) (ck_name doc)
              "location" w5 L) as (w6 & R2 & _).
  rewrite R2 in R.
  exists w6. split.
  - unfold record_checkin, bind. rewrite P, O, N, I.
    unfold attach_photo. cbn [photo_truthy]. rewrite L0. cbn [negb].
    rewrite R. reflexivity.
  - apply handle_photo_upload_keeps in R. destruct R as [R _].
    apply insert_checkin_ok in I. destruct I as (_ & I & _).
    rewrite R, I. reflexivity.
Qed.

(** C5, a photo that decodes to nothing.  EMP-001 checked in at 09:00.
    A check-out at noon with the photo ["data:image/jpeg;base64,"]
    comes back as a failure with status 401, and the check-out record
    is in the table all the same: it was inserted before the photo was
    looked at. *)
Theorem failed_photo_leaves_record :
  let w := Demo.demo_world Demo.no_rules
             [Demo.stored "EMP-CKIN-1" "IN" (Demo.clock 2025 1 1 9 0 0)] in
  let a := Demo.args "OUT" PNone PNone (PhStr "data:image/jpeg;base64,") None in
  fst (create_checkin_checkout Demo.demo_fw a w)
  = Ok (Failure "Invalid image format. Please ensure the photo is properly encoded and try again.")
  /\ http_status_code (snd (create_checkin_checkout Demo.demo_fw a w)) = Some 401
  /\ map (fun c => (ck_name c, ck_log_type c))
       (tabEmployee_Checkin w)
     = [("EMP-CKIN-1", "IN")]
  /\ map (fun c => (ck_name c, ck_log_type c))
       (tabEmployee_Checkin (snd (create_checkin_checkout Demo.demo_fw a w)))
     = [("EMP-CKIN-1", "IN"); ("EMP-CKIN-2", "OUT")].
Proof. vm_compute. repeat split. Qed.

(* ================================================================== *)
(** * Further properties *)

(** ** mobile_login: failures, and whose credentials change *)

Lemma try_except_raise_inv {A} (m : M A) h w e w' :
  try_except m h w = (Raise e, w') ->
  exists e0 w1, m w = (Raise e0, w1) /\ h e0 w1 = (Raise e, w').
Proof.
  unfold try_except. destruct (m w) as [[x|e0] w1]; intros H.
  - discriminate H.
  - exists e0, w1. split; [reflexivity | exact H].
Qed.

Lemma when_throw_inv b msg cls w r w' :
  when_ b (throw msg cls) w = (r, w') ->
  w' = w /\ (r = Ok tt /\ b = false \/ r = Raise (mkExc cls msg) /\ b = true).
Proof.
  destruct b; unfold when_, throw, raise, ret; intros H; inversion H;
    split; auto.
Qed.

Lemma tabUser_refl w : tabUser w = tabUser w.
Proof. reflexivity. Qed.

Lemma tabUser_trans (a b c : world) :
  tabUser b = tabUser a -> tabUser c = tabUser b -> tabUser c = tabUser a.
Proof. congruence. Qed.

(** The steps of a login before the credentials leave the user table
    alone. *)
Lemma login_steps_keep_users fw usr pwd :
  keeps (fun w w' => tabUser w' = tabUser w)
    (try_except
       (u <- lift (authenticate fw (or_empty usr) (or_empty pwd)) ;;
        if negb (truthy_str u) then
          throw "Invalid login credentials. Please check your username and password."
            ValidationError
        else
          post_login fw (or_empty u) ;;
          ret (or_empty u))
       (fun e =>
          match exc_cls e with
          | AuthenticationError =>
              throw ("Login failed: " ++ exc_msg e) ValidationError
          | _ => throw ("Login error: " ++ exc_msg e) ValidationError
          end)).
Proof.
  unfold post_login.
  keeps_all tabUser_refl tabUser_trans tabUser_refl.
  apply keeps_modify. intro. reflexivity.
Qed.

(** What one call does to the user table: nothing, or, when it returns
    with the flag false, it replaces the document of the user who logged
    in. *)
Lemma mobile_login_users fw usr pwd flag w r w' :
  mobile_login fw usr pwd flag w = (r, w') ->
  tabUser w' = tabUser w
  \/ exists res u',
       r = Ok res
       /\ coerce_has_existing_token flag = false
       /\ usr_name u' = session_user w'
       /\ tabUser w' = replace_user u' (tabUser w).
Proof.
  destruct (coerce_has_existing_token flag) eqn:Hc.
  { intros H. left.
    exact (proj1 (mobile_login_existing_token_keeps fw usr pwd flag Hc w r w' H)). }
  unfold mobile_login. rewrite Hc. intros H.
  apply bind_inv in H. destruct H as [(u1 & w1 & A & H) | (e & A & _)].
  2: { left. apply when_throw_inv in A. destruct A as [-> _]. reflexivity. }
  apply when_throw_inv in A. destruct A as [-> _].
  apply bind_inv in H. destruct H as [(u2 & w2 & B & H) | (e & B & _)].
  2: { left. apply when_throw_inv in B. destruct B as [-> _]. reflexivity. }
  apply when_throw_inv in B. destruct B as [-> _].
  apply bind_inv in H. destruct H as [(name & w3 & C & H) | (e & C & _)].
  2: { left. exact (login_steps_keep_users fw usr pwd _ _ _ C). }
  pose proof (login_steps_keep_users fw usr pwd _ _ _ C) as K3.
  assert (S3 : session_user w3 = name).
  { apply try_except_ok_inv in C.
    destruct C as [C | (e & wx & _ & C)];
      [| destruct (exc_cls e); discriminate C].
    bind_ok C au wa A3. apply lift_inv in A3. destruct A3 as [_ ->].
    destruct (truthy_str au); cbn [negb] in C; [| discriminate C].
    bind_ok C um wb M3. unfold post_login in M3.
    destruct (post_login_check fw (or_empty au)); [discriminate M3|].
    inversion M3; subst wb.
    apply ret_inv in C. destruct C as [C ->]. inversion C. reflexivity. }
  apply bind_inv in H. destruct H as [(user_doc & w4 & D & H) | (e & D & _)].
  2: { left. apply try_except_raise_inv in D.
       destruct D as (e0 & wx & D & D').
       clear S3. inversion D'; subst wx. unfold get_doc in D.
       destruct (lookup usr_name name (tabUser w3)); inversion D; subst.
       exact K3. }
  apply try_except_ok_inv in D.
  destruct D as [D | (e & wx & _ & D)]; [| discriminate D].
  unfold get_doc in D.
  destruct (lookup usr_name name (tabUser w3)) as [d|] eqn:L; [| discriminate D].
  inversion D; subst user_doc w4; clear D.
  apply bind_inv in H. destruct H as [(sid & w5 & E & H) | (e & E & _)].
  2: { apply gets_inv in E. destruct E as [E _]. discriminate E. }
  apply gets_inv in E. destruct E as [_ ->].
  apply bind_inv in H. destruct H as [(creds & w6 & F & H) | (e & F & _)].
  - apply ret_inv in H. destruct H as [-> ->].
    apply try_except_ok_inv in F.
    destruct F as [F | (e & wx & _ & F)]; [| discriminate F].
    bind_ok F api_secret w7 S7.
    unfold draw_generate_hash in S7.
    bind_ok S7 n w7' G7. apply gets_inv in G7. destruct G7 as [_ ->].
    bind_ok S7 ud w7'' D7. inversion D7; subst w7''; clear D7.
    apply ret_inv in S7. destruct S7 as [_ ->].
    bind_ok F api_key w8 K8.
    assert (W8 : tabUser w8 = tabUser w3 /\ session_user w8 = session_user w3).
    { destruct (truthy_str (usr_api_key d)); cbn [negb] in K8.
      - apply ret_inv in K8. destruct K8 as [_ ->]. split; reflexivity.
      - unfold draw_generate_hash in K8.
        bind_ok K8 n' w8' G8. apply gets_inv in G8. destruct G8 as [_ ->].
        bind_ok K8 ue w8'' D8. inversion D8; subst w8''; clear D8.
        apply ret_inv in K8. destruct K8 as [_ ->]. split; reflexivity. }
    destruct W8 as [T8 U8].
    bind_ok F us w9 V9.
    apply ret_inv in F. destruct F as [_ ->].
    unfold save_user in V9.
    match type of V9 with
    | match ?c with _ => _ end _ = _ => destruct c; [discriminate V9|]
    end.
    inversion V9; subst w9; clear V9.
    right. eexists. eexists.
    split; [reflexivity|]. split; [reflexivity|].
    cbn [session_user tabUser set_tabUser usr_name].
    rewrite U8, S3, T8, K3.
    split. 2: reflexivity.
    cbn [usr_name]. apply (lookup_key usr_name _ _ _ L).
  - left. apply try_except_raise_inv in F.
    destruct F as (e0 & wx & F & F'). inversion F'; subst wx; clear F'.
    apply bind_inv in F. destruct F as [(api_secret & w7 & S7 & F) | (e1 & S7 & _)].
    2: { unfold draw_generate_hash, bind, gets, modify, ret in S7. discriminate S7. }
    assert (T7 : tabUser w7 = tabUser w3).
    { unfold draw_generate_hash, bind, gets, modify, ret in S7.
      inversion S7. reflexivity. }
    apply bind_inv in F. destruct F as [(api_key & w8 & K8 & F) | (e1 & K8 & _)].
    2: { destruct (truthy_str (usr_api_key d)); cbn [negb] in K8;
           unfold draw_generate_hash, bind, gets, modify, ret in K8;
           discriminate K8. }
    assert (T8 : tabUser w8 = tabUser w7).
    { destruct (truthy_str (usr_api_key d)); cbn [negb] in K8;
        unfold draw_generate_hash, bind, gets, modify, ret in K8;
        inversion K8; reflexivity. }
    apply bind_inv in F. destruct F as [(us & w9 & V9 & F) | (e1 & V9 & _)].
    { apply ret_inv in F. destruct F as [F _]. discriminate F. }
    unfold save_user in V9.
    match type of V9 with
    | match ?c with _ => _ end _ = _ => destruct c; [| discriminate V9]
    end.
    inversion V9; subst. congruence.
Qed.

Lemma map_usr_name_replace_user u' t :
  map usr_name (replace_user u' t) = map usr_name t.
Proof.
  unfold replace_user. rewrite map_map. apply map_ext_in. intros x _.
  destruct (String.eqb (usr_name x) (usr_name u')) eqn:E; [| reflexivity].
  apply String.eqb_eq in E. symmetry. exact E.
Qed.

Lemma lookup_replace_user_other u' t n :
  n <> usr_name u' ->
  lookup usr_name n (replace_user u' t) = lookup usr_name n t.
Proof.
  intros N. unfold lookup, replace_user.
  induction t as [|x t IH]; [reflexivity|].
  cbn [map find].
  destruct (String.eqb (usr_name x) (usr_name u')) eqn:E.
  - apply String.eqb_eq in E.
    assert (F : String.eqb (usr_name u') n = false)
      by (apply String.eqb_neq; congruence).
    rewrite F. rewrite E, F. exact IH.
  - destruct (String.eqb (usr_name x) n); [reflexivity | exact IH].
Qed.

(** Whatever goes wrong in [mobile_login] reaches the caller as a
    [ValidationError], and a call that raises has changed no user
    document. *)
Theorem mobile_login_raises_validation_only :
  forall fw usr pwd flag w e w',
    mobile_login fw usr pwd flag w = (Raise e, w') ->
    exc_cls e = ValidationError /\ tabUser w' = tabUser w.
Proof.
  intros fw usr pwd flag w e w' H.
  split.
  2: { destruct (mobile_login_users _ _ _ _ _ _ _ H)
         as [K | (res & u' & R & _)]; [exact K | discriminate R]. }
  unfold mobile_login in H.
  apply bind_inv in H. destruct H as [(u1 & w1 & A & H) | (e1 & A & E)].
  2: { apply when_throw_inv in A.
       destruct A as [_ [[A _] | [A _]]]; [discriminate A|].
       inversion A; inversion E; subst. reflexivity. }
  apply bind_inv in H. destruct H as [(u2 & w2 & B & H) | (e1 & B & E)].
  2: { apply when_throw_inv in B.
       destruct B as [_ [[B _] | [B _]]]; [discriminate B|].
       inversion B; inversion E; subst. reflexivity. }
  apply bind_inv in H. destruct H as [(name & w3 & C & H) | (e1 & C & E)].
  2: { apply try_except_raise_inv in C. destruct C as (e0 & wx & _ & C).
       inversion E; subst e1.
       destruct (exc_cls e0); inversion C; reflexivity. }
  apply bind_inv in H. destruct H as [(user_doc & w4 & D & H) | (e1 & D & E)].
  2: { apply try_except_raise_inv in D. destruct D as (e0 & wx & _ & D).
       inversion E; subst e1. inversion D. reflexivity. }
  apply bind_inv in H. destruct H as [(sid & w5 & F & H) | (e1 & F & _)].
  2: { apply gets_inv in F. destruct F as [F _]. discriminate F. }
  apply bind_inv in H. destruct H as [(creds & w6 & G & H) | (e1 & G & E)].
  { apply ret_inv in H. destruct H as [H _]. discriminate H. }
  inversion E; subst e1.
  destruct (coerce_has_existing_token flag).
  - apply ret_inv in G. destruct G as [G _]. discriminate G.
  - apply try_except_raise_inv in G. destruct G as (e0 & wx & _ & G).
    inversion G. reflexivity.
Qed.

(** A login changes at most the document of the user who logged in: no
    user is added, removed or renamed, and every other user's document
    is as before. *)
Theorem mobile_login_touches_one_user :
  forall fw usr pwd flag w r w',
    mobile_login fw usr pwd flag w = (r, w') ->
    map usr_name (tabUser w') = map usr_name (tabUser w)
    /\ forall n, n <> session_user w' ->
         lookup usr_name n (tabUser w') = lookup usr_name n (tabUser w).
Proof.
  intros fw usr pwd flag w r w' H.
  destruct (mobile_login_users _ _ _ _ _ _ _ H)
    as [K | (res & u' & _ & _ & S & K)]; rewrite K.
  - split; [reflexivity | intros; reflexivity].
  - split; [apply map_usr_name_replace_user|].
    intros n N. apply lookup_replace_user_other. congruence.
Qed.

(** Ada mistypes her password: the login raises a validation error and
    the user table is as before. *)
Lemma mobile_login_raises_validation_only_witness :
  let w := Demo.demo_world Demo.no_rules [] in
  exists e w',
    mobile_login Demo.demo_fw (Some "ada@example.com") (Some "letmein")
      (PBool false) w = (Raise e, w')
    /\ exc_cls e = ValidationError /\ tabUser w' = tabUser w.
Proof.
  intros w.
  destruct (mobile_login Demo.demo_fw (Some "ada@example.com")
              (Some "letmein") (PBool false) w) as [[res|e] w'] eqn:E;
    [vm_compute in E; discriminate E|].
  exists e, w'. split; [reflexivity|].
  exact (mobile_login_raises_validation_only _ _ _ _ _ _ _ E).
Defined.

(** Bob logs in and gets a new secret; Ada's document is untouched and
    the table still holds Ada and Bob. *)
Lemma mobile_login_touches_one_user_witness :
  let w := Demo.demo_world Demo.no_rules [] in
  exists r w',
    mobile_login Demo.demo_fw (Some "bob@example.com") (Some "secret")
      (PBool false) w = (r, w')
    /\ map usr_name (tabUser w') = ["ada@example.com"; "bob@example.com"]
    /\ lookup usr_name "ada@example.com" (tabUser w') = Some Demo.ada.
Proof.
  intros w.
  destruct (mobile_login Demo.demo_fw (Some "bob@example.com")
              (Some "secret") (PBool false) w) as [r w'] eqn:E.
  exists r, w'. split; [reflexivity|].
  destruct (mobile_login_touches_one_user _ _ _ _ _ _ _ E) as [N O].
  split; [rewrite N; reflexivity|].
  rewrite O; [reflexivity|].
  assert (S : session_user w' = "bob@example.com")
    by (vm_compute in E; inversion E; reflexivity).
  rewrite S. discriminate.
Defined.

(** ** What a computation can raise *)

Section Raises.

Variable P : exc -> Prop.

Lemma raises_ret {A} (a : A) : raises P (ret a).
Proof. intros w e w' H. discriminate H. Qed.

Lemma raises_gets {A} (f : world -> A) : raises P (gets f).
Proof. intros w e w' H. discriminate H. Qed.

Lemma raises_modify f : raises P (modify f).
Proof. intros w e w' H. discriminate H. Qed.

Lemma raises_log_error title message : raises P (log_error title message).
Proof. intros w e w' H. discriminate H. Qed.

Lemma raises_raise {A} e : P e -> raises P (@raise A e).
Proof. intros He w e' w' H. inversion H; subst. exact He. Qed.

Lemma raises_throw {A} msg cls : P (mkExc cls msg) -> raises P (@throw A msg cls).
Proof. apply raises_raise. Qed.

Lemma raises_lift {A} (o : outcome A) :
  (forall e, o = Raise e -> P e) -> raises P (lift o).
Proof. intros Ho w e w' H. inversion H; subst. apply Ho. reflexivity. Qed.

Lemma raises_bind {A B} (m : M A) (k : A -> M B) :
  raises P m -> (forall a, raises P (k a)) -> raises P (bind m k).
Proof.
  intros Hm Hk w e w' H. apply bind_inv in H.
  destruct H as [(a & w1 & _ & H) | (e0 & H & E)].
  - exact (Hk a _ _ _ H).
  - inversion E; subst e0. exact (Hm _ _ _ H).
Qed.

Lemma raises_try_except {A} (m : M A) h :
  (forall e, raises P (h e)) -> raises P (try_except m h).
Proof.
  intros Hh w e w' H. unfold try_except in H.
  destruct (m w) as [[a|e0] w1]; [discriminate H|].
  exact (Hh e0 _ _ _ H).
Qed.

Lemma raises_when b m : raises P m -> raises P (when_ b m).
Proof. destruct b; [exact (fun H => H) | intros _; apply raises_ret]. Qed.

Lemma raises_db_exists {A} (key : A -> string) table n :
  raises P (db_exists key table n).
Proof. apply raises_gets. Qed.

Lemma raises_db_count emp lt tf : raises P (db_count emp lt tf).
Proof. apply raises_gets. Qed.

Lemma raises_checkin_exists emp lt tf : raises P (checkin_exists emp lt tf).
Proof. apply raises_gets. Qed.

Lemma raises_get_doc {A} doctype (key : A -> string) table n :
  P (mkExc DoesNotExistError (doctype ++ " " ++ n ++ " not found")) ->
  raises P (get_doc doctype key table n).
Proof.
  intros Hp w e w' H. unfold get_doc in H.
  destruct (lookup key n (table w)); inversion H; subst. exact Hp.
Qed.

End Raises.

Lemma raises_weaken {A} (P Q : exc -> Prop) (m : M A) :
  (forall e, P e -> Q e) -> raises P m -> raises Q m.
Proof. intros I H w e w' E. apply I. exact (H _ _ _ E). Qed.

(** One step of a proof that a computation raises only validation
    errors. *)
Ltac validation_step :=
  first
    [ apply raises_ret
    | apply raises_gets
    | apply raises_modify
    | apply raises_log_error
    | apply raises_db_exists
    | apply raises_db_count
    | apply raises_checkin_exists
    | apply raises_throw; reflexivity
    | apply raises_get_doc; reflexivity
    | apply raises_when
    | apply raises_bind; [ | intro ]
    | apply raises_try_except; intro
    | match goal with
      | |- raises _ (if ?b then _ else _) => destruct b
      | |- raises _ (match ?x with _ => _ end) => destruct x
      end ].

Ltac validation_only := repeat validation_step.

(** ** _get_employee_settings *)

Lemma get_employee_settings_reads fw employee :
  keeps unchanged (_get_employee_settings fw employee).
Proof. unfold _get_employee_settings. reads_only. Qed.

(** What a returned settings record was read from. *)
Lemma get_employee_settings_ok fw employee w s w' :
  _get_employee_settings fw employee w = (Ok s, w') ->
  exists company_doc department_doc branch_doc r,
    truthy_str (emp_company employee) = true
    /\ lookup co_name (or_empty (emp_company employee)) (tabCompany w)
       = Some company_doc
    /\ String.eqb (or_empty (emp_department employee)) "" = false
    /\ lookup dep_name (or_empty (emp_department employee)) (tabDepartment w)
       = Some department_doc
    /\ (if by_department company_doc then r = dep_rules department_doc
        else
          truthy_str (custom_project department_doc) = true
          /\ exists project_doc,
               lookup prj_name (or_empty (custom_project department_doc))
                 (tabProject w) = Some project_doc
               /\ r = prj_rules project_doc)
    /\ has_any_rule r = true
    /\ String.eqb (or_empty (emp_branch employee)) "" = false
    /\ lookup br_name (or_empty (emp_branch employee)) (tabBranch w)
       = Some branch_doc
    /\ is_none (custom_latitude branch_doc)
       || is_none (custom_longitude branch_doc)
       || is_none (custom_radius_in_meters branch_doc) = false
    /\ py_float fw (custom_latitude branch_doc) = Ok (branch_latitude s)
    /\ py_float fw (custom_longitude branch_doc) = Ok (branch_longitude s)
    /\ py_int fw (custom_radius_in_meters branch_doc) = Ok (branch_radius s)
    /\ s = mkSettings
             (rule_value (custom_required_to_upload_location_photo r))
             (rule_value (custom_required_to_upload_client_bio_metric_photo r))
             (rule_value (custom_required_location_check_on_check_out r))
             (branch_latitude s) (branch_longitude s) (branch_radius s)
             (or_empty (emp_branch employee)).
Proof.
  unfold _get_employee_settings. intros H.
  bind_ok H u0 w0 A. apply when_throw_ok_inv in A. destruct A as [A ->].
  apply negb_false_iff in A.
  bind_ok H company_doc w1 B. unfold get_doc in B.
  destruct (lookup co_name (or_empty (emp_company employee)) (tabCompany w))
    as [cd|] eqn:LC; [| discriminate B].
  inversion B; subst cd w1; clear B.
  bind_ok H r w2 R.
  assert (HR : w2 = w
    /\ exists department_doc,
         String.eqb (or_empty (emp_department employee)) "" = false
         /\ lookup dep_name (or_empty (emp_department employee))
              (tabDepartment w) = Some department_doc
         /\ (if by_department company_doc then r = dep_rules department_doc
             else
               truthy_str (custom_project department_doc) = true
               /\ exists project_doc,
                    lookup prj_name (or_empty (custom_project department_doc))
                      (tabProject w) = Some project_doc
                    /\ r = prj_rules project_doc)
         /\ has_any_rule r = true).
  { unfold by_department.
    destruct (match custom_attendnace_validations_based_on_department
                      company_doc with Some b => b | None => false end).
    - bind_ok R u1 w3 D. apply when_throw_ok_inv in D. destruct D as [D ->].
      bind_ok R dd w4 E. unfold get_doc in E.
      destruct (lookup dep_name (or_empty (emp_department employee))
                  (tabDepartment w)) as [d|] eqn:LD; [| discriminate E].
      inversion E; subst dd w4; clear E.
      bind_ok R u2 w5 F. apply when_throw_ok_inv in F. destruct F as [F ->].
      apply negb_false_iff in F.
      apply ret_inv in R. destruct R as [R ->]. inversion R; subst r.
      split; [reflexivity|]. exists d. repeat split; assumption.
    - bind_ok R u1 w3 D. apply when_throw_ok_inv in D. destruct D as [D ->].
      bind_ok R dd w4 E. unfold get_doc in E.
      destruct (lookup dep_name (or_empty (emp_department employee))
                  (tabDepartment w)) as [d|] eqn:LD; [| discriminate E].
      inversion E; subst dd w4; clear E.
      bind_ok R u2 w5 F. apply when_throw_ok_inv in F. destruct F as [F ->].
      apply negb_false_iff in F.
      bind_ok R pd w6 G. unfold get_doc in G.
      destruct (lookup prj_name (or_empty (custom_project d)) (tabProject w))
        as [p|] eqn:LP; [| discriminate G].
      inversion G; subst pd w6; clear G.
      bind_ok R u3 w7 K. apply when_throw_ok_inv in K. destruct K as [K ->].
      apply negb_false_iff in K.
      apply ret_inv in R. destruct R as [R ->]. inversion R; subst r.
      split; [reflexivity|]. exists d.
      split; [exact D|]. split; [reflexivity|].
      split; [| exact K]. split; [exact F|]. exists p. split; [exact LP | reflexivity]. }
  destruct HR as (-> & department_doc & D1 & D2 & D3 & D4).
  bind_ok H u4 w8 L. apply when_throw_ok_inv in L. destruct L as [L ->].
  bind_ok H branch_doc w9 Bd. unfold get_doc in Bd.
  destruct (lookup br_name (or_empty (emp_branch employee)) (tabBranch w))
    as [b|] eqn:LB; [| discriminate Bd].
  inversion Bd; subst branch_doc w9; clear Bd.
  bind_ok H u5 w10 Nn. apply when_throw_ok_inv in Nn. destruct Nn as [Nn ->].
  bind_ok H lat w11 La. apply lift_inv in La. destruct La as [La ->].
  bind_ok H lon w12 Lo. apply lift_inv in Lo. destruct Lo as [Lo ->].
  bind_ok H rad w13 Ra. apply lift_inv in Ra. destruct Ra as [Ra ->].
  apply ret_inv in H. destruct H as [H _]. inversion H; subst s; clear H.
  exists company_doc, department_doc, b, r.
  cbn [branch_latitude branch_longitude branch_radius].
  repeat (split; [first [assumption | symmetry; assumption | reflexivity]|]).
  reflexivity.
Qed.

(** A step that only reads, followed by the rest. *)
Lemma bind_reads_inv {A B} (m : M A) (k : A -> M B) w r w' :
  keeps unchanged m ->
  bind m k w = (r, w') ->
  (exists a, m w = (Ok a, w) /\ k a w = (r, w'))
  \/ (exists e, m w = (Raise e, w) /\ r = Raise e /\ w' = w).
Proof.
  intros K H. apply bind_inv in H.
  destruct H as [(a & w1 & E & H) | (e & E & ->)].
  - pose proof (K _ _ _ E) as U. unfold unchanged in U. subst w1.
    left. exists a. split; assumption.
  - pose proof (K _ _ _ E) as U. unfold unchanged in U. subst w'.
    right. exists e. repeat split. exact E.
Qed.

Lemma when_reads b msg cls : keeps unchanged (when_ b (throw msg cls)).
Proof. reads_only. Qed.

Lemma get_doc_reads {A} doctype (key : A -> string) table n :
  keeps unchanged (get_doc doctype key table n).
Proof. reads_only. Qed.

Lemma lift_reads {A} (o : outcome A) : keeps unchanged (lift o).
Proof. reads_only. Qed.

(** Looking up the settings of an employee changes nothing.  When the
    lookup fails it is with a validation error, except that a branch
    whose latitude or longitude [float()] refuses, or whose radius
    [int()] refuses, lets that conversion's own error through. *)
Theorem get_employee_settings_failures :
  forall fw employee w,
    snd (_get_employee_settings fw employee w) = w
    /\ forall e,
         fst (_get_employee_settings fw employee w) = Raise e ->
         is_validation (exc_cls e) = true
         \/ exists branch_doc,
              lookup br_name (or_empty (emp_branch employee)) (tabBranch w)
                = Some branch_doc
              /\ (py_float fw (custom_latitude branch_doc) = Raise e
                  \/ py_float fw (custom_longitude branch_doc) = Raise e
                  \/ py_int fw (custom_radius_in_meters branch_doc) = Raise e).
Proof.
  intros fw employee w.
  destruct (_get_employee_settings fw employee w) as [r w'] eqn:H.
  cbn [fst snd].
  pose proof (get_employee_settings_reads fw employee _ _ _ H) as U.
  unfold unchanged in U. subst w'.
  split; [reflexivity|]. intros e ->.
  unfold _get_employee_settings in H.
  apply bind_reads_inv in H; [| apply when_reads].
  destruct H as [(u0 & _ & H) | (e0 & A & E & _)].
  2: { left. inversion E; subst e0. revert A.
       apply (raises_when validation). validation_only. }
  apply bind_reads_inv in H; [| apply get_doc_reads].
  destruct H as [(cd & _ & H) | (e0 & A & E & _)].
  2: { left. inversion E; subst e0. revert A.
       apply (raises_get_doc validation). reflexivity. }
  apply bind_reads_inv in H.
  2: { reads_only. }
  destruct H as [(rr & _ & H) | (e0 & A & E & _)].
  2: { left. inversion E; subst e0. revert A.
       match goal with
       | |- ?m w = _ -> _ =>
           assert (X : raises validation m) by validation_only
       end.
       apply X. }
  apply bind_reads_inv in H; [| apply when_reads].
  destruct H as [(u1 & _ & H) | (e0 & A & E & _)].
  2: { left. inversion E; subst e0. revert A.
       apply (raises_when validation). validation_only. }
  apply bind_reads_inv in H; [| apply get_doc_reads].
  destruct H as [(bd & B & H) | (e0 & A & E & _)].
  2: { left. inversion E; subst e0. revert A.
       apply (raises_get_doc validation). reflexivity. }
  unfold get_doc in B.
  destruct (lookup br_name (or_empty (emp_branch employee)) (tabBranch w))
    as [b|] eqn:LB; [| discriminate B].
  inversion B; subst b; clear B.
  apply bind_reads_inv in H; [| apply when_reads].
  destruct H as [(u2 & _ & H) | (e0 & A & E & _)].
  2: { left. inversion E; subst e0. revert A.
       apply (raises_when validation). validation_only. }
  right. exists bd. split; [reflexivity|].
  apply bind_reads_inv in H; [| apply lift_reads].
  destruct H as [(lat & _ & H) | (e0 & A & E & _)].
  2: { left. inversion E; subst e0. apply lift_inv in A. symmetry. apply A. }
  apply bind_reads_inv in H; [| apply lift_reads].
  destruct H as [(lon & _ & H) | (e0 & A & E & _)].
  2: { right. left. inversion E; subst e0. apply lift_inv in A. symmetry. apply A. }
  apply bind_reads_inv in H; [| apply lift_reads].
  destruct H as [(rad & _ & H) | (e0 & A & E & _)].
  2: { right. right. inversion E; subst e0. apply lift_inv in A. symmetry. apply A. }
  apply ret_inv in H. destruct H as [H _]. discriminate H.
Qed.

(** ** create_checkin_checkout: what it leaves alone *)

Lemma body_frame_refl w : body_frame w w.
Proof. unfold body_frame, reference_data_same. repeat split. Qed.

Lemma body_frame_trans a b c : body_frame a b -> body_frame b c -> body_frame a c.
Proof.
  unfold body_frame, reference_data_same. intros H1 H2.
  decompose [and] H1. decompose [and] H2. repeat split; congruence.
Qed.

Lemma body_frame_log title message w :
  body_frame w (add_error_log title message w).
Proof. unfold body_frame, reference_data_same. repeat split. Qed.

Ltac keeps_frame := keeps_all body_frame_refl body_frame_trans body_frame_log.

Lemma save_file_frame fw fname content dt dn :
  keeps body_frame (save_file fw fname content dt dn).
Proof.
  intros w r w' H. unfold save_file in H.
  destruct (save_file_check fw fname content); inversion H;
    first [apply body_frame_refl
          | unfold body_frame, reference_data_same; repeat split].
Qed.

Lemma save_file_doc_frame fw d : keeps body_frame (save_file_doc fw d).
Proof.
  unfold save_file_doc. destruct (file_save_check fw d).
  - apply keeps_raise, body_frame_refl.
  - apply keeps_modify. intro.
    unfold body_frame, reference_data_same. repeat split.
Qed.

Lemma insert_frame fw doc : keeps body_frame (insert fw doc).
Proof.
  intros w r w' H. unfold insert in H.
  destruct (checkin_insert_check fw (tabEmployee_Checkin w) doc); inversion H;
    first [apply body_frame_refl
          | unfold body_frame, reference_data_same; repeat split].
Qed.

Lemma backfill_photo_urls_frame fw name lf bf :
  keeps body_frame (backfill_photo_urls fw name lf bf).
Proof.
  unfold backfill_photo_urls.
  destruct lf as [f|], bf as [g|];
    try destruct (has_custom_location_photo fw);
    try destruct (has_custom_client_bio_metric_photo fw);
    first [ apply keeps_ret, body_frame_refl
          | apply keeps_modify; intro;
            unfold body_frame, reference_data_same; repeat split ].
Qed.

Lemma checkin_body_frame fw a : keeps body_frame (checkin_body fw a).
Proof.
  unfold checkin_body, prepare, validate_and_record, record_checkin,
    read_upload, _read_file_storage, resolve_employee, employee_get_doc,
    validate_active_employee, session_user_email, employee_name_by_email,
    _get_employee_settings, required_photo, parse_timestamp, one_in_one_out,
    new_checkin_doc, opt_float, insert_checkin, attach_photo,
    _handle_photo_upload, as_file_id, photo_bytes, store_photo.
  keeps_frame;
    first [ apply save_file_frame | apply save_file_doc_frame
          | apply insert_frame | apply backfill_photo_urls_frame ].
Qed.

(** A check-in call writes check-ins, files, the error log and the
    response status, and nothing else: the session, the users and their
    credentials, the employees, companies, departments, projects and
    branches, the request's uploads and the clock are as before. *)
Theorem create_checkin_checkout_leaves_reference_data :
  forall fw a w,
    reference_data_same w (snd (create_checkin_checkout fw a w)).
Proof.
  intros fw a w.
  unfold create_checkin_checkout, try_except.
  destruct (checkin_body fw a w) as [[resp|e] wb] eqn:B;
    pose proof (checkin_body_frame fw a _ _ _ B) as [F _].
  - exact F.
  - unfold checkin_handler.
    destruct (is_validation (exc_cls e)); exact F.
Qed.

(** The response status of a check-in call.  The call never raises.  A
    success leaves the status as it was.  Otherwise the status is as it
    was, or 401, or it is 500 and then the answer is the generic message
    and the error is in the log. *)
Theorem create_checkin_checkout_status :
  forall fw a w,
    match create_checkin_checkout fw a w with
    | (Ok (Success _), w') => http_status_code w' = http_status_code w
    | (Ok (Failure message), w') =>
        http_status_code w' = http_status_code w
        \/ http_status_code w' = Some 401
        \/ (http_status_code w' = Some 500
            /\ message = "Something went wrong while creating your check-in. Please try again or contact support."
            /\ exists detail rest,
                 error_log w'
                 = ("Checkin API Unexpected Error", detail) :: rest)
    | (Raise _, _) => False
    end.
Proof.
  intros fw a w.
  unfold create_checkin_checkout, try_except.
  destruct (checkin_body fw a w) as [[resp|e] wb] eqn:B;
    pose proof (checkin_body_frame fw a _ _ _ B) as [_ F].
  - destruct resp; [exact F | left; exact F].
  - unfold checkin_handler.
    destruct (is_validation (exc_cls e)); cbn.
    + right. left. reflexivity.
    + right. right. split; [reflexivity|]. split; [reflexivity|].
      eexists. eexists. reflexivity.
Qed.

(** ** create_checkin_checkout: refusals before anything is stored *)

Lemma nothing_stored_refl w : nothing_stored w w.
Proof. unfold nothing_stored, reference_data_same. repeat split. Qed.

Lemma nothing_stored_trans a b c :
  nothing_stored a b -> nothing_stored b c -> nothing_stored a c.
Proof.
  unfold nothing_stored, reference_data_same. intros H1 H2.
  decompose [and] H1. decompose [and] H2. repeat split; congruence.
Qed.

Lemma nothing_stored_log title message w :
  nothing_stored w (add_error_log title message w).
Proof. unfold nothing_stored, reference_data_same. repeat split. Qed.

Lemma nothing_stored_status c w : nothing_stored w (set_http_status_code c w).
Proof. unfold nothing_stored, reference_data_same. repeat split. Qed.

Ltac stores_nothing :=
  keeps_all nothing_stored_refl nothing_stored_trans nothing_stored_log.

Lemma read_upload_stores_nothing field photo :
  keeps nothing_stored (read_upload field photo).
Proof. unfold read_upload, _read_file_storage. stores_nothing. Qed.

Lemma read_upload_returns field photo w :
  exists p w1, read_upload field photo w = (Ok p, w1).
Proof.
  destruct (read_upload field photo w) as [[p|e] w1] eqn:E.
  - exists p, w1. reflexivity.
  - exfalso. revert E.
    assert (X : raises (fun _ => False) (read_upload field photo)).
    { unfold read_upload, _read_file_storage.
      repeat first
        [ apply raises_ret | apply raises_gets | apply raises_log_error
        | apply raises_bind; [ | intro ]
        | match goal with
          | |- raises _ (if ?b then _ else _) => destruct b
          | |- raises _ (match ?x with _ => _ end) => destruct x
          end ]. }
    apply X.
Qed.

Lemma prepare_stores_nothing fw a : keeps nothing_stored (prepare fw a).
Proof.
  unfold prepare, read_upload, _read_file_storage, resolve_employee,
    employee_get_doc, validate_active_employee, session_user_email,
    employee_name_by_email, _get_employee_settings.
  stores_nothing.
Qed.

Lemma resolve_employee_raises employee_id :
  raises validation (resolve_employee employee_id).
Proof.
  unfold resolve_employee, employee_get_doc, session_user_email,
    employee_name_by_email.
  validation_only.
Qed.

Lemma validate_active_employee_raises name :
  raises validation (validate_active_employee name).
Proof. unfold validate_active_employee. validation_only. Qed.

(** A failure of the body before anything is stored, as the endpoint
    answers it when it is a validation error. *)
Lemma refused_by_prepare fw a w e w1 :
  prepare fw a w = (Raise e, w1) ->
  is_validation (exc_cls e) = true ->
  exists w',
    create_checkin_checkout fw a w = (Ok (Failure (exc_msg e)), w')
    /\ http_status_code w' = Some 401
    /\ nothing_stored w w'.
Proof.
  intros P V.
  assert (B : checkin_body fw a w = (Raise e, w1))
    by (unfold checkin_body, bind; rewrite P; reflexivity).
  rewrite (create_checkin_checkout_raised _ _ _ _ _ B), V.
  eexists. split; [reflexivity|]. split; [reflexivity|].
  eapply nothing_stored_trans;
    [exact (prepare_stores_nothing fw a _ _ _ P) | apply nothing_stored_status].
Qed.

(** A log type other than IN and OUT is refused with status 401 before
    anything is stored, whatever else the call carries. *)
Theorem invalid_log_type_is_refused :
  forall fw a w,
    str_in (log_type a) ["IN"; "OUT"] = false ->
    exists message w',
      create_checkin_checkout fw a w = (Ok (Failure message), w')
      /\ http_status_code w' = Some 401
      /\ nothing_stored w w'.
Proof.
  intros fw a w L.
  assert (P : exists e w1,
             prepare fw a w = (Raise e, w1) /\ is_validation (exc_cls e) = true).
  { unfold prepare.
    destruct (read_upload_returns "location_photo" (location_photo a) w)
      as (lp & wa & A).
    destruct (read_upload_returns "client_biometric_photo"
                (client_biometric_photo a) wa) as (bp & wb & B).
    unfold bind at 1. rewrite A. unfold bind at 1. rewrite B.
    unfold bind at 1.
    destruct (resolve_employee (employee_id a) wb) as [[emp|e] wc] eqn:C.
    2: { exists e, wc. split; [reflexivity|].
         exact (resolve_employee_raises _ _ _ _ C). }
    unfold bind at 1.
    destruct (validate_active_employee (emp_name emp) wc) as [[u|e] wd] eqn:D.
    2: { exists e, wd. split; [reflexivity|].
         exact (validate_active_employee_raises _ _ _ _ D). }
    rewrite L. cbn [negb when_]. unfold bind, throw, raise.
    eexists. eexists. split; reflexivity. }
  destruct P as (e & w1 & P & V).
  destruct (refused_by_prepare _ _ _ _ _ P V) as (w' & R).
  exists (exc_msg e), w'. exact R.
Qed.

(** Who may check in.  An employee id that names no employee is refused
    with the "Employee not found" message, and an employee whose status
    is Inactive is refused as well, each with status 401 and before
    anything is stored. *)
Theorem unknown_or_inactive_employee_is_refused :
  forall fw a w,
    truthy_str (employee_id a) = true ->
    (lookup emp_name (or_empty (employee_id a)) (tabEmployee w) = None ->
     exists w',
       create_checkin_checkout fw a w
       = (Ok (Failure "Employee not found. Please check the employee ID and try again."),
          w')
       /\ http_status_code w' = Some 401
       /\ nothing_stored w w')
    /\ (forall employee,
          lookup emp_name (or_empty (employee_id a)) (tabEmployee w)
            = Some employee ->
          emp_status employee = "Inactive" ->
          exists message w',
            create_checkin_checkout fw a w = (Ok (Failure message), w')
            /\ http_status_code w' = Some 401
            /\ nothing_stored w w').
Proof.
  intros fw a w T.
  destruct (read_upload_returns "location_photo" (location_photo a) w)
    as (lp & wa & A).
  destruct (read_upload_returns "client_biometric_photo"
              (client_biometric_photo a) wa) as (bp & wb & B).
  assert (E : tabEmployee wb = tabEmployee w).
  { pose proof (read_upload_stores_nothing _ _ _ _ _ A) as (_ & _ & Ra).
    pose proof (read_upload_stores_nothing _ _ _ _ _ B) as (_ & _ & Rb).
    unfold reference_data_same in Ra, Rb.
    decompose [and] Ra. decompose [and] Rb. congruence. }
  split.
  - intros N.
    assert (P : prepare fw a w
                = (Raise (mkExc DoesNotExistError
                     "Employee not found. Please check the employee ID and try again."),
                   wb)).
    { unfold prepare. unfold bind at 1. rewrite A. unfold bind at 1. rewrite B.
      unfold bind at 1. unfold resolve_employee. rewrite T.
      unfold db_exists, gets, bind at 1. rewrite E, N.
      cbn [negb when_]. reflexivity. }
    exact (refused_by_prepare _ _ _ _ _ P eq_refl).
  - intros employee S I.
    assert (K : emp_name employee = or_empty (employee_id a))
      by exact (lookup_key emp_name _ _ _ S).
    assert (P : prepare fw a w
                = (Raise (mkExc InactiveEmployeeStatusError
                     ("Transactions cannot be created for an Inactive Employee "
                        ++ emp_name employee ++ ".")), wb)).
    { unfold prepare. unfold bind at 1. rewrite A. unfold bind at 1. rewrite B.
      unfold bind at 1. unfold resolve_employee. rewrite T.
      unfold db_exists, gets, bind at 1. rewrite E, S.
      cbn [negb when_]. unfold ret, bind at 1.
      unfold employee_get_doc, try_except, get_doc. rewrite E, S.
      unfold bind at 1. unfold validate_active_employee.
      unfold gets, bind at 1. rewrite E, K, S, I.
      cbn [String.eqb Ascii.eqb Bool.eqb when_]. reflexivity. }
    destruct (refused_by_prepare _ _ _ _ _ P eq_refl) as (w' & R).
    eexists. exists w'. exact R.
Qed.

(** ** create_checkin_checkout: the table of check-ins *)

(** Whatever a call returns, the check-ins that were in the table are
    still there, in the same order and saying the same about attendance,
    followed by at most one new record; a new record has the call's log
    type and a time without microseconds. *)
Theorem checkin_appends_at_most_one_record :
  forall fw a w,
    exists added,
      map core (tabEmployee_Checkin (snd (create_checkin_checkout fw a w)))
      = (map core (tabEmployee_Checkin w) ++ added)%list
      /\ (List.length added <= 1)%nat
      /\ forall x, In x added ->
           snd (fst x) = log_type a /\ micro (snd x) = 0.
Proof.
  intros fw a w.
  destruct (create_checkin_checkout fw a w) as [r w'] eqn:H. cbn [snd].
  apply create_checkin_checkout_effect in H.
  destruct H as [H | (employee & t & doc & w0 & Mt & _ & Hc & _ & Ht)].
  - exists []. rewrite app_nil_r. split; [exact H|].
    split; [apply Nat.le_0_l | intros x []].
  - exists [core doc]. split; [exact Ht|]. split; [apply Nat.le_refl|].
    intros x [<- | []]. rewrite Hc. split; [reflexivity | exact Mt].
Qed.

(** On 9999-12-31 the end of the day does not exist: the day check
    raises [OverflowError] before it looks at the table, so what follows
    the timestamp raises an error that is not of the validation family
    and stores nothing. *)
Theorem last_day_is_an_internal_error :
  forall fw a employee lp bp distance w t,
    parse_timestamp fw (timestamp a) w = (Ok t, w) ->
    date_of t = 3652058 ->
    record_checkin fw a employee lp bp distance w
    = (Raise (mkExc OverflowError "date value out of range"), w)
    /\ is_validation OverflowError = false.
Proof.
  intros fw a employee lp bp distance w t P D.
  split; [| reflexivity].
  unfold record_checkin. unfold bind at 1. rewrite P.
  unfold bind at 1. unfold one_in_one_out. unfold bind at 1.
  assert (A : add_one_day (replace_midnight t) = overflow).
  { unfold add_one_day.
    destruct (replace_midnight_wall t) as [W _]. rewrite W, D.
    reflexivity. }
  rewrite A. reflexivity.
Qed.

(** The backfill changes photo fields only. *)
Lemma backfill_photo_urls_fields fw name lf bf w u w' :
  backfill_photo_urls fw name lf bf w = (Ok u, w') ->
  exists g,
    (forall c, ck_name (g c) = ck_name c
               /\ ck_latitude (g c) = ck_latitude c
               /\ ck_longitude (g c) = ck_longitude c
               /\ ck_device_id (g c) = ck_device_id c)
    /\ tabEmployee_Checkin w' = map g (tabEmployee_Checkin w)
    /\ tabFile w' = tabFile w.
Proof.
  unfold backfill_photo_urls.
  set (loc := match lf with
              | Some f => if has_custom_location_photo fw
                          then Some (f_file_url f) else None
              | None => None
              end).
  set (bio := match bf with
              | Some f => if has_custom_client_bio_metric_photo fw
                          then Some (f_file_url f) else None
              | None => None
              end).
  intros H.
  assert (D : (loc = None /\ bio = None)
              \/ w' = set_tabEmployee_Checkin
                        (map (fun c => if String.eqb (ck_name c) name
                                       then update_photo_fields loc bio c else c)
                           (tabEmployee_Checkin w)) w).
  { destruct loc; [right; inversion H; reflexivity|].
    destruct bio; [right; inversion H; reflexivity|].
    left. split; reflexivity. }
  destruct D as [[L B] | D].
  - rewrite L, B in H. apply ret_inv in H. destruct H as [_ ->].
    exists (fun c => c).
    split; [intro; repeat split|]. rewrite map_id. split; reflexivity.
  - subst w'.
    exists (fun c => if String.eqb (ck_name c) name
                     then update_photo_fields loc bio c else c).
    split; [| split; reflexivity].
    intros c. destruct (String.eqb (ck_name c) name); repeat split.
Qed.

Lemma opt_float_inv fw v w r w' :
  opt_float fw v w = (r, w') ->
  w' = w
  /\ r = if truthy v
         then match py_float fw v with
              | Ok f => Ok (Some f)
              | Raise e => Raise e
              end
         else Ok None.
Proof.
  unfold opt_float, bind, lift, ret.
  destruct (truthy v); [destruct (py_float fw v)|];
    intros H; inversion H; split; reflexivity.
Qed.

Lemma new_checkin_doc_fields fw a employee t w doc w' :
  new_checkin_doc fw a employee t w = (Ok doc, w') ->
  coordinate_of fw (latitude a) (ck_latitude doc)
  /\ coordinate_of fw (longitude a) (ck_longitude doc)
  /\ ck_device_id doc = device_id a.
Proof.
  unfold new_checkin_doc. intros H.
  bind_ok H lat w1 A. bind_ok H lon w2 B. bind_ok H sh w3 C.
  apply ret_inv in H. destruct H as [H _]. inversion H; subst doc; clear H.
  apply opt_float_inv in A, B. destruct A as [_ A], B as [_ B].
  cbn [ck_latitude ck_longitude ck_device_id]. unfold coordinate_of.
  split; [| split; [| reflexivity]].
  - destruct (truthy (latitude a)).
    + destruct (py_float fw (latitude a)) as [f|e]; inversion A.
      exists f. split; reflexivity.
    + inversion A. reflexivity.
  - destruct (truthy (longitude a)).
    + destruct (py_float fw (longitude a)) as [f|e]; inversion B.
      exists f. split; reflexivity.
    + inversion B. reflexivity.
Qed.

(** The steps of a recorded check-in, with the worlds between them. *)
Lemma record_checkin_steps fw a employee lp bp distance w r w' :
  record_checkin fw a employee lp bp distance w = (Ok r, w') ->
  exists t doc0 doc w4 lf w5 bf w6,
    parse_timestamp fw (timestamp a) w = (Ok t, w)
    /\ new_checkin_doc fw a employee t w = (Ok doc0, w)
    /\ insert_checkin fw doc0 w = (Ok doc, w4)
    /\ attach_photo fw lp (location_photo_id a) (emp_name employee)
         (ck_name doc) "location" w4 = (Ok lf, w5)
    /\ attach_photo fw bp (client_biometric_photo_id a) (emp_name employee)
         (ck_name doc) "biometric" w5 = (Ok bf, w6)
    /\ backfill_photo_urls fw (ck_name doc) lf bf w6 = (Ok tt, w')
    /\ r = Success (success_response fw employee (log_type a) doc distance lf bf).
Proof.
  unfold record_checkin. intros H.
  bind_ok H t w1 A. pose proof (parse_timestamp_ok _ _ _ _ _ A) as [-> _].
  bind_ok H u w2 B. pose proof (one_in_one_out_ok _ _ _ _ _ _ _ B) as [-> _].
  bind_ok H doc0 w3 C. pose proof (new_checkin_doc_ok _ _ _ _ _ _ _ C) as [-> _].
  bind_ok H doc w4 D.
  bind_ok H lf w5 E.
  bind_ok H bf w6 F.
  bind_ok H u' w7 G. destruct u'.
  apply ret_inv in H. destruct H as [H ->]. inversion H; subst r.
  exists t, doc0, doc, w4, lf, w5, bf, w6. repeat split; assumption.
Qed.

(** What a successful call stores and answers as coordinates.  The new
    record and the response carry the same latitude and longitude:
    [float()] of an argument that is truthy, and nothing for one that is
    not, a zero included; the record carries the device id as given. *)
Theorem stored_coordinates :
  forall fw a w resp w',
    create_checkin_checkout fw a w = (Ok (Success resp), w') ->
    exists old c,
      tabEmployee_Checkin w' = (old ++ [c])%list
      /\ ck_name c = resp_checkin_id resp
      /\ ck_latitude c = resp_latitude resp
      /\ ck_longitude c = resp_longitude resp
      /\ ck_device_id c = device_id a
      /\ coordinate_of fw (latitude a) (resp_latitude resp)
      /\ coordinate_of fw (longitude a) (resp_longitude resp).
Proof.
  intros fw a w resp w' H.
  apply create_checkin_checkout_success in H.
  destruct H as (lp & bp & employee & settings & w1 & distance & w2
                 & _ & _ & _ & H).
  apply record_checkin_steps in H.
  destruct H as (t & doc0 & doc & w4 & lf & w5 & bf & w6
                 & _ & N & I & A1 & A2 & B & R).
  inversion R; subst resp; clear R.
  apply new_checkin_doc_fields in N. destruct N as (N1 & N2 & N3).
  apply insert_checkin_ok in I. destruct I as (Hd & Ht & _).
  apply attach_photo_keeps in A1, A2. destruct A1 as [A1 _], A2 as [A2 _].
  apply backfill_photo_urls_fields in B. destruct B as (g & Hg & Hb & _).
  assert (Ed : ck_latitude doc = ck_latitude doc0
               /\ ck_longitude doc = ck_longitude doc0
               /\ ck_device_id doc = ck_device_id doc0)
    by (subst doc; repeat split).
  destruct Ed as (E1 & E2 & E3).
  destruct (Hg doc) as (G0 & G1 & G2 & G3).
  exists (map g (tabEmployee_Checkin w2)), (g doc).
  cbn [success_response resp_checkin_id resp_latitude resp_longitude].
  rewrite Hb, A2, A1, Ht, map_app. cbn [map].
  split; [reflexivity|]. split; [exact G0|].
  split; [exact G1|]. split; [exact G2|].
  split; [congruence|].
  rewrite E1, E2. split; [exact N1 | exact N2].
Qed.

(** ** Photos given by id, and photos found again *)

Lemma lookup_replace_file d' t n d :
  lookup f_name n t = Some d -> f_name d' = n ->
  lookup f_name n (replace_file d' t) = Some d'.
Proof.
  unfold lookup, replace_file. intros H Hn. subst n.
  induction t as [|x t IH]; [discriminate H|].
  cbn [map find] in *.
  destruct (String.eqb (f_name x) (f_name d')) eqn:X.
  - rewrite String.eqb_refl. reflexivity.
  - rewrite X. apply IH. exact H.
Qed.

Lemma map_f_name_replace_file d' t :
  map f_name (replace_file d' t) = map f_name t.
Proof.
  unfold replace_file. rewrite map_map. apply map_ext_in. intros x _.
  destruct (String.eqb (f_name x) (f_name d')) eqn:E; [| reflexivity].
  apply String.eqb_eq in E. symmetry. exact E.
Qed.

(** A photo given by file id, when no photo itself is given.  An id
    that names no File is passed over in silence: no file, no error, no
    change.  An id that names a File attaches that File to the check-in:
    looked up again it is the same File, now attached to the check-in,
    and no File is added and no check-in touched. *)
Theorem photo_id_is_reattached :
  forall fw photo photo_id employee_name checkin_name photo_type w,
    photo_truthy photo = false ->
    truthy_str photo_id = true ->
    (lookup f_name (or_empty photo_id) (tabFile w) = None ->
     attach_photo fw photo photo_id employee_name checkin_name photo_type w
     = (Ok None, w))
    /\ (forall d,
          lookup f_name (or_empty photo_id) (tabFile w) = Some d ->
          let d' := mkFile (f_name d) (f_file_name d) (f_file_url d)
                      (Some "Employee Checkin") (Some checkin_name)
                      (f_content d) in
          file_save_check fw d' = None ->
          exists w',
            attach_photo fw photo photo_id employee_name checkin_name
              photo_type w = (Ok (Some d'), w')
            /\ lookup f_name (or_empty photo_id) (tabFile w') = Some d'
            /\ map f_name (tabFile w') = map f_name (tabFile w)
            /\ tabEmployee_Checkin w' = tabEmployee_Checkin w).
Proof.
  intros fw photo photo_id employee_name checkin_name photo_type w P T.
  split.
  - intros N. unfold attach_photo. rewrite P, T.
    unfold db_exists, gets, bind. rewrite N. reflexivity.
  - intros d L d' S. unfold attach_photo. rewrite P, T.
    unfold db_exists, gets, bind at 1. rewrite L.
    unfold bind at 1. unfold get_doc. rewrite L.
    unfold bind at 1. unfold save_file_doc. fold d'. rewrite S.
    unfold modify, ret.
    eexists. split; [reflexivity|].
    cbn [tabFile set_tabFile tabEmployee_Checkin].
    split; [| split; [apply map_f_name_replace_file | reflexivity]].
    apply (lookup_replace_file d' _ _ d L).
    exact (lookup_key f_name _ _ _ L).
Qed.

(** What a stored photo is. *)
Lemma store_photo_ok fw b employee_id checkin_id photo_type w r w' :
  store_photo fw b employee_id checkin_id photo_type w = (Ok r, w') ->
  exists d,
    r = Some d
    /\ tabFile w' = (tabFile w ++ [d])%list
    /\ tabEmployee_Checkin w' = tabEmployee_Checkin w
    /\ f_file_name d
       = photo_type ++ "_photo_" ++ employee_id ++ "_"
           ++ strftime_stamp fw (now w) ++ ".jpg"
    /\ f_attached_to_doctype d = Some "Employee Checkin"
    /\ f_attached_to_name d = Some checkin_id
    /\ f_content d = b
    /\ 0 < len b <= MAX_SIZE.
Proof.
  unfold store_photo. intros H.
  bind_ok H t w1 A. apply gets_inv in A. destruct A as [A ->].
  inversion A; subst t; clear A.
  bind_ok H u w2 B. inversion B; subst w2; clear B.
  bind_ok H d w3 C. apply ret_inv in H. destruct H as [H ->].
  inversion H; subst r; clear H.
  apply try_except_ok_inv in C.
  destruct C as [C | (e & wx & _ & C)].
  2: { destruct (is_validation (exc_cls e)); [discriminate C|].
       bind_ok C u' wy X. discriminate C. }
  bind_ok C u1 w4 L0. apply when_throw_ok_inv in L0. destruct L0 as [L0 ->].
  bind_ok C u2 w5 L1. apply when_throw_ok_inv in L1. destruct L1 as [L1 ->].
  bind_ok C d0 w6 Sv. bind_ok C u3 w7 G. inversion G; subst w7; clear G.
  apply ret_inv in C. destruct C as [C ->]. inversion C; subst d0; clear C.
  unfold save_file in Sv.
  match type of Sv with
  | match ?c with _ => _ end = _ => destruct c; [discriminate Sv|]
  end.
  inversion Sv; subst d w6; clear Sv.
  exists (mkFile
            (file_autoname fw
               (tabFile (add_error_log "Checkin Photo Debug"
                  ("Calling save_file - filename: "
                     ++ (photo_type ++ "_photo_" ++ employee_id ++ "_"
                           ++ strftime_stamp fw (now w) ++ ".jpg")
                     ++ ", checkin: " ++ checkin_id ++ ", size: "
                     ++ str_of_Z fw (len b)) w))
               (photo_type ++ "_photo_" ++ employee_id ++ "_"
                  ++ strftime_stamp fw (now w) ++ ".jpg"))
            (photo_type ++ "_photo_" ++ employee_id ++ "_"
               ++ strftime_stamp fw (now w) ++ ".jpg")
            ("/files/" ++ (photo_type ++ "_photo_" ++ employee_id ++ "_"
               ++ strftime_stamp fw (now w) ++ ".jpg"))
            (Some "Employee Checkin") (Some checkin_id) b).
  split; [reflexivity|].
  cbn [tabFile tabEmployee_Checkin set_tabFile add_error_log f_file_name
       f_attached_to_doctype f_attached_to_name f_content].
  repeat (split; [reflexivity|]).
  apply Z.eqb_neq in L0.
  rewrite Z.gtb_ltb in L1. apply Z.ltb_ge in L1.
  assert (0 <= len b) by (unfold len; apply Nat2Z.is_nonneg).
  lia.
Qed.

(** A request without uploaded files hands inline bytes and missing
    photos on as they are. *)
Lemma read_upload_plain field photo w :
  request_files w = [] ->
  (photo_truthy photo = true -> forall fs, photo <> PhStorage fs) ->
  read_upload field photo w = (Ok photo, w).
Proof.
  intros R N. unfold read_upload.
  destruct (photo_truthy photo).
  - destruct photo; try reflexivity. exfalso. exact (N eq_refl _ eq_refl).
  - unfold bind, gets. rewrite R. reflexivity.
Qed.

(** A location photo uploaded as bytes is found again.  When a call
    that carries the location photo as inline bytes, and no biometric
    photo, succeeds, the File it answers with holds those bytes, and the
    record data that [get_employee_checkin_records] builds for the new
    check-in in the world after the call names the same File and URL. *)
Theorem uploaded_location_photo_is_listed :
  forall fw a b w resp w',
    location_photo a = PhBytes b ->
    0 < len b ->
    photo_truthy (client_biometric_photo a) = false ->
    truthy_str (client_biometric_photo_id a) = false ->
    request_files w = [] ->
    create_checkin_checkout fw a w = (Ok (Success resp), w') ->
    exists old c d,
      tabEmployee_Checkin w' = (old ++ [c])%list
      /\ ck_name c = resp_checkin_id resp
      /\ f_content d = b
      /\ resp_location_photo resp = Some (f_file_url d, f_name d)
      /\ forall employee,
           rd_location_photo (build_record_data fw w' employee c)
           = Some (f_name d, f_file_url d).
Proof.
  intros fw a b w resp w' Lp Lb Bp Bi Rf H.
  apply create_checkin_checkout_success in H.
  destruct H as (lp & bp & employee & settings & w1 & distance & w2
                 & P & _ & _ & H).
  assert (Elp : lp = PhBytes b /\ bp = client_biometric_photo a).
  { unfold prepare in P.
    rewrite Lp in P.
    unfold bind at 1 in P.
    rewrite (read_upload_plain "location_photo" (PhBytes b) w Rf) in P
      by (intros _ fs; discriminate).
    unfold bind at 1 in P.
    rewrite (read_upload_plain "client_biometric_photo"
               (client_biometric_photo a) w Rf) in P.
    2: { intros T. rewrite T in Bp. discriminate Bp. }
    bind_ok P emp wc C. bind_ok P u wd D. bind_ok P u' we E.
    bind_ok P s wf F. apply ret_inv in P. destruct P as [P _].
    inversion P. split; reflexivity. }
  destruct Elp as [-> ->].
  apply record_checkin_steps in H.
  destruct H as (t & doc0 & doc & w4 & lf & w5 & bf & w6
                 & _ & _ & I & A1 & A2 & B & R).
  inversion R; subst resp; clear R.
  apply insert_checkin_ok in I. destruct I as (_ & Ht & _).
  pose proof (attach_photo_keeps _ _ _ _ _ _ _ _ _ A1) as [K1 _].
  (* the location photo is stored *)
  unfold attach_photo in A1.
  assert (Tb : photo_truthy (PhBytes b) = true).
  { cbn [photo_truthy]. apply negb_true_iff, Z.eqb_neq. lia. }
  rewrite Tb in A1.
  destruct (handle_photo_bytes fw b (emp_name employee) (ck_name doc)
              "location" w4 Lb) as (w4' & F4 & _ & E4).
  rewrite E4 in A1. clear E4.
  pose proof (store_photo_ok _ _ _ _ _ _ _ _ A1)
    as (d & -> & F5 & C5 & Fn & Fd & Fa & Fc & _).
  (* no biometric photo *)
  unfold attach_photo in A2. rewrite Bp, Bi in A2.
  apply ret_inv in A2. destruct A2 as [A2 ->]. inversion A2; subst bf; clear A2.
  apply backfill_photo_urls_fields in B. destruct B as (g & Hg & Hb & Hf).
  destruct (Hg doc) as (G0 & _).
  exists (map g (tabEmployee_Checkin w2)), (g doc), d.
  cbn [success_response resp_checkin_id resp_location_photo photo_entry].
  split; [rewrite Hb, K1, Ht, map_app; reflexivity|].
  split; [exact G0|]. split; [exact Fc|]. split; [reflexivity|].
  intros employee0.
  cbn [build_record_data rd_location_photo].
  assert (L : latest_photo w' (ck_name (g doc)) "location_photo" = Some d).
  { unfold latest_photo. rewrite Hf, F5, rev_app_distr. cbn [rev app find].
    rewrite Fd, Fa, G0, Fn. cbn. rewrite String.eqb_refl. reflexivity. }
  rewrite L. reflexivity.
Qed.

(** ** get_employee_checkin_records *)

Lemma sanitize_limit_positive fw limit l :
  sanitize_limit fw limit = Ok l -> 1 <= l.
Proof.
  rewrite sanitize_limit_unfold. unfold ocatch, obind.
  destruct (py_int fw limit) as [z|e].
  - destruct (z <? 1) eqn:Z1; intros H; inversion H; subst; [lia|].
    apply Z.ltb_ge in Z1. exact Z1.
  - destruct (is_value_or_type (exc_cls e)); intros H; inversion H. lia.
Qed.

Lemma sanitize_offset_nonnegative fw offset o :
  sanitize_offset fw offset = Ok o -> 0 <= o.
Proof.
  unfold sanitize_offset, ocatch, obind.
  destruct (py_int fw offset) as [z|e].
  - destruct (z <? 0) eqn:Z0; intros H; inversion H; subst; [lia|].
    apply Z.ltb_ge in Z0. exact Z0.
  - destruct (is_value_or_type (exc_cls e)); intros H; inversion H. lia.
Qed.

(** What a returned page was computed from. *)
Lemma checkin_records_ok fw employee_id log_type start_date end_date
    limit offset w res w' :
  get_employee_checkin_records fw employee_id log_type start_date end_date
    limit offset w = (Ok res, w') ->
  exists employee tf,
    w' = w
    /\ records_employee employee_id w = (Ok employee, w)
    /\ date_filter fw start_date end_date w = (Ok tf, w)
    /\ (truthy_str log_type = true -> str_in (or_empty log_type) ["IN"; "OUT"] = true)
    /\ 1 <= rr_limit res
    /\ 0 <= rr_offset res
    /\ let found :=
         filter (matches (emp_name employee)
                   (if truthy_str log_type then log_type else None) tf)
           (tabEmployee_Checkin w) in
       total_count res = Z.of_nat (List.length found)
       /\ has_more res = (rr_offset res + rr_limit res <? total_count res)
       /\ records res
          = map (build_record_data fw w employee)
              (firstn (Z.to_nat (rr_limit res))
                 (skipn (Z.to_nat (rr_offset res))
                    (order_by_time_desc found))).
Proof.
  intros H. unfold get_employee_checkin_records in H.
  bind_ok H emp w1 He.
  pose proof (records_employee_reads _ _ _ _ He) as U.
  unfold unchanged in U. subst w1.
  bind_ok H u w2 Hw. apply when_throw_ok_inv in Hw. destruct Hw as [Hw ->].
  bind_ok H tf w3 Hd.
  pose proof (date_filter_reads _ _ _ _ _ _ Hd) as U.
  unfold unchanged in U. subst w3.
  bind_ok H l w4 Hl. apply lift_inv in Hl. destruct Hl as [Hl ->].
  bind_ok H o w5 Ho. apply lift_inv in Ho. destruct Ho as [Ho ->].
  bind_ok H n w6 Hn. apply gets_inv in Hn. destruct Hn as [Hn ->].
  bind_ok H rs w7 Hrs. apply gets_inv in Hrs. destruct Hrs as [Hrs ->].
  bind_ok H rp w8 Hrp. apply gets_inv in Hrp. destruct Hrp as [Hrp ->].
  apply ret_inv in H. destruct H as [H ->].
  inversion H; subst res; clear H. inversion Hn; subst n; clear Hn.
  inversion Hrs; subst rs; clear Hrs. inversion Hrp; subst rp; clear Hrp.
  symmetry in Hl, Ho.
  exists emp, tf. cbn [rr_limit rr_offset has_more total_count records].
  split; [reflexivity|]. split; [exact He|]. split; [exact Hd|].
  split.
  { intros T. rewrite T in Hw. cbn [andb] in Hw.
    apply negb_false_iff in Hw. exact Hw. }
  split; [exact (sanitize_limit_positive _ _ _ Hl)|].
  split; [exact (sanitize_offset_nonnegative _ _ _ Ho)|].
  cbn zeta. repeat split.
Qed.

Lemma insert_desc_length c l :
  List.length (insert_desc c l) = S (List.length l).
Proof.
  induction l as [|x r IH]; [reflexivity|]. cbn [insert_desc].
  destruct (dt_key (ck_time x) <? dt_key (ck_time c)); cbn [List.length];
    [reflexivity | rewrite IH; reflexivity].
Qed.

Lemma order_by_time_desc_length l :
  List.length (order_by_time_desc l) = List.length l.
Proof.
  unfold order_by_time_desc. induction l as [|x r IH]; [reflexivity|].
  cbn [fold_right]. rewrite insert_desc_length, IH. reflexivity.
Qed.








(** Reading the records changes nothing.  A call that fails raises a
    validation error, except for an infinite limit or offset, on which
    [int()] raises [OverflowError]. *)
Theorem checkin_records_reads_only :
  forall fw employee_id log_type start_date end_date limit offset w,
    let run :=
      get_employee_checkin_records fw employee_id log_type start_date
        end_date limit offset w in
    snd run = w
    /\ forall e, fst run = Raise e ->
         is_validation (exc_cls e) = true
         \/ (exc_cls e = OverflowError
             /\ (limit = PFloat PosInf \/ limit = PFloat NegInf
                 \/ offset = PFloat PosInf \/ offset = PFloat NegInf)).
Proof.
  intros fw employee_id log_type start_date end_date limit offset w run.
  subst run.
  destruct (get_employee_checkin_records fw employee_id log_type start_date
              end_date limit offset w) as [r w'] eqn:H.
  cbn [fst snd]. split.
  - revert H. generalize w r w'.
    change (keeps unchanged
              (get_employee_checkin_records fw employee_id log_type
                 start_date end_date limit offset)).
    unfold get_employee_checkin_records, records_employee,
      session_user_email, employee_name_by_email, date_filter,
      get_all_checkins.
    reads_only.
  - intros e ->.
    assert (X : raises
              (fun e =>
                 is_validation (exc_cls e) = true
                 \/ (exc_cls e = OverflowError
                     /\ (limit = PFloat PosInf \/ limit = PFloat NegInf
                         \/ offset = PFloat PosInf \/ offset = PFloat NegInf)))
              (get_employee_checkin_records fw employee_id log_type
                 start_date end_date limit offset)); [| exact (X _ _ _ H)].
    clear H.
    unfold get_employee_checkin_records.
    apply raises_bind.
    { apply (raises_weaken validation); [intros x Hx; left; exact Hx|].
      unfold records_employee, session_user_email, employee_name_by_email.
      validation_only. }
    intros employee. apply raises_bind.
    { apply (raises_weaken validation); [intros x Hx; left; exact Hx|].
      validation_only. }
    intros _. apply raises_bind.
    { apply (raises_weaken validation); [intros x Hx; left; exact Hx|].
      unfold date_filter. validation_only. }
    intros tf. apply raises_bind.
    { apply raises_lift. intros x Hx. right.
      destruct (sanitize_limit_raises _ _ _ Hx) as [L | L]; subst limit;
        inversion Hx; split; auto. }
    intros l. apply raises_bind.
    { apply raises_lift. intros x Hx. right.
      destruct (sanitize_offset_raises _ _ _ Hx) as [L | L]; subst offset;
        inversion Hx; split; auto. }
    intros o.
    unfold get_all_checkins.
    repeat first [ apply raises_bind; [ | intro ] | apply raises_gets
                 | apply raises_db_count | apply raises_ret ].
Qed.

(** The size of a page and the meaning of [has_more].  A returned page
    holds as many records as remain from the offset on, up to the limit;
    [has_more] is true exactly when matching check-ins remain beyond
    the page. *)
Theorem page_size_and_has_more :
  forall fw employee_id log_type start_date end_date limit offset w res w',
    get_employee_checkin_records fw employee_id log_type start_date end_date
      limit offset w = (Ok res, w') ->
    Z.of_nat (List.length (records res))
    = Z.min (rr_limit res) (Z.max 0 (total_count res - rr_offset res))
    /\ has_more res
       = (rr_offset res + Z.of_nat (List.length (records res))
          <? total_count res).
Proof.
  intros fw employee_id log_type start_date end_date limit offset w res w' H.
  apply checkin_records_ok in H.
  destruct H as (employee & tf & _ & _ & _ & _ & Hl & Ho & Ht & Hm & Hr).
  rewrite Hr, Hm, length_map, length_firstn, length_skipn,
    order_by_time_desc_length.
  rewrite Ht.
  set (n := List.length _).
  assert (E : Z.of_nat
                (Nat.min (Z.to_nat (rr_limit res))
                   (n - Z.to_nat (rr_offset res)))
              = Z.min (rr_limit res) (Z.max 0 (Z.of_nat n - rr_offset res)))
    by lia.
  rewrite E. split; [reflexivity|].
  destruct (rr_offset res + rr_limit res <? Z.of_nat n) eqn:A;
    symmetry; [apply Z.ltb_lt; apply Z.ltb_lt in A
              | apply Z.ltb_ge; apply Z.ltb_ge in A]; lia.
Qed.



(** ** get_employee_configuration *)

Section ConfigurationProperties.

Variable fw : framework.
Variable department_name : department -> option string.
Variable project_name : project -> option string.
Variable designation : employee -> option string.
Variable address : branch -> option string.
Variable json_dumps : configuration -> string.

Lemma configuration_rules_reads company_doc department :
  keeps unchanged (configuration_rules project_name company_doc department).
Proof. unfold configuration_rules, get_value. reads_only. Qed.

Lemma configuration_response_reads employee_id :
  keeps unchanged (configuration_response department_name project_name
            designation address employee_id).
Proof.
  unfold configuration_response, records_employee,
    session_user_email, employee_name_by_email, get_value.
  reads_only. apply configuration_rules_reads.
Qed.

Lemma configuration_response_raises employee_id :
  raises validation (configuration_response department_name project_name
            designation address employee_id).
Proof.
  unfold configuration_response, configuration_rules,
    records_employee, session_user_email, employee_name_by_email, get_value.
  validation_only.
Qed.

(** What a call does besides answering: a call that returns has written
    the response to the error log under the title "Employee
    Configuration" and changed nothing else; a call that fails has
    changed nothing, and its error is a validation error. *)
Theorem configuration_is_logged :
  forall employee_id w,
    match get_employee_configuration department_name project_name
            designation address json_dumps employee_id w with
    | (Ok cfg, w') =>
        w' = add_error_log "Employee Configuration" (json_dumps cfg) w
    | (Raise e, w') => w' = w /\ is_validation (exc_cls e) = true
    end.
Proof.
  intros employee_id w.
  unfold get_employee_configuration. unfold bind at 1.
  destruct (configuration_response department_name project_name designation
              address employee_id w) as [[cfg|e] w1] eqn:R;
    pose proof (configuration_response_reads _ _ _ _ R) as U;
    unfold unchanged in U; subst w1.
  - reflexivity.
  - split; [reflexivity|].
    exact (configuration_response_raises _ _ _ _ R).
Qed.

(** What a returned response was read from. *)
Lemma configuration_response_ok employee_id w cfg w' :
  configuration_response department_name project_name designation address
    employee_id w = (Ok cfg, w') ->
  exists employee company_doc department_doc branch_doc r,
    records_employee employee_id w = (Ok employee, w)
    /\ truthy_str (emp_company_email employee) = true
    /\ truthy_str (emp_company employee) = true
    /\ lookup co_name (or_empty (emp_company employee)) (tabCompany w)
       = Some company_doc
    /\ String.eqb (or_empty (emp_department employee)) "" = false
    /\ lookup dep_name (or_empty (emp_department employee)) (tabDepartment w)
       = Some department_doc
    /\ (if by_department company_doc
        then r = dep_rules department_doc
             /\ settings_source (cfg_settings cfg) = "department"
             /\ sb_project_id (cfg_settings cfg) = None
        else
          truthy_str (custom_project department_doc) = true
          /\ settings_source (cfg_settings cfg) = "project"
          /\ sb_project_id (cfg_settings cfg) = custom_project department_doc
          /\ exists project_doc,
               lookup prj_name (or_empty (custom_project department_doc))
                 (tabProject w) = Some project_doc
               /\ r = prj_rules project_doc)
    /\ has_any_rule r = true
    /\ String.eqb (or_empty (emp_branch employee)) "" = false
    /\ lookup br_name (or_empty (emp_branch employee)) (tabBranch w)
       = Some branch_doc
    /\ is_none (custom_latitude branch_doc)
       || is_none (custom_longitude branch_doc)
       || is_none (custom_radius_in_meters branch_doc) = false
    /\ sb_required_to_upload_location_photo (cfg_settings cfg)
       = rule_value (custom_required_to_upload_location_photo r)
    /\ sb_required_to_upload_client_bio_metric_photo (cfg_settings cfg)
       = rule_value (custom_required_to_upload_client_bio_metric_photo r)
    /\ sb_require_location_check_on_check_out (cfg_settings cfg)
       = rule_value (custom_required_location_check_on_check_out r)
    /\ bi_branch_id (cfg_branch cfg) = or_empty (emp_branch employee)
    /\ bi_latitude (cfg_branch cfg) = custom_latitude branch_doc
    /\ bi_longitude (cfg_branch cfg) = custom_longitude branch_doc
    /\ bi_checkin_radius_meters (cfg_branch cfg)
       = custom_radius_in_meters branch_doc.
Proof.
  unfold configuration_response. intros H.
  bind_ok H emp w1 He.
  pose proof (records_employee_reads _ _ _ _ He) as U.
  unfold unchanged in U. subst w1.
  bind_ok H u0 w2 A. apply when_throw_ok_inv in A. destruct A as [A ->].
  apply negb_false_iff in A.
  bind_ok H dn w3 Dn.
  assert (W3 : w3 = w).
  { destruct (negb (String.eqb (or_empty (emp_department emp)) ""));
      [apply gets_inv in Dn | apply ret_inv in Dn]; apply Dn. }
  subst w3.
  bind_ok H bn w4 Bn.
  assert (W4 : w4 = w).
  { destruct (negb (String.eqb (or_empty (emp_branch emp)) ""));
      [apply gets_inv in Bn | apply ret_inv in Bn]; apply Bn. }
  subst w4.
  bind_ok H u1 w5 B. apply when_throw_ok_inv in B. destruct B as [B ->].
  bind_ok H bd w6 Bd. unfold get_doc in Bd.
  destruct (lookup br_name (or_empty (emp_branch emp)) (tabBranch w))
    as [b|] eqn:LB; [| discriminate Bd].
  inversion Bd; subst bd w6; clear Bd.
  bind_ok H u2 w7 Nn. apply when_throw_ok_inv in Nn. destruct Nn as [Nn ->].
  bind_ok H u3 w8 C. apply when_throw_ok_inv in C. destruct C as [C ->].
  apply negb_false_iff in C.
  bind_ok H cd w9 Cd. unfold get_doc in Cd.
  destruct (lookup co_name (or_empty (emp_company emp)) (tabCompany w))
    as [c|] eqn:LC; [| discriminate Cd].
  inversion Cd; subst cd w9; clear Cd.
  bind_ok H found w10 F.
  destruct found as [[[r source] project] pname].
  apply ret_inv in H. destruct H as [H _]. inversion H; subst cfg; clear H.
  cbn [cfg_settings cfg_branch settings_source sb_project_id
       sb_required_to_upload_location_photo
       sb_required_to_upload_client_bio_metric_photo
       sb_require_location_check_on_check_out
       bi_branch_id bi_latitude bi_longitude bi_checkin_radius_meters].
  unfold configuration_rules in F.
  destruct (by_department c) eqn:BD.
  - bind_ok F u4 w11 D. apply when_throw_ok_inv in D. destruct D as [D ->].
    bind_ok F dd w12 E. unfold get_doc in E.
    destruct (lookup dep_name (or_empty (emp_department emp))
                (tabDepartment w)) as [d|] eqn:LD; [| discriminate E].
    inversion E; subst dd w12; clear E.
    bind_ok F u5 w13 G. apply when_throw_ok_inv in G. destruct G as [G ->].
    apply negb_false_iff in G.
    apply ret_inv in F. destruct F as [F _].
    inversion F; subst r source project pname; clear F.
    exists emp, c, d, b, (dep_rules d). rewrite BD.
    split; [exact He|]. split; [exact A|]. split; [exact C|].
    split; [exact LC|]. split; [exact D|]. split; [exact LD|].
    split; [repeat split|].
    split; [exact G|]. split; [exact B|]. split; [exact LB|].
    split; [exact Nn|]. repeat split.
  - bind_ok F u4 w11 D. apply when_throw_ok_inv in D. destruct D as [D ->].
    bind_ok F dd w12 E. unfold get_doc in E.
    destruct (lookup dep_name (or_empty (emp_department emp))
                (tabDepartment w)) as [d|] eqn:LD; [| discriminate E].
    inversion E; subst dd w12; clear E.
    bind_ok F u5 w13 G. apply when_throw_ok_inv in G. destruct G as [G ->].
    apply negb_false_iff in G.
    bind_ok F pd w14 K. unfold get_doc in K.
    destruct (lookup prj_name (or_empty (custom_project d)) (tabProject w))
      as [p|] eqn:LP; [| discriminate K].
    inversion K; subst pd w14; clear K.
    bind_ok F nm w15 Nm. apply gets_inv in Nm. destruct Nm as [_ ->].
    bind_ok F u6 w16 L. apply when_throw_ok_inv in L. destruct L as [L ->].
    apply negb_false_iff in L.
    apply ret_inv in F. destruct F as [F _].
    inversion F; subst r source project pname; clear F.
    exists emp, c, d, b, (prj_rules p). rewrite BD.
    split; [exact He|]. split; [exact A|]. split; [exact C|].
    split; [exact LC|]. split; [exact D|]. split; [exact LD|].
    split.
    { split; [exact G|]. split; [reflexivity|]. split; [reflexivity|].
      exists p. split; [exact LP | reflexivity]. }
    split; [exact L|]. split; [exact B|]. split; [exact LB|].
    split; [exact Nn|]. repeat split.
Qed.

(** The settings of an employee, once the lookups are known. *)
Lemma get_employee_settings_given employee w company_doc department_doc
    branch_doc r :
  truthy_str (emp_company employee) = true ->
  lookup co_name (or_empty (emp_company employee)) (tabCompany w)
    = Some company_doc ->
  String.eqb (or_empty (emp_department employee)) "" = false ->
  lookup dep_name (or_empty (emp_department employee)) (tabDepartment w)
    = Some department_doc ->
  (if by_department company_doc then r = dep_rules department_doc
   else
     truthy_str (custom_project department_doc) = true
     /\ exists project_doc,
          lookup prj_name (or_empty (custom_project department_doc))
            (tabProject w) = Some project_doc
          /\ r = prj_rules project_doc) ->
  has_any_rule r = true ->
  String.eqb (or_empty (emp_branch employee)) "" = false ->
  lookup br_name (or_empty (emp_branch employee)) (tabBranch w)
    = Some branch_doc ->
  is_none (custom_latitude branch_doc)
  || is_none (custom_longitude branch_doc)
  || is_none (custom_radius_in_meters branch_doc) = false ->
  _get_employee_settings fw employee w
  = (obind (py_float fw (custom_latitude branch_doc)) (fun lat =>
     obind (py_float fw (custom_longitude branch_doc)) (fun lon =>
     obind (py_int fw (custom_radius_in_meters branch_doc)) (fun rad =>
     Ok (mkSettings
           (rule_value (custom_required_to_upload_location_photo r))
           (rule_value (custom_required_to_upload_client_bio_metric_photo r))
           (rule_value (custom_required_location_check_on_check_out r))
           lat lon rad (or_empty (emp_branch employee)))))), w).
Proof.
  intros C LC D LD R HR B LB Nn.
  unfold _get_employee_settings.
  rewrite C. cbn [negb when_]. unfold bind at 1. unfold ret at 1.
  unfold bind at 1. unfold get_doc at 1. rewrite LC.
  fold (by_department company_doc).
  unfold bind at 1.
  assert (E : (if by_department company_doc
               then
                 when_ (String.eqb (or_empty (emp_department employee)) "")
                   (throw "Company setting requires Department settings, but Employee has no Department assigned."
                      ValidationError) ;;
                 department_doc <-
                   get_doc "Department" dep_name tabDepartment
                     (or_empty (emp_department employee)) ;;
                 when_ (negb (has_any_rule (dep_rules department_doc)))
                   (throw "Company setting requires Department settings, but Department has no validation settings configured."
                      ValidationError) ;;
                 ret (dep_rules department_doc)
               else
                 when_ (String.eqb (or_empty (emp_department employee)) "")
                   (throw "Company setting requires Project settings, but Employee has no Department assigned."
                      ValidationError) ;;
                 department_doc <-
                   get_doc "Department" dep_name tabDepartment
                     (or_empty (emp_department employee)) ;;
                 when_ (negb (truthy_str (custom_project department_doc)))
                   (throw "Company setting requires Project settings, but Department has no linked Project."
                      ValidationError) ;;
                 project_doc <-
                   get_doc "Project" prj_name tabProject
                     (or_empty (custom_project department_doc)) ;;
                 when_ (negb (has_any_rule (prj_rules project_doc)))
                   (throw "Company setting requires Project settings, but linked Project has no validation settings configured."
                      ValidationError) ;;
                 ret (prj_rules project_doc)) w = (Ok r, w)).
  { destruct (by_department company_doc).
    - subst r. rewrite D. unfold when_ at 1, bind at 1, ret at 1.
      unfold bind at 1, get_doc. rewrite LD.
      rewrite HR. reflexivity.
    - destruct R as (P & p & LP & ->).
      rewrite D. unfold when_ at 1, bind at 1, ret at 1.
      unfold bind at 1, get_doc at 1. rewrite LD.
      rewrite P. cbn [negb when_]. unfold bind at 1, ret at 1.
      unfold bind at 1, get_doc. rewrite LP.
      rewrite HR. reflexivity. }
  rewrite E.
  rewrite B. unfold when_ at 1, bind at 1, ret at 1.
  unfold bind at 1, get_doc. rewrite LB.
  rewrite Nn. unfold when_, bind at 1, ret at 1.
  unfold bind, lift, ret, obind.
  destruct (py_float fw (custom_latitude branch_doc)); [| reflexivity].
  destruct (py_float fw (custom_longitude branch_doc)); [| reflexivity].
  destruct (py_int fw (custom_radius_in_meters branch_doc)); reflexivity.
Qed.

(** The configuration shows what a check-in enforces.  When a
    configuration is returned for an employee, the settings that the
    check-in endpoint looks up for the same employee in the same world
    carry the same three flags and the same branch, with the branch
    numbers converted by [float()] and [int()]; that lookup fails only
    when one of these conversions fails, and then with the conversion's
    error. *)
Theorem configuration_agrees_with_settings :
  forall employee_id w cfg w',
    get_employee_configuration department_name project_name designation
      address json_dumps employee_id w = (Ok cfg, w') ->
    exists employee,
      records_employee employee_id w = (Ok employee, w)
      /\ match _get_employee_settings fw employee w with
         | (Ok s, _) =>
             required_to_upload_location_photo s
             = sb_required_to_upload_location_photo (cfg_settings cfg)
             /\ required_to_upload_client_bio_metric_photo s
                = sb_required_to_upload_client_bio_metric_photo
                    (cfg_settings cfg)
             /\ require_location_check_on_check_out s
                = sb_require_location_check_on_check_out (cfg_settings cfg)
             /\ settings_branch s = bi_branch_id (cfg_branch cfg)
             /\ py_float fw (bi_latitude (cfg_branch cfg))
                = Ok (branch_latitude s)
             /\ py_float fw (bi_longitude (cfg_branch cfg))
                = Ok (branch_longitude s)
             /\ py_int fw (bi_checkin_radius_meters (cfg_branch cfg))
                = Ok (branch_radius s)
         | (Raise e, _) =>
             py_float fw (bi_latitude (cfg_branch cfg)) = Raise e
             \/ py_float fw (bi_longitude (cfg_branch cfg)) = Raise e
             \/ py_int fw (bi_checkin_radius_meters (cfg_branch cfg))
                = Raise e
         end.
Proof.
  intros employee_id w cfg w' H.
  unfold get_employee_configuration in H.
  bind_ok H resp w1 R. bind_ok H u w2 L.
  apply ret_inv in H. destruct H as [H _]. inversion H; subst resp; clear H.
  apply configuration_response_ok in R.
  destruct R as (employee & company_doc & department_doc & branch_doc & r
                 & He & _ & C & LC & D & LD & Src & HR & B & LB & Nn
                 & F1 & F2 & F3 & Bi & La & Lo & Ra).
  exists employee. split; [exact He|].
  rewrite (get_employee_settings_given employee w company_doc department_doc
             branch_doc r C LC D LD).
  - rewrite F1, F2, F3, Bi, La, Lo, Ra. unfold obind.
    destruct (py_float fw (custom_latitude branch_doc)) as [la|e];
      [| left; reflexivity].
    destruct (py_float fw (custom_longitude branch_doc)) as [lo|e];
      [| right; left; reflexivity].
    destruct (py_int fw (custom_radius_in_meters branch_doc)) as [ra|e];
      [| right; right; reflexivity].
    repeat split.
  - destruct (by_department company_doc).
    + apply Src.
    + destruct Src as (P & _ & _ & Q). split; [exact P | exact Q].
  - exact HR.
  - exact B.
  - exact LB.
  - exact Nn.
Qed.

End ConfigurationProperties.

(** Ada's configuration and the settings her check-ins go by. *)
Lemma configuration_agrees_with_settings_witness :
  let w := Demo.demo_world Demo.checkout_rule [] in
  exists cfg w' s,
    get_employee_configuration (fun _ => Some "Field Services")
      (fun _ => None) (fun _ => Some "Engineer") (fun _ => None)
      cfg_employee_id (Some "EMP-001") w = (Ok cfg, w')
    /\ _get_employee_settings Demo.demo_fw Demo.emp1 w = (Ok s, w)
    /\ sb_require_location_check_on_check_out (cfg_settings cfg) = true
    /\ require_location_check_on_check_out s = true
    /\ py_int Demo.demo_fw (bi_checkin_radius_meters (cfg_branch cfg))
       = Ok (branch_radius s).
Proof.
  intros w.
  destruct (get_employee_configuration (fun _ => Some "Field Services")
              (fun _ => None) (fun _ => Some "Engineer") (fun _ => None)
              cfg_employee_id (Some "EMP-001") w) as [[cfg|e] w'] eqn:E;
    [| vm_compute in E; discriminate E].
  destruct (configuration_agrees_with_settings Demo.demo_fw _ _ _ _ _ _ _ _ _ E)
    as (employee & He & A).
  assert (Ee : employee = Demo.emp1)
    by (vm_compute in He; inversion He; reflexivity).
  subst employee.
  destruct (_get_employee_settings Demo.demo_fw Demo.emp1 w)
    as [[s|e] w1] eqn:S; [| vm_compute in S; discriminate S].
  assert (W1 : w1 = w) by (vm_compute in S; inversion S; reflexivity).
  subst w1.
  destruct A as (_ & _ & A3 & _ & _ & _ & A7).
  exists cfg, w', s.
  split; [reflexivity|]. split; [reflexivity|].
  assert (F : require_location_check_on_check_out s = true)
    by (vm_compute in S; inversion S; reflexivity).
  split; [rewrite <- A3; exact F|]. split; [exact F | exact A7].
Defined.

(** ** The reporting endpoints *)

Lemma dict_find_set_same {V} k (v : V) d :
  dict_find k (dict_set k v d) = Some v.
Proof.
  unfold dict_find. induction d as [|p r IH]; cbn [dict_set find fst].
  - rewrite String.eqb_refl. reflexivity.
  - destruct (String.eqb (fst p) k) eqn:E; cbn [find fst].
    + rewrite String.eqb_refl. reflexivity.
    + rewrite E. exact IH.
Qed.

Lemma dict_find_set_other {V} k k' (v : V) d :
  k' <> k -> dict_find k' (dict_set k v d) = dict_find k' d.
Proof.
  intros N. unfold dict_find. induction d as [|p r IH]; cbn [dict_set find fst].
  - assert (E : String.eqb k k' = false) by (apply String.eqb_neq; congruence).
    rewrite E. reflexivity.
  - destruct (String.eqb (fst p) k) eqn:E; cbn [find fst].
    + apply String.eqb_eq in E.
      assert (F : String.eqb k k' = false)
        by (apply String.eqb_neq; congruence).
      rewrite F, E, F. reflexivity.
    + destruct (String.eqb (fst p) k'); [reflexivity | exact IH].
Qed.

Lemma find_app {A} (f : A -> bool) a b :
  find f (a ++ b)%list
  = match find f a with
    | Some x => Some x
    | None => find f b
    end.
Proof.
  induction a as [|x a IH]; [reflexivity|]. cbn [app find].
  destruct (f x); [reflexivity | exact IH].
Qed.

(** A dictionary filled in a loop holds, under each key, the value of
    the last row with that key. *)
Lemma dict_find_fold_set {R V} (key : R -> string) (val : R -> V) rows k :
  forall d,
    dict_find k (fold_left (fun d r => dict_set (key r) (val r) d) rows d)
    = match find (fun r => String.eqb (key r) k) (rev rows) with
      | Some r => Some (val r)
      | None => dict_find k d
      end.
Proof.
  induction rows as [|r rows IH]; intros d; [reflexivity|].
  cbn [fold_left rev]. rewrite IH, find_app. cbn [find].
  destruct (find (fun r0 => String.eqb (key r0) k) (rev rows));
    [reflexivity|].
  destruct (String.eqb (key r) k) eqn:E.
  - apply String.eqb_eq in E. subst k. apply dict_find_set_same.
  - apply dict_find_set_other. apply String.eqb_neq in E. congruence.
Qed.

(** The grouping loop collects, under each parent, the entries of the
    rows of that parent, in the order of the rows. *)
Lemma dict_list_group_by_parent {R E} (parent : R -> string) (entry : R -> E)
    rows k :
  dict_list k (group_by_parent parent entry rows)
  = map entry (filter (fun r => String.eqb (parent r) k) rows).
Proof.
  unfold group_by_parent.
  assert (G : forall d,
            dict_list k
              (fold_left
                 (fun d row =>
                    let d := if negb (dict_mem (parent row) d)
                             then dict_set (parent row) [] d else d in
                    match dict_find (parent row) d with
                    | Some l => dict_set (parent row) (l ++ [entry row])%list d
                    | None => d
                    end) rows d)
            = (dict_list k d
                 ++ map entry (filter (fun r => String.eqb (parent r) k) rows))%list).
  { induction rows as [|r rows IH]; intros d.
    - cbn. rewrite app_nil_r. reflexivity.
    - cbn [fold_left filter]. rewrite IH. clear IH.
      set (d1 := if negb (dict_mem (parent r) d)
                 then dict_set (parent r) [] d else d).
      assert (F1 : dict_find (parent r) d1 = Some (dict_list (parent r) d)).
      { unfold d1, dict_mem, dict_list.
        destruct (dict_find (parent r) d) eqn:F; cbn [negb].
        - exact F.
        - apply dict_find_set_same. }
      cbn zeta. fold d1. rewrite F1.
      destruct (String.eqb (parent r) k) eqn:Ek.
      + apply String.eqb_eq in Ek. subst k.
        unfold dict_list at 1. rewrite dict_find_set_same.
        cbn [map]. rewrite <- app_assoc. reflexivity.
      + apply String.eqb_neq in Ek.
        unfold dict_list at 1.
        rewrite dict_find_set_other by congruence.
        assert (F2 : dict_find k d1 = dict_find k d).
        { unfold d1. destruct (negb (dict_mem (parent r) d));
            [apply dict_find_set_other; congruence | reflexivity]. }
        rewrite F2. reflexivity. }
  rewrite G. reflexivity.
Qed.

(** [if not rows: return []] before a loop over the rows changes
    nothing. *)
Lemma empty_guard {A B} (l : list A) (f : A -> B) :
  match l with
  | [] => Ok []
  | _ => Ok (map f l)
  end = Ok (map f l).
Proof. destruct l; reflexivity. Qed.

(** The sales orders with their rows.  Every fetched order is answered,
    in the order fetched, and carries as items and taxes the entries of
    exactly the fetched item and tax rows whose parent it is, in the
    order fetched; an order without rows carries empty lists. *)
Theorem sales_orders_carry_their_rows :
  forall rp filters d,
    filters_of rp filters = Ok d ->
    let sales_order_id := dict_get "sales_order" d in
    let orders :=
      get_all_sales_order rp
        (if truthy sales_order_id then Some sales_order_id else None) in
    let items := get_all_sales_order_item rp (map or_sales_order orders) in
    let taxes := get_all_sales_taxes rp (map or_sales_order orders) in
    get_sales_orders rp filters
    = Ok (map (fun so =>
                 order_entry_of rp so
                   (map (item_entry_of rp)
                      (filter (fun i => String.eqb (ir_parent i)
                                          (or_sales_order so)) items))
                   (map (tax_entry_of rp)
                      (filter (fun t => String.eqb (tr_parent t)
                                          (or_sales_order so)) taxes)))
              orders).
Proof.
  intros rp filters d F sales_order_id orders items taxes.
  subst sales_order_id orders items taxes.
  unfold get_sales_orders. rewrite F. cbn [obind].
  rewrite empty_guard.
  f_equal. apply map_ext. intros so.
  rewrite !dict_list_group_by_parent. reflexivity.
Qed.

(** The customers with their balances.  Every fetched customer is
    answered, in the order fetched; the balance is that of the last
    loyalty row of the customer, [flt] of its sum, or 0.0 when the sum
    is [None]; a customer without a loyalty row has the balance 0.0. *)
Theorem customers_carry_their_balance :
  forall rp filters d,
    filters_of rp filters = Ok d ->
    let customer_id := dict_get "customer" d in
    let customers :=
      get_all_customer rp
        (if truthy customer_id then Some customer_id else None) in
    let loyalty := sql_loyalty rp (map cu_id customers) in
    get_customers_with_loyalty_balance rp filters
    = Ok (map (fun c =>
                 mkCustomerEntry c
                   (match find (fun r => String.eqb (lo_customer r) (cu_id c))
                            (rev loyalty) with
                    | Some r =>
                        if is_none (lo_loyalty_points_balance r)
                        then float_of_Z 0
                        else utils_flt rp (lo_loyalty_points_balance r)
                    | None => float_of_Z 0
                    end))
              customers).
Proof.
  intros rp filters d F customer_id customers loyalty.
  subst customer_id customers loyalty.
  unfold get_customers_with_loyalty_balance. rewrite F. cbn [obind].
  rewrite empty_guard.
  f_equal. apply map_ext. intros c0. f_equal.
  unfold loyalty_dict.
  rewrite (dict_find_fold_set lo_customer
             (fun row =>
                if negb (is_none (lo_loyalty_points_balance row))
                then utils_flt rp (lo_loyalty_points_balance row)
                else float_of_Z 0)).
  match goal with
  | |- context [find ?f ?l] => destruct (find f l) as [r|]; [| reflexivity]
  end.
  destruct (is_none (lo_loyalty_points_balance r)); reflexivity.
Qed.

(** The stock rows with their prices.  Every stock row is answered, in
    the order fetched; its four prices are [flt] of the fields of the
    last fetched price row of its item, and 0.0 each when no price row
    of the item was fetched. *)
Theorem stock_rows_carry_their_prices :
  forall rp filters d,
    filters_of rp filters = Ok d ->
    let price_list :=
      if truthy (dict_get "price_list" d)
      then dict_get "price_list" d else PStr "Sales Price List" in
    let stock :=
      sql_stock rp (where_clause (fst (stock_conditions d)))
        (snd (stock_conditions d)) in
    let prices :=
      get_all_item_price rp (nodup_codes (map st_item stock)) price_list in
    get_item_stock_and_prices rp filters
    = Ok (map (fun row =>
                 stock_entry_of rp row
                   (find (fun p => String.eqb (pr_item_code p) (st_item row))
                      (rev prices)))
              stock).
Proof.
  intros rp filters d F price_list stock prices.
  subst price_list stock prices.
  unfold get_item_stock_and_prices. rewrite F. cbn [obind].
  destruct (stock_conditions d) as [conditions params]. cbn [fst snd].
  rewrite empty_guard.
  f_equal. apply map_ext. intros row. f_equal.
  unfold price_dict.
  rewrite (dict_find_fold_set pr_item_code (fun p => p)).
  match goal with
  | |- context [find ?f ?l] => destruct (find f l); reflexivity
  end.
Qed.

(** The stock query takes the filter values as parameters only.  The
    conditions hold one [%s] for each parameter, and their text depends
    on which filters are set, not on the values: two filter dictionaries
    of the same shape give the same [WHERE] clause. *)
Theorem stock_query_is_parameterised :
  forall d1 d2,
    same_shape d1 d2 ->
    where_clause (fst (stock_conditions d1))
    = where_clause (fst (stock_conditions d2))
    /\ List.length (filter (contains "%s") (fst (stock_conditions d1)))
       = List.length (snd (stock_conditions d1)).
Proof.
  intros d1 d2 (T & I1 & I2).
  assert (Inc : truthy (match dict_find "include_zero_stock" d1 with
                        | Some v => v | None => PBool true end)
                = truthy (match dict_find "include_zero_stock" d2 with
                          | Some v => v | None => PBool true end)).
  { destruct (dict_find "include_zero_stock" d1) as [v|] eqn:E.
    - destruct (I1 v eq_refl) as (v' & -> & Tv). symmetry. exact Tv.
    - rewrite (I2 eq_refl). reflexivity. }
  unfold stock_conditions.
  rewrite <- Inc, <- !T.
  destruct (truthy (dict_get "item_code" d1)),
           (truthy (dict_get "warehouse" d1)),
           (truthy (dict_get "company" d1)),
           (truthy (dict_get "item_group" d1)),
           (truthy (match dict_find "include_zero_stock" d1 with
                    | Some v => v | None => PBool true end));
    split; reflexivity.
Qed.

(** ** The properties above at concrete inputs *)

(** A check-in of log type BREAK is refused with status 401. *)
Lemma invalid_log_type_is_refused_witness :
  let w := Demo.demo_world Demo.no_rules [] in
  exists message w',
    create_checkin_checkout Demo.demo_fw
      (Demo.args "BREAK" PNone PNone PhNone None) w
    = (Ok (Failure message), w')
    /\ http_status_code w' = Some 401
    /\ nothing_stored w w'.
Proof.
  intros w. apply invalid_log_type_is_refused. reflexivity.
Defined.

(** A check-in for EMP-404, whom the table does not know. *)
Lemma unknown_or_inactive_employee_is_refused_witness :
  let w := Demo.demo_world Demo.no_rules [] in
  let a := mkArgs (Some "EMP-404") "IN" PNone PNone None PhNone PhNone None
             None None None None in
  exists w',
    create_checkin_checkout Demo.demo_fw a w
    = (Ok (Failure "Employee not found. Please check the employee ID and try again."),
       w')
    /\ http_status_code w' = Some 401
    /\ nothing_stored w w'.
Proof.
  intros w a.
  destruct (unknown_or_inactive_employee_is_refused Demo.demo_fw a w eq_refl)
    as [U _].
  apply U. reflexivity.
Defined.

(** A check-in stamped on 9999-12-31. *)
Lemma last_day_is_an_internal_error_witness :
  let w := Demo.demo_world Demo.no_rules [] in
  let a := Demo.args "IN" (PFloat (Finite (400005 # 10000)))
             (PFloat (Finite (-74 # 1))) PhNone
             (Some "9999-12-31 10:00:00") in
  record_checkin Demo.demo_fw a Demo.emp1 PhNone PhNone None w
  = (Raise (mkExc OverflowError "date value out of range"), w).
Proof.
  intros w a.
  destruct (last_day_is_an_internal_error Demo.demo_fw a Demo.emp1 PhNone
              PhNone None w
              (mkDatetime (Demo.clock 9999 12 31 10 0 0) 0 None)
              eq_refl eq_refl) as [E _].
  exact E.
Defined.

(** EMP-001, checked in at 09:00, checks out with latitude 0 and the
    longitude as text: the record and the response carry no latitude
    and the longitude -74.0. *)
Lemma stored_coordinates_witness :
  let w := Demo.demo_world Demo.no_rules
             [Demo.stored "EMP-CKIN-1" "IN" (Demo.clock 2025 1 1 9 0 0)] in
  let a := Demo.args "OUT" (PInt 0) (PStr "-74.0") PhNone None in
  exists resp w',
    create_checkin_checkout Demo.demo_fw a w = (Ok (Success resp), w')
    /\ resp_latitude resp = None
    /\ resp_longitude resp = Some (Finite (-74 # 1)).
Proof.
  intros w a.
  destruct (create_checkin_checkout Demo.demo_fw a w)
    as [[[resp|m]|e] w'] eqn:E;
    [ | vm_compute in E; discriminate E | vm_compute in E; discriminate E].
  exists resp, w'. split; [reflexivity|].
  destruct (stored_coordinates _ _ _ _ _ E)
    as (old & c & _ & _ & _ & _ & _ & La & Lo).
  split; [exact La|].
  destruct Lo as (f & F & ->). vm_compute in F. inversion F. reflexivity.
Defined.

(** The File FILE-9, uploaded earlier, is attached to EMP-CKIN-1 by its
    id. *)
Lemma photo_id_is_reattached_witness :
  let file := mkFile "FILE-9" "selfie.jpg" "/files/selfie.jpg" None None
                [Byte.x41] in
  let w := set_tabFile [file] (Demo.demo_world Demo.no_rules []) in
  exists w',
    attach_photo Demo.demo_fw PhNone (Some "FILE-9") "EMP-001" "EMP-CKIN-1"
      "location" w
    = (Ok (Some (mkFile "FILE-9" "selfie.jpg" "/files/selfie.jpg"
                   (Some "Employee Checkin") (Some "EMP-CKIN-1") [Byte.x41])),
       w')
    /\ option_map f_attached_to_name (lookup f_name "FILE-9" (tabFile w'))
       = Some (Some "EMP-CKIN-1").
Proof.
  intros file w.
  destruct (photo_id_is_reattached Demo.demo_fw PhNone (Some "FILE-9")
              "EMP-001" "EMP-CKIN-1" "location" w eq_refl eq_refl) as [_ R].
  destruct (R file eq_refl eq_refl) as (w' & A & L & _).
  exists w'. split; [exact A|].
  cbn [or_empty] in L. rewrite L. reflexivity.
Defined.

(** A check-in with a one-byte location photo: the photo is listed with
    the new record. *)
Lemma uploaded_location_photo_is_listed_witness :
  let w := Demo.demo_world Demo.no_rules [] in
  let a := Demo.args "IN" (PFloat (Finite (400005 # 10000)))
             (PFloat (Finite (-74 # 1))) (PhBytes [Byte.x41]) None in
  exists resp w' c d,
    create_checkin_checkout Demo.demo_fw a w = (Ok (Success resp), w')
    /\ ck_name c = resp_checkin_id resp
    /\ f_content d = [Byte.x41]
    /\ rd_location_photo (build_record_data Demo.demo_fw w' Demo.emp1 c)
       = Some (f_name d, f_file_url d).
Proof.
  intros w a.
  destruct (create_checkin_checkout Demo.demo_fw a w)
    as [[[resp|m]|e] w'] eqn:E;
    [ | vm_compute in E; discriminate E | vm_compute in E; discriminate E].
  destruct (uploaded_location_photo_is_listed Demo.demo_fw a [Byte.x41] w
              resp w' eq_refl eq_refl eq_refl eq_refl eq_refl E)
    as (old & c & d & _ & N & C & _ & L).
  exists resp, w', c, d.
  split; [reflexivity|]. split; [exact N|]. split; [exact C | apply L].
Defined.

(** Three check-ins of EMP-001, listed two to a page. *)
Lemma page_size_and_has_more_witness :
  let w := Demo.demo_world Demo.no_rules
             [Demo.stored "EMP-CKIN-1" "IN" (Demo.clock 2024 12 30 9 0 0);
              Demo.stored "EMP-CKIN-2" "OUT" (Demo.clock 2024 12 30 17 0 0);
              Demo.stored "EMP-CKIN-3" "IN" (Demo.clock 2024 12 31 9 0 0)] in
  exists res w',
    get_employee_checkin_records Demo.demo_fw (Some "EMP-001") None None None
      (PInt 2) (PInt 0) w = (Ok res, w')
    /\ Z.of_nat (List.length (records res)) = 2
    /\ has_more res = true.
Proof.
  intros w.
  destruct (get_employee_checkin_records Demo.demo_fw (Some "EMP-001") None
              None None (PInt 2) (PInt 0) w) as [[res|e] w'] eqn:E;
    [| vm_compute in E; discriminate E].
  exists res, w'. split; [reflexivity|].
  destruct (page_size_and_has_more _ _ _ _ _ _ _ _ _ _ E) as [L M].
  assert (V : rr_limit res = 2 /\ rr_offset res = 0 /\ total_count res = 3)
    by (vm_compute in E; inversion E; repeat split).
  destruct V as (V1 & V2 & V3).
  rewrite V1, V2, V3 in L. rewrite V2, V3, L in M.
  split; [exact L | exact M].
Defined.




(** EMP-001 checked in at 09:00 on 2025-01-01: at noon a second
    check-in is refused and a check-out passes. *)
Lemma same_day_transitions_witness :
  let w := Demo.demo_world Demo.no_rules
             [Demo.stored "EMP-CKIN-1" "IN" (Demo.clock 2025 1 1 9 0 0)] in
  let noon := mkDatetime (Demo.clock 2025 1 1 12 0 0) 0 None in
  one_in_one_out Demo.demo_fw "EMP-001" "IN" noon w
  = (Raise (mkExc ValidationError
              "You have already completed your check-in for January 01, 2025. Only one check-in and one check-out are allowed per day."),
     w)
  /\ one_in_one_out Demo.demo_fw "EMP-001" "OUT" noon w = (Ok tt, w).
Proof.
  intros w noon.
  assert (W : wf_times (tabEmployee_Checkin w)).
  { intros c [<- | []]. reflexivity. }
  destruct (same_day_transitions Demo.demo_fw "EMP-001" noon w
              (mkDatetime (Demo.clock 2025 1 2 0 0 0) 0 None) W eq_refl)
    as (T1 & _ & T3 & _).
  split.
  - apply T1. vm_compute. discriminate.
  - apply T3; [vm_compute; discriminate | reflexivity].
Defined.

(** The shop's two orders: SO-1 has two items, in the order fetched,
    and no tax row; SO-2 has one of each. *)
Lemma sales_orders_carry_their_rows_witness :
  exists l,
    get_sales_orders DemoReports.demo_reports (FiltersText "{}") = Ok l
    /\ map (fun o => (oe_sales_order o, map ie_item_code (oe_items o),
                      List.length (oe_taxes o))) l
       = [("SO-2", [PStr "SALT"], 1%nat);
          ("SO-1", [PStr "TEA"; PStr "SALT"], 0%nat)].
Proof.
  eexists. split.
  - apply (sales_orders_carry_their_rows DemoReports.demo_reports
             (FiltersText "{}") [] eq_refl).
  - reflexivity.
Defined.

(** Carol's balance is that of her last row, Dan's is 0.0. *)
Lemma customers_carry_their_balance_witness :
  exists l,
    get_customers_with_loyalty_balance DemoReports.demo_reports FiltersNone
    = Ok l
    /\ map (fun c => (cu_id (ce_row c), ce_loyalty_points_balance c)) l
       = [("CUST-1", float_of_Z 15); ("CUST-2", float_of_Z 0)].
Proof.
  eexists. split.
  - apply (customers_carry_their_balance DemoReports.demo_reports
             FiltersNone [] eq_refl).
  - reflexivity.
Defined.

(** Tea has its last price, salt has none. *)
Lemma stock_rows_carry_their_prices_witness :
  exists l,
    get_item_stock_and_prices DemoReports.demo_reports
      (FiltersDict [("warehouse", PStr "Stores")]) = Ok l
    /\ map (fun e => (se_item e, se_current_sales_price_wp e,
                      se_minimum_sale_price e)) l
       = [("TEA", float_of_Z 5, float_of_Z 3);
          ("SALT", float_of_Z 0, float_of_Z 0)].
Proof.
  eexists. split.
  - apply (stock_rows_carry_their_prices DemoReports.demo_reports
             (FiltersDict [("warehouse", PStr "Stores")])
             [("warehouse", PStr "Stores")] eq_refl).
  - reflexivity.
Defined.

(** An item code that is SQL text gives the same [WHERE] clause as a
    plain one, and travels as the one parameter. *)
Lemma stock_query_is_parameterised_witness :
  let plain := [("item_code", PStr "TEA")] in
  let crafted := [("item_code", PStr "' OR 1=1 --")] in
  where_clause (fst (stock_conditions crafted))
  = "WHERE item.disabled = 0 AND bin.item_code = %s"
  /\ snd (stock_conditions crafted) = [PStr "' OR 1=1 --"].
Proof.
  intros plain crafted.
  assert (S : same_shape crafted plain).
  { split; [| split].
    - intros k. unfold crafted, plain, dict_get, dict_find.
      cbn [find fst snd].
      destruct (String.eqb "item_code" k); reflexivity.
    - intros v E. discriminate E.
    - reflexivity. }
  destruct (stock_query_is_parameterised crafted plain S) as [W _].
  split; [rewrite W; reflexivity | reflexivity].
Defined.
